(** * Performance aggregation and ranking engine of math-grellic-api

    A shallow embedding of the ranking code of [ActivityService]
    (activity.service.ts) and [PerformanceService]
    (performance.service.ts), and the properties of its rank assignment,
    completion de-duplication and score aggregation.

    Conventions of the embedding.
    - A JavaScript [number] that takes part in arithmetic (scores, times,
      averages) is an exact rational [Q]; database ids, category levels and
      [Date.valueOf()] timestamps are integers [Z]; array indices and ranks
      are [nat].
    - [null] is [None].
    - An array is a [list]. [Array.prototype.sort] sorts in place and is
      stable; functions that sort an array of one of their arguments return
      the argument as it is after the call, next to their result.
    - A thrown [TypeError] is the [Throw] case of [result]. *)

From Stdlib Require Import ZArith QArith Lqa Lia List Bool String Ascii.
From Stdlib Require Import Permutation Sorted.
Import ListNotations.

Local Open Scope Z_scope.

(* ================================================================== *)
(** * JavaScript values and arrays *)
(* ================================================================== *)

Module Js.

(** Errors thrown by property access on [null] or [undefined]. *)
Inductive error : Type := TypeError.

Inductive result (A : Type) : Type :=
| Ok (a : A)
| Throw (e : error).
Arguments Ok {A} a.
Arguments Throw {A} e.

Definition bind {A B} (m : result A) (k : A -> result B) : result B :=
match m with
| Ok a => k a
| Throw e => Throw e
end.

(** The value of a call that returned. *)
Definition returned {A} (m : result A) : option A :=
match m with
| Ok a => Some a
| Throw _ => None
end.

(** [Promise.all(xs.map(async f))]: the first rejection rejects the whole. *)
Fixpoint mapM {A B} (f : A -> result B) (l : list A) : result (list B) :=
match l with
| [] => Ok []
| x :: l' =>
    bind (f x) (fun y => bind (mapM f l') (fun ys => Ok (y :: ys)))
end.

(** [ToNumber] of a [number | null] operand of [-]: [null] counts as 0. *)
Definition num (v : option Q) : Q :=
match v with
| Some q => q
| None => 0%Q
end.

(** [a !== b] on [number | null] values. *)
Definition strictNeq (a b : option Q) : bool :=
match a, b with
| Some x, Some y => negb (Qeq_bool x y)
| None, None => false
| _, _ => true
end.

(** [v != null] and [v == null]. *)
Definition notNull {A} (v : option A) : bool :=
match v with
| Some _ => true
| None => false
end.

Definition isNull {A} (v : option A) : bool := negb (notNull v).

Section Arrays.
Context {A : Type}.

(** [arr.findIndex(p)]: the index of the first element that satisfies
    [p], or -1. *)
Fixpoint findIndexFrom (p : A -> bool) (i : Z) (l : list A) : Z :=
  match l with
  | [] => -1
  | x :: l' => if p x then i else findIndexFrom p (i + 1) l'
  end.

Definition findIndex (p : A -> bool) (arr : list A) : Z :=
  findIndexFrom p 0 arr.

(** [arr.filter((x, index, array) => p)]. *)
Fixpoint filterFrom (p : A -> Z -> list A -> bool) (i : Z)
         (arr l : list A) : list A :=
  match l with
  | [] => []
  | x :: l' =>
      if p x i arr then x :: filterFrom p (i + 1) arr l'
      else filterFrom p (i + 1) arr l'
  end.

Definition filterIdx (p : A -> Z -> list A -> bool) (arr : list A)
  : list A :=
  filterFrom p 0 arr arr.

(** The idiom
    [arr.filter((x, index, array) =>
       array.findIndex((item) => key(item) === key(x)) === index)]. *)
Definition firstPerKey (key : A -> Z) (arr : list A) : list A :=
  filterIdx
    (fun x index array =>
       findIndex (fun item => key item =? key x) array =? index)
    arr.

Definition sameKey (key : A -> Z) (x item : A) : bool := key item =? key x.

(** The elements of [l] whose key occurs neither in [seen] nor earlier
    in [l]: what [firstPerKey] computes, by recursion on the array. *)
Fixpoint keepFirst (key : A -> Z) (seen l : list A) : list A :=
  match l with
  | [] => []
  | x :: l' =>
      if existsb (sameKey key x) seen then keepFirst key (seen ++ [x]) l'
      else x :: keepFirst key (seen ++ [x]) l'
  end.

(** [arr.map((x, index) => f)]. *)
Fixpoint mapFrom {B} (f : A -> nat -> B) (i : nat) (l : list A)
  : list B :=
  match l with
  | [] => []
  | x :: l' => f x i :: mapFrom f (S i) l'
  end.

Definition mapIdx {B} (f : A -> nat -> B) (arr : list A) : list B :=
  mapFrom f 0%nat arr.

(** [arr.sort(cmp)]. The sort is stable: [x] goes before [y] when
    [cmp(x, y) <= 0], and elements that compare equal keep their
    order. For a consistent comparator every stable sort returns this
    list. *)
Fixpoint insert (cmp : A -> A -> Q) (x : A) (l : list A) : list A :=
  match l with
  | [] => [x]
  | y :: l' =>
      if Qle_bool (cmp x y) 0 then x :: y :: l'
      else y :: insert cmp x l'
  end.

Definition sort (cmp : A -> A -> Q) (arr : list A) : list A :=
  fold_right (insert cmp) [] arr.

(** [x] may stand before [y] in an array sorted with [cmp]. *)
Definition before (cmp : A -> A -> Q) (x y : A) : Prop := (cmp x y <= 0)%Q.

(** [arr.reduce(f, init)]. *)
Definition reduce {B} (f : B -> A -> B) (init : B) (arr : list A) : B :=
  fold_left f arr init.

(** [arr.length ? a : b]. *)
Definition hasLength (arr : list A) : bool :=
  match arr with
  | [] => false
  | _ :: _ => true
  end.

End Arrays.

End Js.

Notation "x <- m ;; k" := (Js.bind m (fun x => k))
  (at level 61, m at next level, right associativity).

(* ================================================================== *)
(** * Entities *)
(* ================================================================== *)

Inductive ActivityCategoryType : Type := Point | Time | Stage.

Definition gameTypeEqb (a b : ActivityCategoryType) : bool :=
  match a, b with
  | Point, Point | Time, Time | Stage, Stage => true
  | _, _ => false
  end.

(** The [activity] relation loaded on a completion's category:
    [activityCategory.activity.id] and [activityCategory.activity.game.type]. *)
Record ActivityRef : Type := {
  ref_id : Z;
  ref_gameType : ActivityCategoryType
}.

Record ActivityCategory : Type := {
  cat_id : Z;
  cat_level : Z;
  cat_updatedAt : Z;
  cat_activity : ActivityRef
}.

Record ActivityCategoryCompletion : Type := {
  com_id : Z;
  com_studentId : Z;
  com_activityCategory : ActivityCategory;
  com_score : Q;
  com_timeCompletedSeconds : Q;
  com_submittedAt : Z
}.

Record Activity : Type := {
  act_id : Z;
  act_gameType : ActivityCategoryType;
  act_categories : list ActivityCategory
}.

Record Exam : Type := {
  exam_id : Z;
  exam_passingPoints : Q;
  exam_schedules : list Z   (* the [startDate] of each schedule *)
}.

Record ExamCompletion : Type := {
  ec_id : Z;
  ec_exam : Exam;
  ec_score : Q;
  ec_submittedAt : Z
}.

Record StudentUserAccount : Type := {
  stu_id : Z;
  stu_firstName : string;
  stu_lastName : string;
  stu_middleName : option string;
  stu_examCompletions : list ExamCompletion;
  stu_activityCompletions : list ActivityCategoryCompletion
}.


(* ================================================================== *)
(** * ActivityService (activity.service.ts) *)
(* ================================================================== *)

Module ActivityService.

(** One row of the leaderboard: [{ studentId, score, completions }], and
    [rank] once ranks are assigned. *)
Record StudentData : Type := {
  studentId : Z;
  score : option Q;
  completions : list ActivityCategoryCompletion
}.

Record RankedData : Type := {
  data : StudentData;
  rank : option nat
}.

(** [activity.categories.sort((catA, catB) =>
      catB.updatedAt.valueOf() - catA.updatedAt.valueOf())]:
    the categories array of the argument after the in-place sort. *)
Definition sortedCategories (activity : Activity) : list ActivityCategory :=
  Js.sort
    (fun catA catB => inject_Z (cat_updatedAt catB - cat_updatedAt catA))
    (act_categories activity).

Definition sortCategoriesInPlace (activity : Activity) : Activity :=
  {| act_id := act_id activity;
     act_gameType := act_gameType activity;
     act_categories := sortedCategories activity |}.

(** "Remove duplicate category level". *)
Definition filteredCategories (activity : Activity) : list ActivityCategory :=
  Js.firstPerKey cat_level (sortedCategories activity).

Definition byTime (comA comB : ActivityCategoryCompletion) : Q :=
  (com_timeCompletedSeconds comA - com_timeCompletedSeconds comB)%Q.

Definition byScoreDesc (comA comB : ActivityCategoryCompletion) : Q :=
  (com_score comB - com_score comA)%Q.

Definition ofCategory (cat : ActivityCategory)
  (targetCompletions : list ActivityCategoryCompletion)
  : list ActivityCategoryCompletion :=
  filter (fun com => cat_id (com_activityCategory com) =? cat_id cat)
    targetCompletions.

(** The [reduce] callback of the point branch: the best completion of
    [cat], if there is one, is pushed to [total]. *)
Definition pushBestPoint
  (targetCompletions : list ActivityCategoryCompletion)
  (total : list ActivityCategoryCompletion) (cat : ActivityCategory)
  : list ActivityCategoryCompletion :=
  let list :=
    Js.sort byScoreDesc (Js.sort byTime (ofCategory cat targetCompletions)) in
  match list with
  | [] => total
  | first :: _ => total ++ [first]
  end.

(** The [reduce] callback of the time branch. *)
Definition pushBestTime
  (targetCompletions : list ActivityCategoryCompletion)
  (total : list ActivityCategoryCompletion) (cat : ActivityCategory)
  : list ActivityCategoryCompletion :=
  let list := Js.sort byTime (ofCategory cat targetCompletions) in
  match list with
  | [] => total
  | first :: _ => total ++ [first]
  end.

Definition sumScore (coms : list ActivityCategoryCompletion) : Q :=
  Js.reduce (fun total com => (total + com_score com)%Q) 0%Q coms.

Definition sumTime (coms : list ActivityCategoryCompletion) : Q :=
  Js.reduce (fun total com => (total + com_timeCompletedSeconds com)%Q)
    0%Q coms.

Definition lengthQ {A} (l : list A) : Q := inject_Z (Z.of_nat (List.length l)).

(** The body of [students.map(async ({ id: studentId }) => ...)], given the
    rows [targetCompletions] that the repository returned for the student. *)
Definition studentDataOf (gameType : ActivityCategoryType)
  (cats : list ActivityCategory) (sid : Z)
  (targetCompletions : list ActivityCategoryCompletion)
  : Js.result StudentData :=
  match gameType with
  | Point =>
      let completions := Js.reduce (pushBestPoint targetCompletions) [] cats in
      let score :=
        if Js.hasLength completions then Some (sumScore completions)
        else None in
      Js.Ok {| studentId := sid; score := score; completions := completions |}
  | Time =>
      let completions := Js.reduce (pushBestTime targetCompletions) [] cats in
      let score :=
        if Js.hasLength completions
        then Some (sumTime completions / lengthQ completions)%Q
        else None in
      Js.Ok {| studentId := sid; score := score; completions := completions |}
  | Stage =>
      (* [targetCategory = filteredCategories.length
            ? filteredCategories[0] : null]; the filter callback reads
         [targetCategory.id], which throws on [null] as soon as it is
         called, that is, when [targetCompletions] is not empty. *)
      completions <-
        match cats, targetCompletions with
        | targetCategory :: _, _ =>
            Js.Ok (Js.sort byScoreDesc
                     (Js.sort byTime
                        (ofCategory targetCategory targetCompletions)))
        | [], [] => Js.Ok []
        | [], _ :: _ => Js.Throw Js.TypeError
        end ;;
      Js.Ok {| studentId := sid;
               score := match completions with
                        | [] => None
                        | first :: _ => Some (com_score first)
                        end;
               completions := completions |}
  end.

Definition withRank (d : StudentData) (index : nat) : RankedData :=
  {| data := d; rank := Some (index + 1)%nat |}.

Definition withoutRank (d : StudentData) : RankedData :=
  {| data := d; rank := None |}.

Definition scoreDesc (dataA dataB : StudentData) : Q :=
  (Js.num (score dataB) - Js.num (score dataA))%Q.

Definition scoreAsc (dataA dataB : StudentData) : Q :=
  (Js.num (score dataA) - Js.num (score dataB))%Q.

Definition atLeast3 (d : StudentData) : bool :=
  (3 <=? List.length (completions d))%nat.

(** "Calculate student rankings". *)
Definition rankStudentData (gameType : ActivityCategoryType)
  (studentData : list StudentData) : list RankedData :=
  match gameType with
  | Point =>
      let completeStudentData :=
        Js.mapIdx withRank
          (Js.sort scoreDesc
             (filter (fun d => Js.notNull (score d)) studentData)) in
      let incompleteStudentData :=
        map withoutRank (filter (fun d => Js.isNull (score d)) studentData) in
      completeStudentData ++ incompleteStudentData
  | Time =>
      let completeStudentData :=
        Js.mapIdx withRank
          (Js.sort scoreAsc
             (filter (fun d => Js.notNull (score d) && atLeast3 d)
                studentData)) in
      let incompleteStudentData :=
        map withoutRank
          (filter (fun d => Js.isNull (score d) || negb (atLeast3 d))
             studentData) in
      completeStudentData ++ incompleteStudentData
  | Stage =>
      let completeStudentData :=
        Js.mapIdx withRank
          (Js.sort scoreDesc
             (filter (fun d => Js.notNull (score d)) studentData)) in
      let incompleteStudentData :=
        map withoutRank (filter (fun d => Js.isNull (score d)) studentData) in
      completeStudentData ++ incompleteStudentData
  end.

Section Repositories.

(** [userService.getStudentsByTeacherId]: the roster of a teacher. *)
Variable getStudentsByTeacherId : Z -> list StudentUserAccount.

(** The rows of [activityCategoryCompletionRepo], in the order in which the
    database returns them. *)
Variable completionRows : list ActivityCategoryCompletion.

(** [activityCategoryCompletionRepo.find({ where: {
       activityCategory: { id: In(categoryIds) },
       student: { id: studentId } } })]: the rows of the student whose
    category is one of [categoryIds]; none when [categoryIds] is empty. *)
Definition findCompletions (categoryIds : list Z) (sid : Z)
  : list ActivityCategoryCompletion :=
  filter
    (fun com =>
       existsb (Z.eqb (cat_id (com_activityCategory com))) categoryIds
       && (com_studentId com =? sid))
    completionRows.

(** [generateActivityRankings(activity, teacherId)]: the activity as the
    call leaves it, and the leaderboard. *)
Definition generateActivityRankings (activity : Activity) (teacherId : Z)
  : Activity * Js.result (list RankedData) :=
  let students := getStudentsByTeacherId teacherId in
  let cats := filteredCategories activity in
  let categoryIds := map cat_id cats in
  (sortCategoriesInPlace activity,
   studentData <-
     Js.mapM
       (fun student =>
          studentDataOf (act_gameType activity) cats (stu_id student)
            (findCompletions categoryIds (stu_id student)))
       students ;;
   Js.Ok (rankStudentData (act_gameType activity) studentData)).

(** In [generateActivityWithCompletions] a category is spread into a new
    object whose [completions] is either the best completion itself or
    the empty array. *)
Inductive CompletionsField : Type :=
| OneCompletion (com : ActivityCategoryCompletion)
| CompletionArray (coms : list ActivityCategoryCompletion).

Record CategoryWithCompletions : Type := {
  category : ActivityCategory;
  cwc_completions : CompletionsField
}.

Record ActivityWithCompletions : Type := {
  awc_activity : Activity;
  awc_categories : list CategoryWithCompletions;
  awc_score : option Q
}.

(** [!!completions.length ? completions[0] : []]. *)
Definition firstOrEmpty (coms : list ActivityCategoryCompletion)
  : CompletionsField :=
  match coms with
  | [] => CompletionArray []
  | first :: _ => OneCompletion first
  end.

(** [!!cat.completions.length]: a completion object has no [length]. *)
Definition hasCompletions (cat : CategoryWithCompletions) : bool :=
  match cwc_completions cat with
  | OneCompletion _ => false
  | CompletionArray coms => Js.hasLength coms
  end.

(** [cat.completions[0]]: [undefined] on a completion object and on the
    empty array. *)
Definition completionAt0 (cat : CategoryWithCompletions)
  : option ActivityCategoryCompletion :=
  match cwc_completions cat with
  | OneCompletion _ => None
  | CompletionArray coms => hd_error coms
  end.

(** [total + cat.completions[0].<field>] inside a [reduce]: reading the
    field of [undefined] throws. *)
Definition addField (field : ActivityCategoryCompletion -> Q)
  (total : Js.result Q) (cat : CategoryWithCompletions) : Js.result Q :=
  t <- total ;;
  match completionAt0 cat with
  | Some com => Js.Ok (t + field com)%Q
  | None => Js.Throw Js.TypeError
  end.

(** [x || null] on a number: 0 is falsy. *)
Definition orNull (v : option Q) : option Q :=
  match v with
  | Some q => if Qeq_bool q 0 then None else Some q
  | None => None
  end.

Definition updatedDesc (catA catB : CategoryWithCompletions) : Q :=
  inject_Z (cat_updatedAt (category catB) - cat_updatedAt (category catA)).

(** [generateActivityWithCompletions(activity, studentId)]. *)
Definition generateActivityWithCompletions (activity : Activity) (sid : Z)
  : Activity * Js.result ActivityWithCompletions :=
  let cats := filteredCategories activity in
  let categoryIds := map cat_id cats in
  let targetCompletions := findCompletions categoryIds sid in
  let activity' := sortCategoriesInPlace activity in
  let finish categories score :=
    Js.Ok {| awc_activity := activity';
             awc_categories := categories;
             awc_score := score |} in
  (activity',
   match act_gameType activity with
   | Point =>
       let categories :=
         map (fun cat =>
                {| category := cat;
                   cwc_completions :=
                     firstOrEmpty
                       (Js.sort byScoreDesc
                          (Js.sort byTime
                             (ofCategory cat targetCompletions))) |})
           cats in
       let catWithCompletions := filter hasCompletions categories in
       if Js.hasLength catWithCompletions then
         s <- Js.reduce (addField com_score) (Js.Ok 0%Q) catWithCompletions ;;
         finish categories (Some s)
       else finish categories None
   | Time =>
       let categories :=
         map (fun cat =>
                {| category := cat;
                   cwc_completions :=
                     firstOrEmpty
                       (Js.sort byTime (ofCategory cat targetCompletions)) |})
           cats in
       let catWithCompletions := filter hasCompletions categories in
       if Js.hasLength catWithCompletions then
         s <- Js.reduce (addField com_timeCompletedSeconds) (Js.Ok 0%Q)
                catWithCompletions ;;
         finish categories (Some (s / lengthQ catWithCompletions)%Q)
       else finish categories None
   | Stage =>
       completions <-
         match cats, targetCompletions with
         | targetCategory :: _, _ =>
             Js.Ok (Js.sort byScoreDesc
                      (Js.sort byTime
                         (ofCategory targetCategory targetCompletions)))
         | [], [] => Js.Ok []
         | [], _ :: _ => Js.Throw Js.TypeError
         end ;;
       let categories :=
         match cats with
         | targetCategory :: _ =>
             [ {| category := targetCategory;
                  cwc_completions := firstOrEmpty completions |} ]
         | [] => []
         end in
       let catWithCompletions :=
         Js.sort updatedDesc (filter hasCompletions categories) in
       (* [catWithCompletions[0]?.completions[0]?.score || null] *)
       finish categories
         (orNull
            (match catWithCompletions with
             | [] => None
             | cat :: _ => option_map com_score (completionAt0 cat)
             end))
   end).

End Repositories.

End ActivityService.


(* ================================================================== *)
(** * PerformanceService (performance.service.ts) *)
(* ================================================================== *)

Module PerformanceService.

(** [{ ...student, overallExamScore }] and
    [{ ...student, overallActivityScore }]: one record for both tracks. *)
Record Scored : Type := {
  student : StudentUserAccount;
  overallScore : option Q
}.

(** The same with [overallExamRank] or [overallActivityRank]. *)
Record Ranked : Type := {
  scored : Scored;
  overallRank : option nat
}.

Record Rankings : Type := {
  rankedStudents : list Ranked;
  unrankedStudents : list Ranked
}.

(** The [map] callback that assigns ranks, with the two variables it
    captures, [previousScore] and [currentRank], passed along. *)
Fixpoint assignRanks (index : nat) (previousScore : option Q)
  (currentRank : option nat) (l : list Scored) : list Ranked :=
  match l with
  | [] => []
  | s :: l' =>
      let currentRank' :=
        if Js.strictNeq (overallScore s) previousScore
        then Some (index + 1)%nat
        else currentRank in
      {| scored := s; overallRank := currentRank' |}
        :: assignRanks (S index) (overallScore s) currentRank' l'
  end.

Definition scoreDesc (a b : Scored) : Q :=
  (Js.num (overallScore b) - Js.num (overallScore a))%Q.

Definition unranked (s : Scored) : Ranked :=
  {| scored := s; overallRank := None |}.

Definition submittedDescExam (catA catB : ExamCompletion) : Q :=
  inject_Z (ec_submittedAt catB - ec_submittedAt catA).

Definition submittedDesc (catA catB : ActivityCategoryCompletion) : Q :=
  inject_Z (com_submittedAt catB - com_submittedAt catA).

(** [student.examCompletions.sort(...)]: the student after the in-place
    sort of the array. *)
Definition sortExamCompletions (s : StudentUserAccount) : StudentUserAccount :=
  {| stu_id := stu_id s;
     stu_firstName := stu_firstName s;
     stu_lastName := stu_lastName s;
     stu_middleName := stu_middleName s;
     stu_examCompletions := Js.sort submittedDescExam (stu_examCompletions s);
     stu_activityCompletions := stu_activityCompletions s |}.

Definition sortActivityCompletions (s : StudentUserAccount)
  : StudentUserAccount :=
  {| stu_id := stu_id s;
     stu_firstName := stu_firstName s;
     stu_lastName := stu_lastName s;
     stu_middleName := stu_middleName s;
     stu_examCompletions := stu_examCompletions s;
     stu_activityCompletions :=
       Js.sort submittedDesc (stu_activityCompletions s) |}.

Definition examIdOf (c : ExamCompletion) : Z := exam_id (ec_exam c).

Definition categoryIdOf (c : ActivityCategoryCompletion) : Z :=
  cat_id (com_activityCategory c).

Definition levelOf (c : ActivityCategoryCompletion) : Z :=
  cat_level (com_activityCategory c).

Definition activityIdOf (c : ActivityCategoryCompletion) : Z :=
  ref_id (cat_activity (com_activityCategory c)).

Definition isTimeBased (c : ActivityCategoryCompletion) : bool :=
  gameTypeEqb (ref_gameType (cat_activity (com_activityCategory c))) Time.

(** "Remove duplicate exam completion". *)
Definition filteredExamCompletions (s : StudentUserAccount)
  : list ExamCompletion :=
  Js.firstPerKey examIdOf (stu_examCompletions (sortExamCompletions s)).

(** The callback of [students.map] in [generateOverallExamRankings]. *)
Definition transformExam (s : StudentUserAccount) : Scored :=
  let s' := sortExamCompletions s in
  let filtered := filteredExamCompletions s in
  if negb (Js.hasLength filtered) then
    {| student := s'; overallScore := None |}
  else
    {| student := s';
       overallScore :=
         Some (Js.reduce (fun total currentValue =>
                            (ec_score currentValue + total)%Q) 0%Q filtered) |}.

(** [x || 0] on a number. *)
Definition orZero (q : Q) : Q := if Qeq_bool q 0 then 0%Q else q.

(** [!!avgTime] on [number | null]. *)
Definition truthy (v : option Q) : bool :=
  match v with
  | Some q => negb (Qeq_bool q 0)
  | None => false
  end.

Definition sumOrZero (coms : list ActivityCategoryCompletion) : Q :=
  Js.reduce (fun total com => (orZero (com_score com) + total)%Q) 0%Q coms.

(** "Remove duplicate activity completion". *)
Definition filteredActivityCompletions (s : StudentUserAccount)
  : list ActivityCategoryCompletion :=
  Js.firstPerKey categoryIdOf
    (stu_activityCompletions (sortActivityCompletions s)).

(** The callback of [timeActivityIds.map]: the average of one time-based
    activity, or [null]. *)
Definition avgTimeOf
  (timeActivityCompletions : list ActivityCategoryCompletion)
  (activityId : Z) : option Q :=
  let targetCompletions :=
    filter (fun com => activityIdOf com =? activityId)
      timeActivityCompletions in
  let filteredTargetCompletions := Js.firstPerKey levelOf targetCompletions in
  if (List.length filteredTargetCompletions =? 3)%nat then
    let time := sumOrZero filteredTargetCompletions in
    Some (time / 3)%Q
  else None.

Definition totalTimeScoreOf
  (timeActivityCompletions : list ActivityCategoryCompletion) : Q :=
  let timeActivityIds :=
    Js.firstPerKey (fun id : Z => id)
      (map activityIdOf timeActivityCompletions) in
  Js.reduce (fun total avgTime => (total + 1 / Js.num avgTime)%Q) 0%Q
    (filter truthy (map (avgTimeOf timeActivityCompletions) timeActivityIds)).

(** The callback of [students.map] in [generateOverallActivityRankings]. *)
Definition transformActivity (s : StudentUserAccount) : Scored :=
  let s' := sortActivityCompletions s in
  let filtered := filteredActivityCompletions s in
  if negb (Js.hasLength filtered) then
    {| student := s'; overallScore := None |}
  else
    let poinLevelActivityCompletions :=
      filter (fun com => negb (isTimeBased com)) filtered in
    let totalPointLevelScore := sumOrZero poinLevelActivityCompletions in
    let timeActivityCompletions := filter isTimeBased filtered in
    let totalTimeScore := totalTimeScoreOf timeActivityCompletions in
    {| student := s';
       overallScore := Some (totalPointLevelScore + totalTimeScore)%Q |}.

Section Collation.

(** [generateFullName(firstName, lastName, middleName)] of
    common/helpers/string.helper and [String.prototype.localeCompare]. *)
Variable generateFullName : string -> string -> option string -> string.
Variable localeCompare : string -> string -> Q.

Definition fullNameOf (s : Scored) : string :=
  generateFullName (stu_firstName (student s)) (stu_lastName (student s))
    (stu_middleName (student s)).

Definition byFullName (a b : Scored) : Q :=
  localeCompare (fullNameOf a) (fullNameOf b).

(** The two lists that both ranking functions build from
    [transformedStudents]. *)
Definition rankTransformed (transformedStudents : list Scored) : Rankings :=
  {| rankedStudents :=
       assignRanks 0 None None
         (Js.sort scoreDesc
            (filter (fun s => Js.notNull (overallScore s))
               transformedStudents));
     unrankedStudents :=
       map unranked
         (Js.sort byFullName
            (filter (fun s => Js.isNull (overallScore s))
               transformedStudents)) |}.

(** [generateOverallExamRankings(students)]: the students as the call
    leaves them, and the rankings. *)
Definition generateOverallExamRankings (students : list StudentUserAccount)
  : list StudentUserAccount * Rankings :=
  (map sortExamCompletions students,
   rankTransformed (map transformExam students)).

(** [generateOverallActivityRankings(students)]. *)
Definition generateOverallActivityRankings
  (students : list StudentUserAccount)
  : list StudentUserAccount * Rankings :=
  (map sortActivityCompletions students,
   rankTransformed (map transformActivity students)).

(** The fields of the detailed performances that do not go through
    [toFixed]. *)
Record ExamPerformance : Type := {
  currentExamCount : nat;
  examsCompletedCount : nat;
  examsPassedCount : nat;
  examsFailedCount : nat;
  examsExpiredCount : nat;
  overallExamRank : option nat;
  overallExamScore : option Q
}.

Record ActivityPerformance : Type := {
  overallActivityRank : option nat;
  overallActivityScore : option Q;
  totalActivityCount : nat;
  activitiesCompletedCount : nat
}.

(** [[...rankedStudents, ...unrankedStudents].find((s) => s.id === id)]:
    destructuring the [undefined] of a failed search throws. *)
Definition findStudent (r : Rankings) (id : Z) : Js.result Ranked :=
  match
    find (fun s => stu_id (student (scored s)) =? id)
      (rankedStudents r ++ unrankedStudents r)
  with
  | Some s => Js.Ok s
  | None => Js.Throw Js.TypeError
  end.

(** [examService.getAllByStudentId], [activityService.getAllByStudentId]
    and the clock read by [dayjs()]. *)
Variable getAllExamsByStudentId : Z -> list Exam.
Variable getAllActivitiesByStudentId : Z -> list Activity.
Variable currentDateTime : Z.

(** The de-duplication of [generateOverallExamDetailedPerformance]: the
    array is filtered as it is, before the call that sorts it. *)
Definition detailedExamCompletions (s : StudentUserAccount)
  : list ExamCompletion :=
  Js.firstPerKey examIdOf (stu_examCompletions s).

Definition passed (ec : ExamCompletion) : bool :=
  Qle_bool (exam_passingPoints (ec_exam ec)) (ec_score ec).

(** [generateOverallExamDetailedPerformance(student, otherStudents)]. *)
Definition generateOverallExamDetailedPerformance
  (s : StudentUserAccount) (otherStudents : list StudentUserAccount)
  : list StudentUserAccount * Js.result ExamPerformance :=
  let allExams := getAllExamsByStudentId (stu_id s) in
  let availableExams :=
    filter (fun exam =>
              existsb (fun startDate => startDate <=? currentDateTime)
                (exam_schedules exam))
      allExams in
  let examCompletions := detailedExamCompletions s in
  let examsPassedCount := List.length (filter passed examCompletions) in
  let examsFailedCount :=
    List.length (filter (fun ec => negb (passed ec)) examCompletions) in
  let examsExpiredCount :=
    List.length
      (filter (fun exam =>
                 negb (existsb (fun ec => examIdOf ec =? exam_id exam)
                         examCompletions))
         availableExams) in
  let '(students', rankings) :=
    generateOverallExamRankings (s :: otherStudents) in
  (students',
   found <- findStudent rankings (stu_id s) ;;
   Js.Ok {| currentExamCount := List.length availableExams;
            examsCompletedCount := List.length examCompletions;
            examsPassedCount := examsPassedCount;
            examsFailedCount := examsFailedCount;
            examsExpiredCount := examsExpiredCount;
            overallExamRank := overallRank found;
            overallExamScore := overallScore (scored found) |}).

(** The callback of [allActivities.forEach]: 1 when the activity counts
    as completed. *)
Definition completedActivity
  (sortedCompletions : list ActivityCategoryCompletion)
  (activity : Activity) : nat :=
  let completions :=
    Js.firstPerKey levelOf
      (filter (fun com =>
                 existsb (fun cat => cat_id cat =? categoryIdOf com)
                   (act_categories activity))
         sortedCompletions) in
  if negb (Js.hasLength completions) then 0%nat
  else
    match act_gameType activity with
    | Stage => 1%nat
    | _ => if (List.length completions =? 3)%nat then 1%nat else 0%nat
    end.

(** [generateOverallActivityDetailedPerformance(student, otherStudents)]. *)
Definition generateOverallActivityDetailedPerformance
  (s : StudentUserAccount) (otherStudents : list StudentUserAccount)
  : list StudentUserAccount * Js.result ActivityPerformance :=
  let allActivities := getAllActivitiesByStudentId (stu_id s) in
  let s1 := sortActivityCompletions s in
  (* [sortedCompletions] is the student's own array, which the ranking
     call below sorts once more before [forEach] reads it. *)
  let sortedCompletions :=
    stu_activityCompletions (sortActivityCompletions s1) in
  let '(students', rankings) :=
    generateOverallActivityRankings (s1 :: otherStudents) in
  (students',
   found <- findStudent rankings (stu_id s) ;;
   Js.Ok {| overallActivityRank := overallRank found;
            overallActivityScore := overallScore (scored found);
            totalActivityCount := List.length allActivities;
            activitiesCompletedCount :=
              Js.reduce
                (fun count activity =>
                   (count + completedActivity sortedCompletions activity)%nat)
                0%nat allActivities |}).

End Collation.

End PerformanceService.


(* ================================================================== *)
(** * Totality of a ranking *)
(* ================================================================== *)

Module Totality.

(** [ranked] and [unranked] hold the students [ids], each as often as
    [ids] does; every entry of [ranked] has a rank, no entry of
    [unranked] has one. *)
Definition partitions {R : Type} (idOf : R -> Z) (rankOf : R -> option nat)
  (ids : list Z) (ranked unranked : list R) : Prop :=
  Permutation (map idOf (ranked ++ unranked)) ids
  /\ (List.length ranked + List.length unranked = List.length ids)%nat
  /\ Forall (fun r => rankOf r <> None) ranked
  /\ Forall (fun r => rankOf r = None) unranked.

Definition rowId (r : ActivityService.RankedData) : Z :=
  ActivityService.studentId (ActivityService.data r).

Definition rankedId (r : PerformanceService.Ranked) : Z :=
  stu_id (PerformanceService.student (PerformanceService.scored r)).

End Totality.

(* ================================================================== *)
(** * The properties, as predicates on the results *)
(* ================================================================== *)

Module Policy.

Import PerformanceService.

Definition scoreOf (r : Ranked) : option Q := overallScore (scored r).

(** Competition ranking of an array in sorted order: the first entry has
    rank 1, an entry whose score equals the score of the entry before it
    shares that entry's rank, and any other entry has its 1-based
    position as rank. *)
Definition competitionRanked (l : list Ranked) : Prop :=
  forall i r, nth_error l i = Some r ->
    exists q, scoreOf r = Some q /\
      match i with
      | O => overallRank r = Some 1%nat
      | S j =>
          exists p qp, nth_error l j = Some p /\ scoreOf p = Some qp /\
            ((q == qp)%Q -> overallRank r = overallRank p) /\
            (~ (q == qp)%Q -> overallRank r = Some (i + 1)%nat)
      end.

(** [ranked] lists the scored entries of [transformed], highest score
    first. *)
Definition scoredDescending (transformed : list Scored)
  (ranked : list Ranked) : Prop :=
  Permutation (map scored ranked)
    (filter (fun s => Js.notNull (overallScore s)) transformed)
  /\ StronglySorted
       (fun a b => (Js.num (scoreOf b) <= Js.num (scoreOf a))%Q) ranked.

(** [a] may stand before [b] in the order of the full names. *)
Definition byName
  (generateFullName : string -> string -> option string -> string)
  (localeCompare : string -> string -> Q) (a b : Ranked) : Prop :=
  (localeCompare (fullNameOf generateFullName (scored a))
     (fullNameOf generateFullName (scored b)) <= 0)%Q.

(** The unranked students of [r] are the students of [transformed]
    without score, without rank, in ascending order of full name; the
    ranked students have a score and a rank. *)
Definition unrankedByName
  (generateFullName : string -> string -> option string -> string)
  (localeCompare : string -> string -> Q)
  (transformed : list Scored) (r : Rankings) : Prop :=
  Permutation (map scored (unrankedStudents r))
    (filter (fun s => Js.isNull (overallScore s)) transformed)
  /\ Forall (fun x => scoreOf x = None /\ overallRank x = None)
       (unrankedStudents r)
  /\ Forall (fun x => scoreOf x <> None /\ overallRank x <> None)
       (rankedStudents r)
  /\ Sorted (byName generateFullName localeCompare) (unrankedStudents r).

End Policy.

(* ================================================================== *)
(** * The sequential policy, as predicates on a leaderboard *)
(* ================================================================== *)

Module Sequential.

Import ActivityService.

(** The students that [generateActivityRankings] ranks. *)
Definition eligible (gameType : ActivityCategoryType) (d : StudentData)
  : bool :=
  match gameType with
  | Time => Js.notNull (score d) && atLeast3 d
  | _ => Js.notNull (score d)
  end.

(** The comparator of the game type. *)
Definition order (gameType : ActivityCategoryType)
  : StudentData -> StudentData -> Q :=
  match gameType with
  | Time => scoreAsc
  | _ => scoreDesc
  end.

(** [a] is at least as good as [b]: a higher score, or a lower time. *)
Definition atLeastAsGood (gameType : ActivityCategoryType)
  (a b : StudentData) : Prop :=
  match gameType with
  | Time => (Js.num (score a) <= Js.num (score b))%Q
  | _ => (Js.num (score b) <= Js.num (score a))%Q
  end.

Definition hasScore (q : Q) (d : StudentData) : bool :=
  Qeq_bool (Js.num (score d)) q.

(** [board] is [ranked] followed by [rest]: [ranked] holds the eligible
    rows of [studentData], best first, rows of equal score in the order of
    [studentData], each with its 1-based position as rank; [rest] holds
    the other rows, in the order of [studentData], without a rank. *)
Definition leaderboard (gameType : ActivityCategoryType)
  (studentData : list StudentData) (ranked rest : list RankedData) : Prop :=
  Permutation (map data ranked) (filter (eligible gameType) studentData)
  /\ StronglySorted (atLeastAsGood gameType) (map data ranked)
  /\ (forall q, filter (hasScore q) (map data ranked)
                = filter (hasScore q)
                    (filter (eligible gameType) studentData))
  /\ (forall i r, nth_error ranked i = Some r -> rank r = Some (i + 1)%nat)
  /\ map data rest
     = filter (fun d => negb (eligible gameType d)) studentData
  /\ Forall (fun r => rank r = None) rest.

(** The gate of a time-based leaderboard: fewer than three completions
    put a row in [rest], whatever its score; three or more put it in
    [ranked]. *)
Definition timeGate (studentData : list StudentData)
  (ranked rest : list RankedData) : Prop :=
  (forall d, In d studentData -> (List.length (completions d) < 3)%nat ->
     In (withoutRank d) rest /\ ~ In d (map data ranked))
  /\ (forall d, In d studentData -> (3 <= List.length (completions d))%nat ->
        score d <> None /\
        exists i, nth_error ranked i = Some (withRank d i))
  /\ Forall (fun r => rank r = None) rest
  /\ Forall (fun r => rank r <> None) ranked.

(** The rows computed for a roster: one per student, in roster order. *)
Definition rowsOf (completionRows : list ActivityCategoryCompletion)
  (activity : Activity) (students : list StudentUserAccount)
  (studentData : list StudentData) : Prop :=
  Forall2
    (fun st d =>
       studentId d = stu_id st
       /\ studentDataOf (act_gameType activity) (filteredCategories activity)
            (stu_id st)
            (findCompletions completionRows
               (map cat_id (filteredCategories activity)) (stu_id st))
          = Js.Ok d)
    students studentData.

(** "Each scored student's rank equals their 1-based position after
    sorting by score": the rows of [studentData] that have a score, sorted
    with the comparator of the game type, are in [board] with their
    position as rank. *)
Definition scoredByPosition (gameType : ActivityCategoryType)
  (studentData : list StudentData) (board : list RankedData) : Prop :=
  forall i d,
    nth_error
      (Js.sort (order gameType)
         (filter (fun d => Js.notNull (score d)) studentData)) i = Some d ->
    In (withRank d i) board.

(** The unranked part of a leaderboard: the rows that are not eligible,
    among them every row without score, in the order of [studentData],
    without rank, behind rows that have a score and a rank. *)
Definition unrankedInRosterOrder (gameType : ActivityCategoryType)
  (studentData : list StudentData) (ranked rest : list RankedData) : Prop :=
  map data rest = filter (fun d => negb (eligible gameType d)) studentData
  /\ Forall (fun r => rank r = None) rest
  /\ Forall (fun r => rank r <> None /\ score (data r) <> None) ranked
  /\ (forall d, In d studentData -> score d = None ->
        In (withoutRank d) rest).

(** "Every student whose score is null is placed after all scored
    students." *)
Definition unscoredLast (board : list RankedData) : Prop :=
  forall i j ri rj,
    nth_error board i = Some ri -> nth_error board j = Some rj ->
    score (data ri) = None -> score (data rj) <> None -> (j < i)%nat.

(** The full name of the student of a row, looked up in the roster. *)
Definition nameOfRow
  (generateFullName : string -> string -> option string -> string)
  (roster : list StudentUserAccount) (r : RankedData) : string :=
  match find (fun st => stu_id st =? studentId (data r)) roster with
  | Some st =>
      generateFullName (stu_firstName st) (stu_lastName st)
        (stu_middleName st)
  | None => EmptyString
  end.

(** "The unscored students appear in ascending alphabetical order of full
    name." *)
Definition unscoredByName
  (generateFullName : string -> string -> option string -> string)
  (localeCompare : string -> string -> Q)
  (roster : list StudentUserAccount) (board : list RankedData) : Prop :=
  Sorted
    (fun a b =>
       (localeCompare (nameOfRow generateFullName roster a)
          (nameOfRow generateFullName roster b) <= 0)%Q)
    (filter (fun r => Js.isNull (score (data r))) board).

(** The row of a student without score. *)
Definition unscoredRow (st : StudentUserAccount) : StudentData :=
  {| studentId := stu_id st; score := None; completions := [] |}.

Definition entry (r : RankedData) : Z * option Q * option nat :=
  (studentId (data r), score (data r), rank r).

Definition entries (board : Js.result (list RankedData))
  : option (list (Z * option Q * option nat)) :=
  match board with
  | Js.Ok b => Some (map entry b)
  | Js.Throw _ => None
  end.

End Sequential.

(* ================================================================== *)
(** * Score aggregation, as predicates on a leaderboard row *)
(* ================================================================== *)

Module Aggregation.

Import ActivityService.

(** [c] is the completion of [candidates] with the highest score and,
    among those of that score, the lowest time. *)
Definition bestPoint (candidates : list ActivityCategoryCompletion)
  (c : ActivityCategoryCompletion) : Prop :=
  In c candidates
  /\ forall c', In c' candidates ->
       (com_score c' <= com_score c)%Q
       /\ ((com_score c' == com_score c)%Q ->
           (com_timeCompletedSeconds c <= com_timeCompletedSeconds c')%Q).

(** The completion that the point branch keeps for a category: the
    first of the twice-sorted array ([list[0]]). *)
Definition pickPoint (targetCompletions : list ActivityCategoryCompletion)
  (cat : ActivityCategory) : option ActivityCategoryCompletion :=
  hd_error (Js.sort byScoreDesc (Js.sort byTime
                                   (ofCategory cat targetCompletions))).

(** The completions that [pick] selects, in the order of the categories. *)
Definition selected (pick : ActivityCategory -> option ActivityCategoryCompletion)
  (cats : list ActivityCategory) : list ActivityCategoryCompletion :=
  flat_map (fun cat => match pick cat with
                       | Some c => [c]
                       | None => []
                       end) cats.

(** What a category adds to the score: nothing without a completion. *)
Definition contribution
  (pick : ActivityCategory -> option ActivityCategoryCompletion)
  (cat : ActivityCategory) : Q :=
  match pick cat with
  | Some c => com_score c
  | None => 0%Q
  end.

Fixpoint total (f : ActivityCategory -> Q) (cats : list ActivityCategory)
  : Q :=
  match cats with
  | [] => 0%Q
  | cat :: rest => (f cat + total f rest)%Q
  end.

(** The row [d] of a point-based activity with categories [cats], for a
    student with completions [targetCompletions]. *)
Definition pointScored (cats : list ActivityCategory)
  (targetCompletions : list ActivityCategoryCompletion) (d : StudentData)
  : Prop :=
  exists pick,
    (forall cat, In cat cats ->
       match pick cat with
       | Some c => bestPoint (ofCategory cat targetCompletions) c
       | None => ofCategory cat targetCompletions = []
       end)
    /\ completions d = selected pick cats
    /\ (score d = None <->
        forall cat, In cat cats -> ofCategory cat targetCompletions = [])
    /\ (forall q, score d = Some q ->
          (q == total (contribution pick) cats)%Q).

(** The completion [c] with another [timeCompletedSeconds]. *)
Definition retime (f : ActivityCategoryCompletion -> Q)
  (c : ActivityCategoryCompletion) : ActivityCategoryCompletion :=
  {| com_id := com_id c;
     com_studentId := com_studentId c;
     com_activityCategory := com_activityCategory c;
     com_score := com_score c;
     com_timeCompletedSeconds := f c;
     com_submittedAt := com_submittedAt c |}.

(** The student [s] with other times in the activity completions. *)
Definition retimeStudent (f : ActivityCategoryCompletion -> Q)
  (s : StudentUserAccount) : StudentUserAccount :=
  {| stu_id := stu_id s;
     stu_firstName := stu_firstName s;
     stu_lastName := stu_lastName s;
     stu_middleName := stu_middleName s;
     stu_examCompletions := stu_examCompletions s;
     stu_activityCompletions := map (retime f) (stu_activityCompletions s) |}.

End Aggregation.

(* ================================================================== *)
(** * What a call does to its arguments *)
(* ================================================================== *)

Module Frame.

(** [after] is [before] sorted in place with [cmp]: the same elements,
    in the order of [cmp]. *)
Definition sortedInPlace {A : Type} (cmp : A -> A -> Q)
  (before after : list A) : Prop :=
  Permutation after before /\ Sorted (Js.before cmp) after.

Definition updatedDesc (catA catB : ActivityCategory) : Q :=
  inject_Z (cat_updatedAt catB - cat_updatedAt catA).

(** The activity after a call: only the order of its categories may
    differ. *)
Definition activityAfter (before after : Activity) : Prop :=
  act_id after = act_id before
  /\ act_gameType after = act_gameType before
  /\ sortedInPlace updatedDesc (act_categories before) (act_categories after).

Definition sameIdentity (before after : StudentUserAccount) : Prop :=
  stu_id after = stu_id before
  /\ stu_firstName after = stu_firstName before
  /\ stu_lastName after = stu_lastName before
  /\ stu_middleName after = stu_middleName before.

(** A student after a call on the exam track. *)
Definition examTrackAfter (before after : StudentUserAccount) : Prop :=
  sameIdentity before after
  /\ stu_activityCompletions after = stu_activityCompletions before
  /\ sortedInPlace PerformanceService.submittedDescExam
       (stu_examCompletions before) (stu_examCompletions after).

(** A student after a call on the activity track. *)
Definition activityTrackAfter (before after : StudentUserAccount) : Prop :=
  sameIdentity before after
  /\ stu_examCompletions after = stu_examCompletions before
  /\ sortedInPlace PerformanceService.submittedDesc
       (stu_activityCompletions before) (stu_activityCompletions after).

End Frame.

(* ================================================================== *)
(** * Sample data *)
(* ================================================================== *)

Module Sample.

Local Open Scope string_scope.

Definition mathExam : Exam :=
  {| exam_id := 1; exam_passingPoints := 80 # 1; exam_schedules := [0] |}.

Definition examCompletion (id : Z) (e : Exam) (points : Q) (at_ : Z)
  : ExamCompletion :=
  {| ec_id := id; ec_exam := e; ec_score := points; ec_submittedAt := at_ |}.

Definition studentOf (id : Z) (first last : string)
  (exams : list ExamCompletion)
  (activities : list ActivityCategoryCompletion) : StudentUserAccount :=
  {| stu_id := id;
     stu_firstName := first;
     stu_lastName := last;
     stu_middleName := None;
     stu_examCompletions := exams;
     stu_activityCompletions := activities |}.

Definition pointGame : ActivityRef := {| ref_id := 10; ref_gameType := Point |}.
Definition timeGame : ActivityRef := {| ref_id := 20; ref_gameType := Time |}.

Definition categoryOf (id level updated : Z) (a : ActivityRef)
  : ActivityCategory :=
  {| cat_id := id; cat_level := level; cat_updatedAt := updated;
     cat_activity := a |}.

Definition completionOf (id sid : Z) (cat : ActivityCategory)
  (points seconds : Q) (at_ : Z) : ActivityCategoryCompletion :=
  {| com_id := id; com_studentId := sid; com_activityCategory := cat;
     com_score := points; com_timeCompletedSeconds := seconds;
     com_submittedAt := at_ |}.

Definition easy : ActivityCategory := categoryOf 101 1 1000 pointGame.
Definition average : ActivityCategory := categoryOf 102 2 1000 pointGame.
Definition difficult : ActivityCategory := categoryOf 103 3 1000 pointGame.

(** Three students whose overall exam scores are 80, 90 and 90. *)
Definition examRoster : list StudentUserAccount :=
  [ studentOf 1 "Ana" "Cruz" [examCompletion 1 mathExam (80 # 1) 100] [];
    studentOf 2 "Ben" "Cruz" [examCompletion 2 mathExam (90 # 1) 100] [];
    studentOf 3 "Carl" "Cruz" [examCompletion 3 mathExam (90 # 1) 100] [] ].

(** Three students whose overall activity scores are 80, 90 and 90. *)
Definition activityRoster : list StudentUserAccount :=
  [ studentOf 1 "Ana" "Cruz" []
      [completionOf 1 1 easy (80 # 1) (30 # 1) 100];
    studentOf 2 "Ben" "Cruz" []
      [completionOf 2 2 easy (50 # 1) (30 # 1) 100;
       completionOf 3 2 average (40 # 1) (30 # 1) 200];
    studentOf 3 "Carl" "Cruz" []
      [completionOf 4 3 difficult (90 # 1) (30 # 1) 100] ].

(** A point-based activity with three levels, a roster of three students
    and their completions: Ana 80, Ben 50 + 40, Carl 90. *)
Definition pointActivity : Activity :=
  {| act_id := 10; act_gameType := Point;
     act_categories := [easy; average; difficult] |}.

Definition roster (_ : Z) : list StudentUserAccount :=
  [ studentOf 1 "Ana" "Cruz" [] [];
    studentOf 2 "Ben" "Cruz" [] [];
    studentOf 3 "Carl" "Cruz" [] [] ].

Definition pointRows : list ActivityCategoryCompletion :=
  [ completionOf 1 1 easy (80 # 1) (30 # 1) 100;
    completionOf 2 2 easy (50 # 1) (30 # 1) 100;
    completionOf 3 2 average (40 # 1) (30 # 1) 200;
    completionOf 4 3 difficult (90 # 1) (30 # 1) 100 ].

(** A time-based activity with three levels. Ana completed all three in
    10, 20 and 30 seconds; Ben completed two, in 5 seconds each; Carl
    completed none. *)
Definition easyTime : ActivityCategory := categoryOf 201 1 1000 timeGame.
Definition averageTime : ActivityCategory := categoryOf 202 2 1000 timeGame.
Definition difficultTime : ActivityCategory := categoryOf 203 3 1000 timeGame.

Definition timeActivity : Activity :=
  {| act_id := 20; act_gameType := Time;
     act_categories := [easyTime; averageTime; difficultTime] |}.

Definition timeRows : list ActivityCategoryCompletion :=
  [ completionOf 11 1 easyTime (0 # 1) (10 # 1) 100;
    completionOf 12 1 averageTime (0 # 1) (20 # 1) 200;
    completionOf 13 1 difficultTime (0 # 1) (30 # 1) 300;
    completionOf 14 2 easyTime (0 # 1) (5 # 1) 100;
    completionOf 15 2 averageTime (0 # 1) (5 # 1) 200 ].

(** The same roster with Carl first. *)
Definition rosterCarlFirst (_ : Z) : list StudentUserAccount :=
  [ studentOf 3 "Carl" "Cruz" [] [];
    studentOf 2 "Ben" "Cruz" [] [];
    studentOf 1 "Ana" "Cruz" [] [] ].

(** Dan made three attempts at the first level (70 points, and 80 points
    in 40 and in 25 seconds), one at the third (60 points) and none at the
    second. *)
Definition rosterDan (_ : Z) : list StudentUserAccount :=
  [ studentOf 4 "Dan" "Cruz" [] [] ].

Definition danRows : list ActivityCategoryCompletion :=
  [ completionOf 21 4 easy (70 # 1) (20 # 1) 100;
    completionOf 22 4 easy (80 # 1) (40 # 1) 200;
    completionOf 23 4 easy (80 # 1) (25 # 1) 300;
    completionOf 24 4 difficult (60 # 1) (50 # 1) 400 ].

(** A stage-based activity without categories, next to completions of
    other activities. *)
Definition emptyStageActivity : Activity :=
  {| act_id := 30; act_gameType := Stage; act_categories := [] |}.

(** An activity whose categories are stored oldest first. *)
Definition oldestFirstActivity : Activity :=
  {| act_id := 40; act_gameType := Point;
     act_categories := [ categoryOf 401 1 1000 pointGame;
                         categoryOf 402 2 2000 pointGame ] |}.

(** Eve took the same exam at 10:00 (70 points) and at 11:00 (90 points);
    80 points pass. The array holds the attempts oldest first. *)
Definition at1000 : ExamCompletion := examCompletion 31 mathExam (70 # 1) 36000.
Definition at1100 : ExamCompletion := examCompletion 32 mathExam (90 # 1) 39600.

Definition eve : StudentUserAccount :=
  studentOf 5 "Eve" "Cruz" [at1000; at1100] [].

(** Modelled from the spec: [generateFullName] of
    common/helpers/string.helper, which is not among the sources; "first +
    last, with middle name included in the comparable string". *)
Definition fullName (first last : string) (middle : option string) : string :=
  match middle with
  | Some m => first ++ " " ++ m ++ " " ++ last
  | None => first ++ " " ++ last
  end.

(** A collation for the examples: the order of the code units, which is
    the order of [localeCompare] on names written in unaccented letters
    of one case after the initial. *)
Definition codeUnitCompare (a b : string) : Q :=
  match String.compare a b with
  | Lt => (-1)%Q
  | Eq => 0%Q
  | Gt => 1%Q
  end.

(** Three students with time-based completions at the three levels of
    one activity, in 10, 20 and 30 seconds. The [score] of Finn's
    completions is 3, 6 and 9; the [score] of Gina's is the time; Hana
    lacks the third level. *)
Definition finn : StudentUserAccount :=
  studentOf 6 "Finn" "Cruz" []
    [ completionOf 41 6 easyTime (3 # 1) (10 # 1) 100;
      completionOf 42 6 averageTime (6 # 1) (20 # 1) 200;
      completionOf 43 6 difficultTime (9 # 1) (30 # 1) 300 ].

Definition gina : StudentUserAccount :=
  studentOf 7 "Gina" "Cruz" []
    [ completionOf 44 7 easyTime (10 # 1) (10 # 1) 100;
      completionOf 45 7 averageTime (20 # 1) (20 # 1) 200;
      completionOf 46 7 difficultTime (30 # 1) (30 # 1) 300 ].

Definition hana : StudentUserAccount :=
  studentOf 8 "Hana" "Cruz" []
    [ completionOf 47 8 easyTime (10 # 1) (10 # 1) 100;
      completionOf 48 8 averageTime (20 # 1) (20 # 1) 200 ].

Definition examCounts (p : PerformanceService.ExamPerformance)
  : nat * nat * nat * option Q :=
  (PerformanceService.examsCompletedCount p,
   PerformanceService.examsPassedCount p,
   PerformanceService.examsFailedCount p,
   PerformanceService.overallExamScore p).

Definition standing (r : PerformanceService.Ranked)
  : Z * option Q * option nat :=
  (stu_id (PerformanceService.student (PerformanceService.scored r)),
   Policy.scoreOf r, PerformanceService.overallRank r).

End Sample.

(* ================================================================== *)
(** * Rows of time-based and stage-based activities *)
(* ================================================================== *)

Module UnitScore.

Import ActivityService.

(** [c] is a completion of [candidates] that no other is faster than. *)
Definition bestTime (candidates : list ActivityCategoryCompletion)
  (c : ActivityCategoryCompletion) : Prop :=
  In c candidates
  /\ forall c', In c' candidates ->
       (com_timeCompletedSeconds c <= com_timeCompletedSeconds c')%Q.

(** The completion that the time branch keeps for a category. *)
Definition pickTime (targetCompletions : list ActivityCategoryCompletion)
  (cat : ActivityCategory) : option ActivityCategoryCompletion :=
  hd_error (Js.sort byTime (ofCategory cat targetCompletions)).

(** The time that a category adds to the sum: nothing without a
    completion. *)
Definition timeOf
  (pick : ActivityCategory -> option ActivityCategoryCompletion)
  (cat : ActivityCategory) : Q :=
  match pick cat with
  | Some c => com_timeCompletedSeconds c
  | None => 0%Q
  end.

(** The row [d] of a time-based activity with categories [cats], for a
    student with completions [targetCompletions]: the fastest completion
    of every category, and their mean time as score. *)
Definition timeScored (cats : list ActivityCategory)
  (targetCompletions : list ActivityCategoryCompletion) (d : StudentData)
  : Prop :=
  exists pick,
    (forall cat, In cat cats ->
       match pick cat with
       | Some c => bestTime (ofCategory cat targetCompletions) c
       | None => ofCategory cat targetCompletions = []
       end)
    /\ completions d = Aggregation.selected pick cats
    /\ (List.length (completions d) <= List.length cats)%nat
    /\ (score d = None <->
        forall cat, In cat cats -> ofCategory cat targetCompletions = [])
    /\ (forall q, score d = Some q ->
          (q == Aggregation.total (timeOf pick) cats
                / lengthQ (completions d))%Q).

(** The row [d] of a stage-based activity: the completions of the most
    recently updated category, best first, and the score of the best. *)
Definition stageScored (activity : Activity)
  (targetCompletions : list ActivityCategoryCompletion) (d : StudentData)
  : Prop :=
  match filteredCategories activity with
  | [] => completions d = [] /\ score d = None
  | targetCategory :: _ =>
      In targetCategory (act_categories activity)
      /\ (forall c, In c (act_categories activity) ->
            cat_updatedAt c <= cat_updatedAt targetCategory)
      /\ Permutation (completions d)
           (ofCategory targetCategory targetCompletions)
      /\ StronglySorted (fun a b => (com_score b <= com_score a)%Q)
           (completions d)
      /\ match completions d with
         | [] => score d = None
         | first :: _ =>
             score d = Some (com_score first)
             /\ Aggregation.bestPoint
                  (ofCategory targetCategory targetCompletions) first
         end
  end.

End UnitScore.

Module SampleMore.

Import Sample.

Local Open Scope string_scope.

Definition stageGame : ActivityRef := {| ref_id := 50; ref_gameType := Stage |}.

(** A stage-based activity whose first level was revised: the category
    502 replaces the category 501. *)
Definition stageActivity : Activity :=
  {| act_id := 50; act_gameType := Stage;
     act_categories := [ categoryOf 501 1 1000 stageGame;
                         categoryOf 502 1 2000 stageGame ] |}.

Definition stageRows : list ActivityCategoryCompletion :=
  [ completionOf 51 1 (categoryOf 501 1 1000 stageGame) (9 # 1) (10 # 1) 100;
    completionOf 52 1 (categoryOf 502 1 2000 stageGame) (4 # 1) (10 # 1) 200;
    completionOf 53 1 (categoryOf 502 1 2000 stageGame) (6 # 1) (10 # 1) 300 ].

End SampleMore.

(* ================================================================== *)
(** * One activity for one student (activity.service.ts) *)
(* ================================================================== *)

Module StudentActivity.

Import ActivityService.

(** The exceptions of the services, and an uncaught JavaScript error. *)
Inductive exception : Type :=
| BadRequestException (message : string)
| NotFoundException (message : string)
| ConflictException (message : string)
| Uncaught (e : Js.error).

Inductive response (A : Type) : Type :=
| Return (a : A)
| Raise (e : exception).
Arguments Return {A} a.
Arguments Raise {A} e.

Definition ofResult {A} (m : Js.result A) : response A :=
  match m with
  | Js.Ok a => Return a
  | Js.Throw e => Raise (Uncaught e)
  end.

(** The best completion of a category under a game type. *)
Definition bestOf (gameType : ActivityCategoryType)
  (candidates : list ActivityCategoryCompletion)
  (c : ActivityCategoryCompletion) : Prop :=
  match gameType with
  | Time => UnitScore.bestTime candidates c
  | _ => Aggregation.bestPoint candidates c
  end.

(** A category of the summary carries the best completion of the
    student in it, or the empty array. *)
Definition carriesBest (gameType : ActivityCategoryType)
  (targetCompletions : list ActivityCategoryCompletion)
  (cat : CategoryWithCompletions) : Prop :=
  match cwc_completions cat with
  | OneCompletion com =>
      bestOf gameType (ofCategory (category cat) targetCompletions) com
  | CompletionArray coms =>
      coms = [] /\ ofCategory (category cat) targetCompletions = []
  end.

(** [{ ...transformedActivity, rank }]. *)
Record ActivityWithRank : Type := {
  summary : ActivityWithCompletions;
  summaryRank : option nat
}.

Section Repositories.

Variable getStudentsByTeacherId : Z -> list StudentUserAccount.
Variable completionRows : list ActivityCategoryCompletion.

(** [userService.getTeacherByStudentId]: the id of the teacher, and
    [activityRepo.findOne({ where: { slug, teacher: { id } } })]. *)
Variable getTeacherByStudentId : Z -> option Z.
Variable findOneBySlug : string -> Z -> option Activity.

(** [studentRankings.find((data) => data.studentId === studentId)],
    destructured. *)
Definition findRow (studentRankings : list RankedData) (sid : Z)
  : Js.result RankedData :=
  match
    find (fun r => studentId (data r) =? sid) studentRankings
  with
  | Some r => Js.Ok r
  | None => Js.Throw Js.TypeError
  end.

(** [getOneBySlugAndStudentId(slug, studentId)]. The two calls receive
    the same activity object, whose categories the first sorts in place. *)
Definition getOneBySlugAndStudentId (slug : string) (sid : Z)
  : response ActivityWithRank :=
  match getTeacherByStudentId sid with
  | None => Raise (BadRequestException "Student does not exist")
  | Some teacherId =>
      match findOneBySlug slug teacherId with
      | None => Raise (BadRequestException "Activity does not exist")
      | Some activity =>
          let '(activity1, transformed) :=
            generateActivityWithCompletions completionRows activity sid in
          let '(_, rankings) :=
            generateActivityRankings getStudentsByTeacherId completionRows
              activity1 teacherId in
          ofResult
            (transformedActivity <- transformed ;;
             studentRankings <- rankings ;;
             row <- findRow studentRankings sid ;;
             Js.Ok {| summary := transformedActivity;
                      summaryRank := rank row |})
      end
  end.

End Repositories.

End StudentActivity.

(* ================================================================== *)
(** * Competition ranks as counts *)
(* ================================================================== *)

Module Competition.

Import PerformanceService.

(** [x] has a strictly higher score than [r]. *)
Definition higher (r x : Ranked) : bool :=
  negb (Qle_bool (Js.num (Policy.scoreOf x)) (Js.num (Policy.scoreOf r))).

(** The number of entries of [l] with a strictly higher score than [r]. *)
Definition higherCount (r : Ranked) (l : list Ranked) : nat :=
  List.length (filter (higher r) l).

End Competition.

Module SampleOrder.

Import Sample.

Local Open Scope string_scope.

(** Eve with the attempts in the other order. *)
Definition eveLatestFirst : StudentUserAccount :=
  studentOf 5 "Eve" "Cruz" [at1100; at1000] [].

(** The exams of Eve's teacher: [mathExam], open since time 0, and an
    exam that opens at time 50000. *)
Definition laterExam : Exam :=
  {| exam_id := 2; exam_passingPoints := 50 # 1; exam_schedules := [50000] |}.

Definition examsOfTeacher (_ : Z) : list Exam := [mathExam; laterExam].

Definition activitiesOfTeacher (_ : Z) : list Activity :=
  [pointActivity; timeActivity].

End SampleOrder.

(* ================================================================== *)
(** * Pages of student performances (performance.service.ts) *)
(* ================================================================== *)

Module Pagination.

Import PerformanceService.

(** [s.split(',')]. *)
Fixpoint splitComma (s : string) : list string :=
  match s with
  | EmptyString => [EmptyString]
  | String c rest =>
      if Ascii.eqb c ","%char then EmptyString :: splitComma rest
      else
        match splitComma rest with
        | first :: more => String c first :: more
        | [] => [String c EmptyString]
        end
  end.

(** The index that [slice] makes of an argument: counted from the end
    when negative, and clipped to the array. *)
Definition relativeIndex (len i : Z) : Z :=
  if i <? 0 then Z.max (len + i) 0 else Z.min i len.

(** [arr.slice(start, end)]. *)
Definition slice {A} (arr : list A) (start end_ : Z) : list A :=
  let len := Z.of_nat (List.length arr) in
  let k := relativeIndex len start in
  let final := relativeIndex len end_ in
  firstn (Z.to_nat (final - k)) (skipn (Z.to_nat k) arr).

(** [x === 'literal'] on [string | undefined]. *)
Definition equals (x : option string) (literal : string) : bool :=
  match x with
  | Some s => String.eqb s literal
  | None => false
  end.

(** Modelled from the spec: the track of a roster ranking, exam or
    activity; [StudentPerformanceType] of performance/enums is not among
    the sources, and the code only asks whether the value is [Exam]. *)
Inductive StudentPerformanceType : Type :=
| ExamPerformances
| ActivityPerformances.

Section Collation.

Variable generateFullName : string -> string -> option string -> string.
Variable localeCompare : string -> string -> Q.

Definition nameOf (r : Ranked) : string :=
  fullNameOf generateFullName (scored r).

(** The comparator of the sort by name, with [sortOrder] captured. *)
Definition byNameIn (sortOrder : option string) (a b : Ranked) : Q :=
  if equals sortOrder "asc" then localeCompare (nameOf a) (nameOf b)
  else localeCompare (nameOf b) (nameOf a).

(** What [getPaginationStudentPerformancesByTeacherId] does with the
    [students] that [studentUserAccountRepo.findAndCount] returns; the
    query has neither [skip] nor [take], so that the count is the number
    of these students. *)
Definition getPaginationStudentPerformancesByTeacherId
  (students : list StudentUserAccount) (sort : option string)
  (take skip : Z) (performance : StudentPerformanceType)
  : list Ranked * nat :=
  let studentCount := List.length students in
  let rankings :=
    match performance with
    | ExamPerformances =>
        snd (generateOverallExamRankings generateFullName localeCompare
               students)
    | ActivityPerformances =>
        snd (generateOverallActivityRankings generateFullName localeCompare
               students)
    end in
  let targetStudents := rankedStudents rankings ++ unrankedStudents rankings in
  (* [sort?.split(',') || []], destructured *)
  let parts := match sort with
               | Some s => splitComma s
               | None => []
               end in
  let sortBy := nth_error parts 0 in
  let sortOrder := nth_error parts 1 in
  let targetStudents :=
    if equals sortBy "name" then Js.sort (byNameIn sortOrder) targetStudents
    else if equals sortBy "rank" then
      if equals sortOrder "desc"
      then unrankedStudents rankings ++ rev (rankedStudents rankings)
      else targetStudents
    else targetStudents in
  let endIndex := skip + take in
  (slice targetStudents skip endIndex, studentCount).

End Collation.

End Pagination.

(* ================================================================== *)
(** * Creating and updating an activity (activity.service.ts) *)
(* ================================================================== *)

Module ActivityWrites.

Import StudentActivity.

(** The parts of the DTOs that the checks read. *)
Record ChoiceDto : Type := {
  choiceId : option Z;
  isCorrect : bool
}.

Record QuestionDto : Type := {
  questionId : option Z;
  choices : list ChoiceDto
}.

Record CategoryDto : Type := {
  categoryId : option Z;
  level : Z;
  questions : list QuestionDto
}.

Definition andThen {A B} (m : response A) (k : A -> response B)
  : response B :=
  match m with
  | Return a => k a
  | Raise e => Raise e
  end.

(** [xs.forEach(f)] and [xs.map(f)] with a callback that may throw: the
    first exception ends the loop. *)
Fixpoint forEach {A} (f : A -> response unit) (xs : list A) : response unit :=
  match xs with
  | [] => Return tt
  | x :: rest => andThen (f x) (fun _ => forEach f rest)
  end.

(** "Validate activity order number if unique for current teacher user",
    given the count that the repository returns. *)
Definition checkOrderNumber (orderNumberCount : nat) : response unit :=
  match orderNumberCount with
  | O => Return tt
  | S _ => Raise (ConflictException "Activity number is already present")
  end.

(** "Check for duplicate category levels, throw error if true". Of the
    keys of the enum [ActivityCategoryLevel], which is not among the
    sources, only those whose value is a level can match:
    [levelValues] lists these values. *)
Definition checkLevels (levelValues : list Z) (categories : list CategoryDto)
  : response unit :=
  forEach
    (fun value =>
       let levelCount :=
         List.length (filter (fun c => level c =? value) categories) in
       if (1 <? levelCount)%nat
       then Raise (BadRequestException "Duplicate category level")
       else Return tt)
    levelValues.

(** "Check if all questions have atleast one isCorrect choice". *)
Definition checkChoices (categories : list CategoryDto) : response unit :=
  forEach
    (fun category =>
       forEach
         (fun question =>
            match find isCorrect (choices question) with
            | Some _ => Return tt
            | None =>
                Raise (BadRequestException
                         "Question should have at least 1 correct choice")
            end)
         (questions category))
    categories.

(** The checks of [create] and of [update], in their order. *)
Definition validate (orderNumberCount : nat) (levelValues : list Z)
  (categories : list CategoryDto) : response unit :=
  andThen (checkOrderNumber orderNumberCount) (fun _ =>
  andThen (checkLevels levelValues categories) (fun _ =>
  checkChoices categories)).

(** The stored questions of a category, with their choices. *)
Record Choice : Type := { storedChoiceId : Z }.

Record Question : Type := {
  storedQuestionId : Z;
  storedChoices : list Choice
}.

Record SourceCategory : Type := {
  sourceId : Z;
  sourceQuestions : list Question
}.

(** [!!x.id]. *)
Definition hasId (id : option Z) : bool :=
  match id with
  | Some n => negb (n =? 0)
  | None => false
  end.

(** [xs.filter((x) => !!x.id).map((x) => x.id)]. *)
Definition idsOf {A} (idOf : A -> option Z) (xs : list A) : list Z :=
  flat_map (fun x => match idOf x with
                     | Some n => [n]
                     | None => []
                     end)
    (filter (fun x => hasId (idOf x)) xs).

Definition includes (ids : list Z) (id : Z) : bool := existsb (Z.eqb id) ids.

(** What a call removed from the two repositories, and how it ended. *)
Record Removal : Type := {
  removedQuestions : list Question;
  removedChoices : list Choice;
  outcome : Js.result unit
}.

(** The callback of the [Promise.all] of
    [deleteActivityCategoryQuestions]: the choices that it removes, or a
    [TypeError] when the category has no question of that id. *)
Definition choicesToDelete (sourceCategory : SourceCategory)
  (targetQuestion : QuestionDto) : Js.result (list Choice) :=
  match
    find (fun q => match questionId targetQuestion with
                   | Some n => storedQuestionId q =? n
                   | None => false
                   end)
      (sourceQuestions sourceCategory)
  with
  | None => Js.Throw Js.TypeError
  | Some currentQuestion =>
      let targetChoiceIds := idsOf choiceId (choices targetQuestion) in
      Js.Ok (filter (fun c => negb (includes targetChoiceIds (storedChoiceId c)))
               (storedChoices currentQuestion))
  end.

(** [deleteActivityCategoryQuestions(questions, sourceCategory)] for a
    category that exists. Every callback of the [Promise.all] runs: the
    removals of those that do not throw are made also when another
    throws. *)
Definition deleteActivityCategoryQuestions (targetQuestions : list QuestionDto)
  (sourceCategory : SourceCategory) : Removal :=
  let targetQuestionIds := idsOf questionId targetQuestions in
  let questionsToDelete :=
    filter (fun q => negb (includes targetQuestionIds (storedQuestionId q)))
      (sourceQuestions sourceCategory) in
  let results :=
    map (choicesToDelete sourceCategory)
      (filter (fun q => hasId (questionId q)) targetQuestions) in
  {| removedQuestions := questionsToDelete;
     removedChoices :=
       flat_map (fun r => match r with
                          | Js.Ok cs => cs
                          | Js.Throw _ => []
                          end) results;
     outcome :=
       if forallb (fun r => match r with
                            | Js.Ok _ => true
                            | Js.Throw _ => false
                            end) results
       then Js.Ok tt
       else Js.Throw Js.TypeError |}.

(** "Delete questions not included in request": the loop of [update]
    over the categories of the DTO. A category that the activity does not
    have makes [sourceCategory] undefined, and reading its questions
    throws; the loop ends at the first call that throws. *)
Fixpoint deleteNotIncluded (categories : list CategoryDto)
  (activityCategories : list SourceCategory) : Removal :=
  match categories with
  | [] => {| removedQuestions := []; removedChoices := [];
             outcome := Js.Ok tt |}
  | cat :: rest =>
      match
        find (fun c => match categoryId cat with
                       | Some n => sourceId c =? n
                       | None => false
                       end)
          activityCategories
      with
      | None => {| removedQuestions := []; removedChoices := [];
                   outcome := Js.Throw Js.TypeError |}
      | Some sourceCategory =>
          let r := deleteActivityCategoryQuestions (questions cat)
                     sourceCategory in
          match outcome r with
          | Js.Throw _ => r
          | Js.Ok _ =>
              let r' := deleteNotIncluded rest activityCategories in
              {| removedQuestions := removedQuestions r ++ removedQuestions r';
                 removedChoices := removedChoices r ++ removedChoices r';
                 outcome := outcome r' |}
          end
      end
  end.

(** Sample data: a category with two stored questions, and an update
    that keeps the first question with its second choice. *)
Definition storedCategory : SourceCategory :=
  {| sourceId := 1;
     sourceQuestions :=
       [ {| storedQuestionId := 11;
            storedChoices := [ {| storedChoiceId := 111 |};
                               {| storedChoiceId := 112 |} ] |};
         {| storedQuestionId := 12;
            storedChoices := [ {| storedChoiceId := 121 |} ] |} ] |}.

Definition updateDto : list CategoryDto :=
  [ {| categoryId := Some 1; level := 1;
       questions :=
         [ {| questionId := Some 11;
              choices := [ {| choiceId := Some 112; isCorrect := true |};
                           {| choiceId := None; isCorrect := false |} ] |};
           {| questionId := None;
              choices := [ {| choiceId := None; isCorrect := true |} ] |} ]
    |} ].

End ActivityWrites.

(* ================================================================== *)
(** * The activities of a student, with the latest completions *)
(* ================================================================== *)

Module LoadedActivities.

(** A category with its [completions] relation loaded, and an activity
    with such categories. *)
Record LoadedCategory : Type := {
  loadedCategory : ActivityCategory;
  loadedCompletions : list ActivityCategoryCompletion
}.

Record LoadedActivity : Type := {
  loadedId : Z;
  loadedGameType : ActivityCategoryType;
  loadedCategories : list LoadedCategory
}.

(** The callback of [activity.categories.map]: the completions of the
    student are filtered into a new array, which is sorted, and the first
    is kept. *)
Definition latestOf (studentId : Z) (cat : LoadedCategory) : LoadedCategory :=
  let completions :=
    Js.sort PerformanceService.submittedDesc
      (filter (fun completion => com_studentId completion =? studentId)
         (loadedCompletions cat)) in
  {| loadedCategory := loadedCategory cat;
     loadedCompletions := match completions with
                          | [] => []
                          | first :: _ => [first]
                          end |}.

(** What [getActivitiesWithCompletionsByStudentIdAndTeacherId] makes of
    the published activities of the teacher that the repository returns. *)
Definition getActivitiesWithCompletionsByStudentIdAndTeacherId
  (activities : list LoadedActivity) (studentId : Z) : list LoadedActivity :=
  map (fun activity =>
         {| loadedId := loadedId activity;
            loadedGameType := loadedGameType activity;
            loadedCategories :=
              map (latestOf studentId) (loadedCategories activity) |})
    activities.

(** The category [after] holds the latest completion of the student in
    [before], if there is one. *)
Definition holdsLatest (studentId : Z) (before after : LoadedCategory)
  : Prop :=
  loadedCategory after = loadedCategory before
  /\ match loadedCompletions after with
     | [] =>
         forall c, In c (loadedCompletions before) ->
                   com_studentId c <> studentId
     | [latest] =>
         In latest (loadedCompletions before)
         /\ com_studentId latest = studentId
         /\ forall c, In c (loadedCompletions before) ->
                      com_studentId c = studentId ->
                      com_submittedAt c <= com_submittedAt latest
     | _ :: _ :: _ => False
     end.

Definition sampleCategory : LoadedCategory :=
  {| loadedCategory := Sample.easy;
     loadedCompletions :=
       [ Sample.completionOf 61 1 Sample.easy (5 # 1) (9 # 1) 100;
         Sample.completionOf 62 2 Sample.easy (6 # 1) (9 # 1) 300;
         Sample.completionOf 63 1 Sample.easy (7 # 1) (9 # 1) 200 ] |}.

End LoadedActivities.

(* ================================================================== *)
(** * The performance of one student (performance.service.ts) *)
(* ================================================================== *)

Module StudentSummary.

Import PerformanceService StudentActivity.

(** [{ ...student, lessonCompletions: undefined, examCompletions:
    undefined, activityCompletions: undefined }]: what is left of the
    student. *)
Record Identity : Type := {
  identityId : Z;
  identityFirstName : string;
  identityLastName : string;
  identityMiddleName : option string
}.

(** [{ ...transformedStudent, ...examPerformance, ...activityPerformance }]. *)
Record StudentPerformance : Type := {
  identity : Identity;
  examPerformance : ExamPerformance;
  activityPerformance : ActivityPerformance
}.

Definition identityOf (s : StudentUserAccount) : Identity :=
  {| identityId := stu_id s;
     identityFirstName := stu_firstName s;
     identityLastName := stu_lastName s;
     identityMiddleName := stu_middleName s |}.

Section Services.

Variable generateFullName : string -> string -> option string -> string.
Variable localeCompare : string -> string -> Q.
Variable getAllExamsByStudentId : Z -> list Exam.
Variable getAllActivitiesByStudentId : Z -> list Activity.
Variable currentDateTime : Z.

(** [getStudentPerformanceByPublicIdAndTeacherId], given what the two
    queries of [studentUserAccountRepo] return; both load the exam of
    every exam completion and the activity of every activity completion.
    The second call receives the student objects as the first call left
    them. *)
Definition getStudentPerformance (student : option StudentUserAccount)
  (otherStudents : list StudentUserAccount) : response StudentPerformance :=
  match student with
  | None => Raise (NotFoundException "Student not found")
  | Some s =>
      let '(_, examPerformance) :=
        generateOverallExamDetailedPerformance generateFullName localeCompare
          getAllExamsByStudentId currentDateTime s otherStudents in
      let '(_, activityPerformance) :=
        generateOverallActivityDetailedPerformance generateFullName
          localeCompare getAllActivitiesByStudentId
          (sortExamCompletions s) (map sortExamCompletions otherStudents) in
      ofResult
        (e <- examPerformance ;;
         a <- activityPerformance ;;
         Js.Ok {| identity := identityOf s;
                  examPerformance := e;
                  activityPerformance := a |})
  end.

End Services.

(** A scored or ranked student whose exam completions were sorted. *)
Definition examSorted (x : Scored) : Scored :=
  {| student := sortExamCompletions (student x);
     overallScore := overallScore x |}.

Definition examSortedRanked (r : Ranked) : Ranked :=
  {| scored := examSorted (scored r); overallRank := overallRank r |}.

End StudentSummary.

(* ================================================================== *)
(** * Facts about the array operations *)
(* ================================================================== *)

Section SortFacts.

Context {A : Type}.
Variable cmp : A -> A -> Q.

Local Abbreviation before := (Js.before cmp).

Lemma insert_perm (x : A) (l : list A) :
  Permutation (Js.insert cmp x l) (x :: l).
Proof.
  induction l as [|y l IH]; simpl.
  - apply Permutation_refl.
  - destruct (Qle_bool (cmp x y) 0).
    + apply Permutation_refl.
    + eapply Permutation_trans.
      * apply perm_skip. exact IH.
      * apply perm_swap.
Qed.

Lemma sort_perm (l : list A) : Permutation (Js.sort cmp l) l.
Proof.
  induction l as [|x l IH]; simpl.
  - constructor.
  - eapply Permutation_trans.
    + apply insert_perm.
    + apply perm_skip. exact IH.
Qed.

Lemma sort_length (l : list A) :
  List.length (Js.sort cmp l) = List.length l.
Proof. apply Permutation_length, sort_perm. Qed.

Lemma sort_In (l : list A) (x : A) : In x (Js.sort cmp l) <-> In x l.
Proof.
  split; apply Permutation_in.
  - apply sort_perm.
  - apply Permutation_sym, sort_perm.
Qed.

Lemma sort_nil_inv (l : list A) : Js.sort cmp l = [] -> l = [].
Proof.
  intros H. apply Permutation_nil. rewrite <- H. apply sort_perm.
Qed.

(** Stability: elements that the comparator never orders the wrong way
    round keep their relative order. *)
Lemma insert_filter (p : A -> bool) (x : A) (l : list A) :
  (forall y, In y l -> p x = true -> p y = true -> before x y) ->
  filter p (Js.insert cmp x l) = filter p (x :: l).
Proof.
  induction l as [|y l IH]; intros H; simpl.
  - reflexivity.
  - destruct (Qle_bool (cmp x y) 0) eqn:E.
    + reflexivity.
    + simpl. rewrite IH by (intros z Hz; apply H; right; exact Hz).
      simpl. destruct (p x) eqn:Px, (p y) eqn:Py; try reflexivity.
      exfalso. assert (Hb : before x y) by (apply H; auto; left; reflexivity).
      apply Qle_bool_iff in Hb. congruence.
Qed.

Lemma sort_stable (p : A -> bool) (l : list A) :
  (forall x y, p x = true -> p y = true -> before x y) ->
  filter p (Js.sort cmp l) = filter p l.
Proof.
  intros H. induction l as [|x l IH]; simpl.
  - reflexivity.
  - rewrite insert_filter by (intros; apply H; assumption).
    simpl. rewrite IH. reflexivity.
Qed.

(** A comparator is total when one of [cmp x y], [cmp y x] is [<= 0]. *)
Hypothesis cmp_total : forall x y, ~ before x y -> before y x.

Lemma insert_sorted (x : A) (l : list A) :
  Sorted before l -> Sorted before (Js.insert cmp x l).
Proof.
  induction l as [|y l IH]; intros Hs; simpl.
  - repeat constructor.
  - destruct (Qle_bool (cmp x y) 0) eqn:E.
    + constructor; [exact Hs|]. constructor. apply Qle_bool_iff. exact E.
    + inversion Hs as [|? ? Hl Hhd]; subst.
      constructor; [apply IH; exact Hl|].
      assert (Hyx : before y x).
      { apply cmp_total. intros Hb. apply Qle_bool_iff in Hb. congruence. }
      destruct l as [|z l]; simpl.
      * constructor. exact Hyx.
      * destruct (Qle_bool (cmp x z) 0); constructor.
        -- exact Hyx.
        -- inversion Hhd; assumption.
Qed.

Lemma sort_sorted (l : list A) : Sorted before (Js.sort cmp l).
Proof.
  induction l as [|x l IH]; simpl.
  - constructor.
  - apply insert_sorted. exact IH.
Qed.

Hypothesis cmp_trans : forall x y z, before x y -> before y z -> before x z.

Lemma sort_strongly_sorted (l : list A) :
  StronglySorted before (Js.sort cmp l).
Proof.
  apply Sorted_StronglySorted.
  - intros x y z. apply cmp_trans.
  - apply sort_sorted.
Qed.

(** The first element of a sorted array may stand before every element
    of the array it was sorted from. *)
Lemma sort_head_least (l : list A) (x : A) (rest : list A) :
  (forall y, before y y) ->
  Js.sort cmp l = x :: rest ->
  forall y, In y l -> before x y.
Proof.
  intros Hrefl Hsort y Hy.
  pose proof (sort_strongly_sorted l) as Hs. rewrite Hsort in Hs.
  apply sort_In in Hy. rewrite Hsort in Hy.
  inversion Hs as [|? ? _ Hall]; subst.
  destruct Hy as [->|Hy].
  - apply Hrefl.
  - rewrite Forall_forall in Hall. apply Hall. exact Hy.
Qed.

End SortFacts.

Section FirstPerKeyFacts.

Context {A : Type}.
Variable key : A -> Z.

Local Abbreviation sameKey := (Js.sameKey key).
Local Abbreviation keepFirst := (Js.keepFirst key).

Lemma findIndexFrom_bounds (p : A -> bool) (l : list A) (i : Z) :
  Js.findIndexFrom p i l = -1 \/
  i <= Js.findIndexFrom p i l < i + Z.of_nat (List.length l).
Proof.
  revert i. induction l as [|x l IH]; intros i; simpl.
  - left. reflexivity.
  - destruct (p x).
    + right. lia.
    + destruct (IH (i + 1)) as [H|H]; [left; exact H | right; lia].
Qed.

Lemma findIndexFrom_app (p : A -> bool) (pre l : list A) (i : Z) :
  0 <= i ->
  Js.findIndexFrom p i (pre ++ l) =
  if existsb p pre then Js.findIndexFrom p i pre
  else Js.findIndexFrom p (i + Z.of_nat (List.length pre)) l.
Proof.
  revert i. induction pre as [|y pre IH]; intros i Hi; simpl.
  - f_equal. lia.
  - destruct (p y); simpl.
    + reflexivity.
    + rewrite IH by lia. destruct (existsb p pre); [reflexivity|].
      f_equal. lia.
Qed.

Lemma first_index_test (pre l : list A) (x : A) :
  (Js.findIndex (sameKey x) (pre ++ x :: l) =? Z.of_nat (List.length pre)) =
  negb (existsb (sameKey x) pre).
Proof.
  unfold Js.findIndex. rewrite findIndexFrom_app by lia.
  destruct (existsb (sameKey x) pre) eqn:E; simpl.
  - apply Z.eqb_neq.
    destruct (findIndexFrom_bounds (sameKey x) pre 0) as [H|H]; lia.
  - unfold sameKey at 1. rewrite Z.eqb_refl. apply Z.eqb_eq. reflexivity.
Qed.

Lemma filterFrom_keepFirst (pre l : list A) :
  Js.filterFrom
    (fun x index array => Js.findIndex (sameKey x) array =? index)
    (Z.of_nat (List.length pre)) (pre ++ l) l
  = keepFirst pre l.
Proof.
  revert pre. induction l as [|x l IH]; intros pre; simpl.
  - reflexivity.
  - rewrite first_index_test.
    assert (E : Z.of_nat (List.length pre) + 1
                = Z.of_nat (List.length (pre ++ [x]))).
    { rewrite length_app. simpl. lia. }
    assert (E' : pre ++ x :: l = (pre ++ [x]) ++ l).
    { rewrite <- app_assoc. reflexivity. }
    rewrite E, E', IH.
    destruct (existsb (sameKey x) pre); reflexivity.
Qed.

(** The idiom keeps the first element of every key. *)
Lemma firstPerKey_keepFirst (arr : list A) :
  Js.firstPerKey key arr = keepFirst [] arr.
Proof.
  unfold Js.firstPerKey, Js.filterIdx.
  exact (filterFrom_keepFirst [] arr).
Qed.

Lemma keepFirst_In (seen l : list A) (x : A) :
  In x (keepFirst seen l) -> In x l /\ existsb (sameKey x) seen = false.
Proof.
  revert seen. induction l as [|a l IH]; intros seen; simpl.
  - intros [].
  - destruct (existsb (sameKey a) seen) eqn:E.
    + intros H. apply IH in H as [H1 H2]. split; [right; exact H1|].
      rewrite existsb_app in H2. apply orb_false_iff in H2. tauto.
    + intros [->|H].
      * split; [left; reflexivity | exact E].
      * apply IH in H as [H1 H2]. split; [right; exact H1|].
        rewrite existsb_app in H2. apply orb_false_iff in H2. tauto.
Qed.

Lemma keepFirst_nodup (seen l : list A) :
  NoDup (map key (keepFirst seen l)).
Proof.
  revert seen. induction l as [|a l IH]; intros seen; simpl.
  - constructor.
  - destruct (existsb (sameKey a) seen); [apply IH|].
    simpl. constructor; [|apply IH].
    intros Hin. apply in_map_iff in Hin as (y & Hk & Hy).
    apply keepFirst_In in Hy as [_ Hy].
    rewrite existsb_app in Hy. apply orb_false_iff in Hy as [_ Hy].
    simpl in Hy. unfold sameKey in Hy. rewrite Hk, Z.eqb_refl in Hy.
    discriminate.
Qed.

Lemma keepFirst_covers (seen l : list A) (y : A) :
  In y l -> existsb (sameKey y) seen = false ->
  exists x, In x (keepFirst seen l) /\ key x = key y.
Proof.
  revert seen. induction l as [|a l IH]; intros seen; simpl.
  - intros [].
  - intros [->|Hy] Hseen.
    + rewrite Hseen. exists y. split; [left|]; reflexivity.
    + destruct (key a =? key y) eqn:Ea.
      * apply Z.eqb_eq in Ea.
        assert (Es : existsb (sameKey a) seen = existsb (sameKey y) seen).
        { unfold sameKey. rewrite Ea. reflexivity. }
        rewrite Es, Hseen. exists a. split; [left; reflexivity | exact Ea].
      * assert (Hs' : existsb (sameKey y) (seen ++ [a]) = false).
        { rewrite existsb_app, Hseen. simpl. unfold sameKey.
          rewrite Ea. reflexivity. }
        destruct (IH (seen ++ [a]) Hy Hs') as (x & Hx & Hk).
        exists x. split; [|exact Hk].
        destruct (existsb (sameKey a) seen); [exact Hx | right; exact Hx].
Qed.

(** In an array sorted by [R], the element kept for a key stands before
    every other element of that key. *)
Lemma keepFirst_first (R : A -> A -> Prop) (seen l : list A) (x y : A) :
  StronglySorted R l ->
  In x (keepFirst seen l) -> In y l -> key y = key x ->
  x = y \/ R x y.
Proof.
  revert seen. induction l as [|a l IH]; intros seen Hs; simpl.
  - intros [].
  - inversion Hs as [|? ? Hs' Hall]; subst. rewrite Forall_forall in Hall.
    assert (Hrest : In x (keepFirst (seen ++ [a]) l) -> a = y \/ In y l ->
                    key y = key x -> x = y \/ R x y).
    { intros Hx [->|Hy] Hk.
      - apply keepFirst_In in Hx as [_ Hx].
        rewrite existsb_app in Hx. apply orb_false_iff in Hx as [_ Hx].
        simpl in Hx. unfold sameKey in Hx. rewrite Hk, Z.eqb_refl in Hx.
        discriminate.
      - eapply IH; eauto. }
    destruct (existsb (sameKey a) seen); [exact Hrest|].
    intros [->|Hx]; [|apply Hrest; exact Hx].
    intros [->|Hy] _; [left; reflexivity | right; apply Hall; exact Hy].
Qed.

Lemma keepFirst_nil_inv (l : list A) : keepFirst [] l = [] -> l = [].
Proof.
  destruct l as [|a l]; simpl; [reflexivity | discriminate].
Qed.

End FirstPerKeyFacts.

(* ================================================================== *)
(** * Competition ranking (PerformanceService) *)
(* ================================================================== *)

Section CompetitionFacts.

Import PerformanceService.

Lemma assignRanks_scored (l : list Scored) (index : nat)
  (previousScore : option Q) (currentRank : option nat) :
  map scored (assignRanks index previousScore currentRank l) = l.
Proof.
  revert index previousScore currentRank.
  induction l as [|s l IH]; intros; simpl; [|rewrite IH]; reflexivity.
Qed.

(** The rank of an entry, from the entry before it. *)
Lemma assignRanks_step (l : list Scored) (index : nat)
  (previousScore : option Q) (currentRank : option nat) (i : nat)
  (r : Ranked) :
  nth_error (assignRanks index previousScore currentRank l) i = Some r ->
  match i with
  | O =>
      overallRank r =
      if Js.strictNeq (overallScore (scored r)) previousScore
      then Some (index + 1)%nat else currentRank
  | S j =>
      exists p,
        nth_error (assignRanks index previousScore currentRank l) j = Some p
        /\ overallRank r =
           if Js.strictNeq (overallScore (scored r)) (overallScore (scored p))
           then Some (index + i + 1)%nat else overallRank p
  end.
Proof.
  revert index previousScore currentRank i.
  induction l as [|s l IH]; intros index prev cur i H.
  - destruct i; discriminate.
  - destruct i as [|j]; simpl in H.
    + injection H as <-. reflexivity.
    + specialize (IH _ _ _ _ H). destruct j as [|k].
      * eexists. split; [reflexivity|]. simpl.
        rewrite IH. replace (index + 1 + 1)%nat with (S index + 1)%nat by lia.
        reflexivity.
      * destruct IH as (p & Hp & Hr). exists p. split; [exact Hp|].
        rewrite Hr.
        replace (index + S (S k) + 1)%nat with (S index + S k + 1)%nat by lia.
        reflexivity.
Qed.

Lemma strictNeq_some (x y : Q) :
  Js.strictNeq (Some x) (Some y) = false <-> (x == y)%Q.
Proof.
  simpl. rewrite negb_false_iff. apply Qeq_bool_iff.
Qed.

Lemma assignRanks_competition (l : list Scored) :
  Forall (fun s => Js.notNull (overallScore s) = true) l ->
  Policy.competitionRanked (assignRanks 0 None None l).
Proof.
  intros Hall i r Hi.
  assert (Hscored : forall j p,
             nth_error (assignRanks 0 None None l) j = Some p ->
             exists q, Policy.scoreOf p = Some q).
  { intros j p Hp. rewrite Forall_forall in Hall.
    assert (Hin : In (scored p) l).
    { rewrite <- (assignRanks_scored l 0 None None).
      apply in_map. eapply nth_error_In. exact Hp. }
    apply Hall in Hin. unfold Policy.scoreOf.
    destruct (overallScore (scored p)) as [q|]; [eauto | discriminate]. }
  destruct (Hscored _ _ Hi) as (q & Hq). exists q. split; [exact Hq|].
  apply assignRanks_step in Hi. unfold Policy.scoreOf in Hq.
  destruct i as [|j].
  - rewrite Hi, Hq. reflexivity.
  - destruct Hi as (p & Hp & Hr).
    destruct (Hscored _ _ Hp) as (qp & Hqp). unfold Policy.scoreOf in Hqp.
    exists p, qp. split; [exact Hp|]. split; [exact Hqp|].
    rewrite Hq, Hqp in Hr. rewrite Hr.
    destruct (Js.strictNeq (Some q) (Some qp)) eqn:E.
    + split; [|intros _; f_equal; lia].
      intros Heq. apply strictNeq_some in Heq. congruence.
    + apply strictNeq_some in E. split; [reflexivity | tauto].
Qed.

Lemma scoreDesc_total (a b : Scored) :
  ~ Js.before scoreDesc a b -> Js.before scoreDesc b a.
Proof. unfold Js.before, scoreDesc. intros H. lra. Qed.

Lemma scoreDesc_trans (a b c : Scored) :
  Js.before scoreDesc a b -> Js.before scoreDesc b c ->
  Js.before scoreDesc a c.
Proof. unfold Js.before, scoreDesc. intros H1 H2. lra. Qed.

Lemma StronglySorted_map_inv {A B} (f : A -> B) (R : B -> B -> Prop)
  (l : list A) :
  StronglySorted R (map f l) -> StronglySorted (fun a b => R (f a) (f b)) l.
Proof.
  induction l as [|a l IH]; simpl; intros H.
  - constructor.
  - inversion H as [|? ? Hs Hall]; subst. constructor; [apply IH; exact Hs|].
    rewrite Forall_forall in *. intros b Hb. apply Hall, in_map, Hb.
Qed.

Lemma StronglySorted_weaken {A} (R R' : A -> A -> Prop) (l : list A) :
  (forall a b, R a b -> R' a b) ->
  StronglySorted R l -> StronglySorted R' l.
Proof.
  intros Himp. induction 1 as [|a l Hs IH Hall]; constructor.
  - exact IH.
  - eapply Forall_impl; [|exact Hall]. intros b. apply Himp.
Qed.

(** Both ranking functions sort the scored students by score, highest
    first, and rank them by the competition policy. *)
Lemma rankTransformed_ranked
  (generateFullName : string -> string -> option string -> string)
  (localeCompare : string -> string -> Q) (transformed : list Scored) :
  let ranked :=
    rankedStudents (rankTransformed generateFullName localeCompare transformed)
  in
  Policy.scoredDescending transformed ranked
  /\ Policy.competitionRanked ranked.
Proof.
  simpl. split; [split|].
  - rewrite assignRanks_scored. apply sort_perm.
  - apply (StronglySorted_map_inv scored
             (fun a b => (Js.num (overallScore b) <= Js.num (overallScore a))%Q)).
    rewrite assignRanks_scored.
    eapply StronglySorted_weaken;
      [| apply sort_strongly_sorted;
         [apply scoreDesc_total | apply scoreDesc_trans]].
    intros a b. unfold Js.before, scoreDesc. lra.
  - apply assignRanks_competition. rewrite Forall_forall. intros s Hs.
    apply sort_In in Hs. apply filter_In in Hs. tauto.
Qed.

End CompetitionFacts.

(** C1. Under the competition policy ([generateOverallExamRankings] and
    [generateOverallActivityRankings]) the ranked students are the scored
    students sorted by score, highest first; the first has rank 1, a student
    whose score equals the score of the student before shares that
    student's rank, and a student with a different score has the 1-based
    position in the sorted order as rank. Scores 90, 90, 80 give ranks
    1, 1, 3 on both tracks. *)
Theorem C1_competition_policy
  (generateFullName : string -> string -> option string -> string)
  (localeCompare : string -> string -> Q)
  (students : list StudentUserAccount) :
  let exam :=
    snd (PerformanceService.generateOverallExamRankings
           generateFullName localeCompare students) in
  let activity :=
    snd (PerformanceService.generateOverallActivityRankings
           generateFullName localeCompare students) in
  (Policy.scoredDescending
     (map PerformanceService.transformExam students)
     (PerformanceService.rankedStudents exam)
   /\ Policy.competitionRanked (PerformanceService.rankedStudents exam))
  /\ (Policy.scoredDescending
        (map PerformanceService.transformActivity students)
        (PerformanceService.rankedStudents activity)
      /\ Policy.competitionRanked (PerformanceService.rankedStudents activity))
  /\ map Sample.standing
       (PerformanceService.rankedStudents
          (snd (PerformanceService.generateOverallExamRankings
                  generateFullName localeCompare Sample.examRoster)))
     = [(2, Some (90 # 1), Some 1%nat); (3, Some (90 # 1), Some 1%nat);
        (1, Some (80 # 1), Some 3%nat)]
  /\ map Sample.standing
       (PerformanceService.rankedStudents
          (snd (PerformanceService.generateOverallActivityRankings
                  generateFullName localeCompare Sample.activityRoster)))
     = [(2, Some (90 # 1), Some 1%nat); (3, Some (90 # 1), Some 1%nat);
        (1, Some (80 # 1), Some 3%nat)].
Proof.
  cbv zeta. split; [|split; [|split]].
  - exact (rankTransformed_ranked generateFullName localeCompare _).
  - exact (rankTransformed_ranked generateFullName localeCompare _).
  - reflexivity.
  - reflexivity.
Qed.

(* ================================================================== *)
(** * The leaderboard of one activity (ActivityService) *)
(* ================================================================== *)

Section LeaderboardFacts.

Import ActivityService.

Lemma mapFrom_nth {A B} (f : A -> nat -> B) (l : list A) (i k : nat) :
  nth_error (Js.mapFrom f i l) k
  = option_map (fun x => f x (i + k)%nat) (nth_error l k).
Proof.
  revert i k. induction l as [|x l IH]; intros i k.
  - destruct k; reflexivity.
  - destruct k as [|k]; simpl.
    + rewrite Nat.add_0_r. reflexivity.
    + rewrite IH. replace (S i + k)%nat with (i + S k)%nat by lia.
      reflexivity.
Qed.

Lemma mapFrom_data (l : list StudentData) (i : nat) :
  map data (Js.mapFrom withRank i l) = l.
Proof.
  revert i. induction l as [|x l IH]; intros i; simpl;
    [|rewrite IH]; reflexivity.
Qed.

Lemma order_total (gameType : ActivityCategoryType) (a b : StudentData) :
  ~ Js.before (Sequential.order gameType) a b ->
  Js.before (Sequential.order gameType) b a.
Proof.
  unfold Js.before. destruct gameType; simpl; unfold scoreDesc, scoreAsc;
    intros H; lra.
Qed.

Lemma order_trans (gameType : ActivityCategoryType) (a b c : StudentData) :
  Js.before (Sequential.order gameType) a b ->
  Js.before (Sequential.order gameType) b c ->
  Js.before (Sequential.order gameType) a c.
Proof.
  unfold Js.before. destruct gameType; simpl; unfold scoreDesc, scoreAsc;
    intros H1 H2; lra.
Qed.

Lemma order_atLeastAsGood (gameType : ActivityCategoryType)
  (a b : StudentData) :
  Js.before (Sequential.order gameType) a b ->
  Sequential.atLeastAsGood gameType a b.
Proof.
  unfold Js.before. destruct gameType; simpl; unfold scoreDesc, scoreAsc;
    intros H; lra.
Qed.

Lemma order_ties (gameType : ActivityCategoryType) (q : Q)
  (a b : StudentData) :
  Sequential.hasScore q a = true -> Sequential.hasScore q b = true ->
  Js.before (Sequential.order gameType) a b.
Proof.
  unfold Sequential.hasScore, Js.before. intros Ha Hb.
  apply Qeq_bool_iff in Ha, Hb.
  destruct gameType; simpl; unfold scoreDesc, scoreAsc; lra.
Qed.

(** The three branches of "Calculate student rankings" are one
    computation. *)
Lemma rankStudentData_eq (gameType : ActivityCategoryType)
  (studentData : list StudentData) :
  rankStudentData gameType studentData
  = Js.mapIdx withRank
      (Js.sort (Sequential.order gameType)
         (filter (Sequential.eligible gameType) studentData))
    ++ map withoutRank
         (filter (fun d => negb (Sequential.eligible gameType d))
            studentData).
Proof.
  destruct gameType; simpl; try reflexivity.
  do 2 f_equal. apply filter_ext. intros d.
  unfold Js.isNull. rewrite negb_andb. reflexivity.
Qed.

Lemma rankStudentData_leaderboard (gameType : ActivityCategoryType)
  (studentData : list StudentData) :
  exists ranked rest,
    rankStudentData gameType studentData = ranked ++ rest
    /\ Sequential.leaderboard gameType studentData ranked rest.
Proof.
  rewrite rankStudentData_eq. eexists. eexists. split; [reflexivity|].
  unfold Sequential.leaderboard, Js.mapIdx. rewrite mapFrom_data.
  repeat split.
  - apply sort_perm.
  - eapply StronglySorted_weaken; [apply order_atLeastAsGood|].
    apply sort_strongly_sorted; [apply order_total | apply order_trans].
  - intros q. apply sort_stable. apply order_ties.
  - intros i r Hi. rewrite mapFrom_nth in Hi.
    destruct (nth_error _ i); [|discriminate]. injection Hi as <-.
    reflexivity.
  - rewrite map_map. apply map_id.
  - apply Forall_forall. intros r Hr. apply in_map_iff in Hr as (d & <- & _).
    reflexivity.
Qed.

Lemma mapM_ok {A B} (f : A -> Js.result B) (l : list A) :
  (forall x, In x l -> exists y, f x = Js.Ok y) ->
  exists ys, Js.mapM f l = Js.Ok ys /\ Forall2 (fun x y => f x = Js.Ok y) l ys.
Proof.
  induction l as [|x l IH]; intros H; simpl.
  - exists []. split; [reflexivity | constructor].
  - destruct (H x (or_introl eq_refl)) as (y & Hy).
    destruct IH as (ys & Hys & Hall); [intros z Hz; apply H; right; exact Hz|].
    exists (y :: ys). rewrite Hy, Hys. simpl.
    split; [reflexivity | constructor; assumption].
Qed.

Variable getStudentsByTeacherId : Z -> list StudentUserAccount.
Variable completionRows : list ActivityCategoryCompletion.

Lemma findCompletions_none (sid : Z) :
  findCompletions completionRows [] sid = [].
Proof.
  unfold findCompletions. induction completionRows as [|c l IH]; simpl;
    [reflexivity | exact IH].
Qed.

(** No row is computed with an error: the repository returns no
    completion for an empty list of category ids. *)
Lemma studentDataOf_ok (gameType : ActivityCategoryType)
  (cats : list ActivityCategory) (sid : Z) :
  exists d,
    studentDataOf gameType cats sid
      (findCompletions completionRows (map cat_id cats) sid) = Js.Ok d
    /\ studentId d = sid.
Proof.
  destruct gameType; simpl; try (eexists; split; reflexivity).
  destruct cats as [|c cats]; simpl.
  - rewrite findCompletions_none. simpl. eexists; split; reflexivity.
  - eexists; split; reflexivity.
Qed.

(** [generateActivityRankings] returns a leaderboard for every activity
    and roster. *)
Lemma generateActivityRankings_ok (activity : Activity) (teacherId : Z) :
  exists studentData,
    Sequential.rowsOf completionRows activity
      (getStudentsByTeacherId teacherId) studentData
    /\ snd (generateActivityRankings getStudentsByTeacherId completionRows
              activity teacherId)
       = Js.Ok (rankStudentData (act_gameType activity) studentData).
Proof.
  unfold generateActivityRankings. simpl.
  destruct (mapM_ok
              (fun st =>
                 studentDataOf (act_gameType activity)
                   (filteredCategories activity) (stu_id st)
                   (findCompletions completionRows
                      (map cat_id (filteredCategories activity)) (stu_id st)))
              (getStudentsByTeacherId teacherId)) as (sd & Hsd & Hall).
  { intros st _.
    destruct (studentDataOf_ok (act_gameType activity)
                (filteredCategories activity) (stu_id st)) as (d & Hd & _).
    exists d. exact Hd. }
  exists sd. split.
  - unfold Sequential.rowsOf. eapply Forall2_impl; [|exact Hall].
    intros st d Hd. split; [|exact Hd].
    destruct (studentDataOf_ok (act_gameType activity)
                (filteredCategories activity) (stu_id st)) as (d' & Hd' & Hid).
    congruence.
  - rewrite Hsd. reflexivity.
Qed.

End LeaderboardFacts.

(** C2, as stated, fails for a time-based activity: Ben has a score (an
    average of 5 seconds over two completions) and no rank, and Ana, the
    second of the scored students by time, has rank 1. *)
Lemma C2_scored_without_rank :
  exists studentData board,
    Sequential.rowsOf Sample.timeRows Sample.timeActivity (Sample.roster 7)
      studentData
    /\ snd (ActivityService.generateActivityRankings Sample.roster
              Sample.timeRows Sample.timeActivity 7) = Js.Ok board
    /\ map Sequential.entry board
       = [ (1, Some (60 # 3), Some 1%nat); (2, Some (10 # 2), None);
           (3, None, None) ]
    /\ ~ Sequential.scoredByPosition Time studentData board.
Proof.
  eexists. eexists. split; [|split; [|split]].
  - unfold Sequential.rowsOf. simpl.
    repeat (apply Forall2_cons; [split; [|reflexivity]; reflexivity|]).
    apply Forall2_nil.
  - reflexivity.
  - reflexivity.
  - intros H. specialize (H 0%nat _ eq_refl).
    simpl in H. destruct H as [H|[H|[H|[]]]]; discriminate H.
Qed.

(** C2, amended. The leaderboard of one activity
    ([generateActivityRankings], sequential policy) always exists; its
    ranked part lists the eligible students, those with a score and, in a
    time-based activity, at least three canonical completions, by score,
    highest first (lowest time first for a time-based activity), students
    of equal score in the order of the roster, and the rank of each is the
    1-based position, so that no two students share a rank. Scores 90, 90,
    80 give ranks 1, 2, 3. *)
Theorem C2_sequential_policy
  (getStudentsByTeacherId : Z -> list StudentUserAccount)
  (completionRows : list ActivityCategoryCompletion)
  (activity : Activity) (teacherId : Z) :
  (exists studentData ranked rest,
     Sequential.rowsOf completionRows activity
       (getStudentsByTeacherId teacherId) studentData
     /\ snd (ActivityService.generateActivityRankings getStudentsByTeacherId
               completionRows activity teacherId)
        = Js.Ok (ranked ++ rest)
     /\ Sequential.leaderboard (act_gameType activity) studentData ranked rest
     /\ (forall i j ri rj,
           nth_error ranked i = Some ri -> nth_error ranked j = Some rj ->
           ActivityService.rank ri = ActivityService.rank rj -> i = j))
  /\ Sequential.entries
       (snd (ActivityService.generateActivityRankings Sample.roster
               Sample.pointRows Sample.pointActivity 7))
     = Some [ (2, Some (90 # 1), Some 1%nat);
              (3, Some (90 # 1), Some 2%nat);
              (1, Some (80 # 1), Some 3%nat) ].
Proof.
  split; [|reflexivity].
  destruct (generateActivityRankings_ok getStudentsByTeacherId completionRows
              activity teacherId) as (sd & Hrows & Hres).
  destruct (rankStudentData_leaderboard (act_gameType activity) sd)
    as (ranked & rest & Heq & Hboard).
  exists sd, ranked, rest. rewrite Hres, Heq.
  split; [exact Hrows|]. split; [reflexivity|]. split; [exact Hboard|].
  intros i j ri rj Hi Hj Hr.
  destruct Hboard as (_ & _ & _ & Hpos & _).
  rewrite (Hpos _ _ Hi), (Hpos _ _ Hj) in Hr. injection Hr. lia.
Qed.

Section GateFacts.

Import ActivityService.

Lemma rankedData_eta (r : RankedData) :
  r = {| data := data r; rank := rank r |}.
Proof. destruct r; reflexivity. Qed.

Lemma atLeast3_spec (d : StudentData) :
  atLeast3 d = true <-> (3 <= List.length (completions d))%nat.
Proof. unfold atLeast3. apply Nat.leb_le. Qed.

(** A row with completions has a score in the time branch. *)
Lemma time_row_scored (cats : list ActivityCategory) (sid : Z)
  (targetCompletions : list ActivityCategoryCompletion) (d : StudentData) :
  studentDataOf Time cats sid targetCompletions = Js.Ok d ->
  completions d <> [] -> score d <> None.
Proof.
  simpl. intros H. injection H as <-. simpl.
  destruct (Js.reduce (pushBestTime targetCompletions) [] cats); simpl;
    [congruence | discriminate].
Qed.

Lemma leaderboard_timeGate (studentData : list StudentData)
  (ranked rest : list RankedData) :
  Forall (fun d => completions d <> [] -> score d <> None) studentData ->
  Sequential.leaderboard Time studentData ranked rest ->
  Sequential.timeGate studentData ranked rest.
Proof.
  intros Hscored (Hperm & _ & _ & Hpos & Hrest & Hnone).
  rewrite Forall_forall in Hscored.
  assert (Hin : forall d, In d (map data ranked) <->
                          In d studentData /\ Sequential.eligible Time d = true).
  { intros d. rewrite <- filter_In. split; apply Permutation_in;
      [exact Hperm | apply Permutation_sym; exact Hperm]. }
  repeat split.
  - assert (Hd : In d (map data rest)).
    { rewrite Hrest. apply filter_In. split; [assumption|].
      simpl. apply negb_true_iff, andb_false_iff. right.
      apply not_true_is_false. rewrite atLeast3_spec. lia. }
    apply in_map_iff in Hd as (r & <- & Hr).
    rewrite Forall_forall in Hnone. specialize (Hnone r Hr).
    unfold withoutRank. rewrite <- Hnone, <- rankedData_eta. exact Hr.
  - intros Hd. apply Hin in Hd as [_ Hd]. simpl in Hd.
    apply andb_true_iff in Hd as [_ Hd]. apply atLeast3_spec in Hd. lia.
  - apply Hscored; [assumption|]. destruct (completions d); simpl in *;
      [lia | discriminate].
  - assert (Hs : score d <> None).
    { apply Hscored; [assumption|]. destruct (completions d); simpl in *;
        [lia | discriminate]. }
    assert (Hd : In d (map data ranked)).
    { apply Hin. split; [assumption|]. simpl. apply andb_true_iff. split.
      - destruct (score d); [reflexivity | congruence].
      - apply atLeast3_spec. assumption. }
    apply in_map_iff in Hd as (r & <- & Hr).
    apply In_nth_error in Hr as (i & Hi). exists i.
    rewrite Hi. f_equal. unfold withRank.
    rewrite <- (Hpos _ _ Hi). apply rankedData_eta.
  - exact Hnone.
  - apply Forall_forall. intros r Hr. apply In_nth_error in Hr as (i & Hi).
    rewrite (Hpos _ _ Hi). discriminate.
Qed.

End GateFacts.

(** C6. In the leaderboard of a time-based activity a student with fewer
    than three canonical completions is in the unranked part, with rank
    null, also when the average time is a number; a student with three or
    more has a score and is ranked. Ben, with two completions of 5 seconds
    each, is unranked behind Ana, whose three completions average 20. *)
Theorem C6_time_gate
  (getStudentsByTeacherId : Z -> list StudentUserAccount)
  (completionRows : list ActivityCategoryCompletion)
  (activity : Activity) (teacherId : Z) :
  act_gameType activity = Time ->
  (exists studentData ranked rest,
     Sequential.rowsOf completionRows activity
       (getStudentsByTeacherId teacherId) studentData
     /\ snd (ActivityService.generateActivityRankings getStudentsByTeacherId
               completionRows activity teacherId)
        = Js.Ok (ranked ++ rest)
     /\ Sequential.timeGate studentData ranked rest)
  /\ Sequential.entries
       (snd (ActivityService.generateActivityRankings Sample.roster
               Sample.timeRows Sample.timeActivity 7))
     = Some [ (1, Some (60 # 3), Some 1%nat);
              (2, Some (10 # 2), None);
              (3, None, None) ].
Proof.
  intros Htime. split; [|reflexivity].
  destruct (generateActivityRankings_ok getStudentsByTeacherId completionRows
              activity teacherId) as (sd & Hrows & Hres).
  destruct (rankStudentData_leaderboard (act_gameType activity) sd)
    as (ranked & rest & Heq & Hboard).
  exists sd, ranked, rest. rewrite Hres, Heq.
  split; [exact Hrows|]. split; [reflexivity|].
  rewrite Htime in Hboard. apply leaderboard_timeGate; [|exact Hboard].
  unfold Sequential.rowsOf in Hrows. rewrite Htime in Hrows.
  clear -Hrows. induction Hrows as [|st d sts ds [_ Hd] _ IH]; constructor.
  - eapply time_row_scored. exact Hd.
  - exact IH.
Qed.

Lemma C6_time_gate_witness :
  act_gameType Sample.timeActivity = Time
  /\ exists studentData ranked rest,
       Sequential.rowsOf Sample.timeRows Sample.timeActivity
         (Sample.roster 7) studentData
       /\ snd (ActivityService.generateActivityRankings Sample.roster
                 Sample.timeRows Sample.timeActivity 7)
          = Js.Ok (ranked ++ rest)
       /\ Sequential.timeGate studentData ranked rest.
Proof.
  split; [reflexivity|].
  exact (proj1 (C6_time_gate Sample.roster Sample.timeRows
                  Sample.timeActivity 7 eq_refl)).
Defined.

(* ================================================================== *)
(** * Every student is ranked or unranked, once *)
(* ================================================================== *)

Section TotalityFacts.

Lemma filter_partition {A} (p : A -> bool) (l : list A) :
  Permutation (filter p l ++ filter (fun x => negb (p x)) l) l.
Proof.
  induction l as [|x l IH]; simpl.
  - constructor.
  - destruct (p x); simpl.
    + apply perm_skip. exact IH.
    + apply Permutation_sym. apply Permutation_cons_app.
      apply Permutation_sym. exact IH.
Qed.

Lemma partitions_of_perm {R : Type} (idOf : R -> Z)
  (rankOf : R -> option nat) (ids : list Z) (ranked unranked : list R) :
  Permutation (map idOf (ranked ++ unranked)) ids ->
  Forall (fun r => rankOf r <> None) ranked ->
  Forall (fun r => rankOf r = None) unranked ->
  Totality.partitions idOf rankOf ids ranked unranked.
Proof.
  intros Hperm Hr Hu. repeat split; try assumption.
  apply Permutation_length in Hperm.
  rewrite length_map, length_app in Hperm. exact Hperm.
Qed.

Lemma rowsOf_ids (completionRows : list ActivityCategoryCompletion)
  (activity : Activity) (students : list StudentUserAccount)
  (studentData : list ActivityService.StudentData) :
  Sequential.rowsOf completionRows activity students studentData ->
  map ActivityService.studentId studentData = map stu_id students.
Proof.
  induction 1 as [|st d sts ds [Hid _] _ IH]; simpl;
    [|rewrite Hid, IH]; reflexivity.
Qed.

Lemma leaderboard_partitions (gameType : ActivityCategoryType)
  (studentData : list ActivityService.StudentData)
  (ranked rest : list ActivityService.RankedData) :
  Sequential.leaderboard gameType studentData ranked rest ->
  Totality.partitions Totality.rowId ActivityService.rank
    (map ActivityService.studentId studentData) ranked rest.
Proof.
  intros (Hperm & _ & _ & Hpos & Hrest & Hnone).
  apply partitions_of_perm.
  - unfold Totality.rowId. rewrite <- (map_map ActivityService.data).
    apply Permutation_map. rewrite map_app, Hrest.
    eapply Permutation_trans; [|apply filter_partition].
    apply Permutation_app_tail. exact Hperm.
  - apply Forall_forall. intros r Hr. apply In_nth_error in Hr as (i & Hi).
    rewrite (Hpos _ _ Hi). discriminate.
  - exact Hnone.
Qed.

Import PerformanceService.

Lemma competitionRanked_some (l : list Ranked) :
  Policy.competitionRanked l -> Forall (fun r => overallRank r <> None) l.
Proof.
  intros H. apply Forall_forall. intros r Hr.
  apply In_nth_error in Hr as (i & Hi). revert r Hi.
  induction i as [|j IH]; intros r Hi.
  - destruct (H _ _ Hi) as (q & _ & Hrank). rewrite Hrank. discriminate.
  - destruct (H _ _ Hi) as (q & _ & p & qp & Hp & _ & Hsame & Hdiff).
    destruct (Qeq_dec q qp) as [E|E].
    + rewrite (Hsame E). apply IH. exact Hp.
    + rewrite (Hdiff E). discriminate.
Qed.

Lemma rankTransformed_partitions
  (generateFullName : string -> string -> option string -> string)
  (localeCompare : string -> string -> Q) (transformed : list Scored) :
  let r := rankTransformed generateFullName localeCompare transformed in
  Permutation (map scored (rankedStudents r ++ unrankedStudents r))
    transformed
  /\ Forall (fun x => overallRank x <> None) (rankedStudents r)
  /\ Forall (fun x => overallRank x = None) (unrankedStudents r).
Proof.
  cbv zeta. split; [|split].
  - simpl. rewrite map_app, assignRanks_scored, map_map. simpl.
    rewrite map_id.
    eapply Permutation_trans; [|apply (filter_partition
      (fun s => Js.notNull (overallScore s)))].
    apply Permutation_app; apply sort_perm.
  - apply competitionRanked_some.
    exact (proj2 (rankTransformed_ranked generateFullName localeCompare
                    transformed)).
  - simpl. apply Forall_forall. intros x Hx.
    apply in_map_iff in Hx as (s & <- & _). reflexivity.
Qed.

Lemma transformExam_student (s : StudentUserAccount) :
  student (transformExam s) = sortExamCompletions s.
Proof.
  unfold transformExam. destruct (negb _); reflexivity.
Qed.

Lemma transformActivity_student (s : StudentUserAccount) :
  student (transformActivity s) = sortActivityCompletions s.
Proof.
  unfold transformActivity. destruct (negb _); reflexivity.
Qed.

Lemma rankTransformed_total
  (generateFullName : string -> string -> option string -> string)
  (localeCompare : string -> string -> Q)
  (transform : StudentUserAccount -> Scored)
  (students : list StudentUserAccount) :
  (forall s, stu_id (student (transform s)) = stu_id s) ->
  let r :=
    rankTransformed generateFullName localeCompare (map transform students) in
  Totality.partitions Totality.rankedId overallRank (map stu_id students)
    (rankedStudents r) (unrankedStudents r).
Proof.
  intros Hid r.
  destruct (rankTransformed_partitions generateFullName localeCompare
              (map transform students)) as (Hperm & Hr & Hu).
  apply partitions_of_perm; [|exact Hr|exact Hu].
  unfold Totality.rankedId.
  rewrite <- (map_map scored (fun s => stu_id (student s))).
  eapply Permutation_trans; [apply Permutation_map; exact Hperm|].
  rewrite map_map. erewrite map_ext; [apply Permutation_refl|].
  exact Hid.
Qed.

End TotalityFacts.

(** C9. Each ranking operation returns every student of its roster
    exactly once, in its ranked part, with a rank, or in its unranked
    part, without one: the student ids of the two parts together are a
    permutation of the ids of the roster, and the two parts together have
    as many entries as the roster has students. *)
Theorem C9_rankings_partition_roster
  (generateFullName : string -> string -> option string -> string)
  (localeCompare : string -> string -> Q)
  (getStudentsByTeacherId : Z -> list StudentUserAccount)
  (completionRows : list ActivityCategoryCompletion)
  (activity : Activity) (teacherId : Z)
  (students : list StudentUserAccount) :
  (exists ranked rest,
     snd (ActivityService.generateActivityRankings getStudentsByTeacherId
            completionRows activity teacherId)
     = Js.Ok (ranked ++ rest)
     /\ Totality.partitions Totality.rowId ActivityService.rank
          (map stu_id (getStudentsByTeacherId teacherId)) ranked rest)
  /\ (let r :=
        snd (PerformanceService.generateOverallExamRankings
               generateFullName localeCompare students) in
      Totality.partitions Totality.rankedId PerformanceService.overallRank
        (map stu_id students)
        (PerformanceService.rankedStudents r)
        (PerformanceService.unrankedStudents r))
  /\ (let r :=
        snd (PerformanceService.generateOverallActivityRankings
               generateFullName localeCompare students) in
      Totality.partitions Totality.rankedId PerformanceService.overallRank
        (map stu_id students)
        (PerformanceService.rankedStudents r)
        (PerformanceService.unrankedStudents r)).
Proof.
  split; [|split].
  - destruct (generateActivityRankings_ok getStudentsByTeacherId
                completionRows activity teacherId) as (sd & Hrows & Hres).
    destruct (rankStudentData_leaderboard (act_gameType activity) sd)
      as (ranked & rest & Heq & Hboard).
    exists ranked, rest. rewrite Hres, Heq. split; [reflexivity|].
    rewrite <- (rowsOf_ids _ _ _ _ Hrows).
    eapply leaderboard_partitions. exact Hboard.
  - apply rankTransformed_total. intros s.
    rewrite transformExam_student. reflexivity.
  - apply rankTransformed_total. intros s.
    rewrite transformActivity_student. reflexivity.
Qed.

(* ================================================================== *)
(** * Best completion and score of a point-based activity *)
(* ================================================================== *)

Section PointFacts.

Import ActivityService.

Local Abbreviation pickPoint := Aggregation.pickPoint.

Lemma StronglySorted_filter_keeps {A} (R : A -> A -> Prop) (p : A -> bool)
  (l : list A) :
  StronglySorted R l -> StronglySorted R (filter p l).
Proof.
  induction 1 as [|a l Hs IH Hall]; simpl; [constructor|].
  destruct (p a); [|exact IH]. constructor; [exact IH|].
  rewrite Forall_forall in *. intros b Hb. apply filter_In in Hb as [Hb _].
  apply Hall. exact Hb.
Qed.

Lemma byTime_total (a b : ActivityCategoryCompletion) :
  ~ Js.before byTime a b -> Js.before byTime b a.
Proof. unfold Js.before, byTime. intros H. lra. Qed.

Lemma byTime_trans (a b c : ActivityCategoryCompletion) :
  Js.before byTime a b -> Js.before byTime b c -> Js.before byTime a c.
Proof. unfold Js.before, byTime. intros H1 H2. lra. Qed.

Lemma byScoreDesc_total (a b : ActivityCategoryCompletion) :
  ~ Js.before byScoreDesc a b -> Js.before byScoreDesc b a.
Proof. unfold Js.before, byScoreDesc. intros H. lra. Qed.

Lemma byScoreDesc_trans (a b c : ActivityCategoryCompletion) :
  Js.before byScoreDesc a b -> Js.before byScoreDesc b c ->
  Js.before byScoreDesc a c.
Proof. unfold Js.before, byScoreDesc. intros H1 H2. lra. Qed.

(** Sorting by time and then, stably, by score puts the best completion
    first. *)
Lemma two_sorts_best (candidates rest : list ActivityCategoryCompletion)
  (c : ActivityCategoryCompletion) :
  Js.sort byScoreDesc (Js.sort byTime candidates) = c :: rest ->
  Aggregation.bestPoint candidates c.
Proof.
  intros Hsort. split.
  - apply (sort_In byTime), (sort_In byScoreDesc). rewrite Hsort.
    left. reflexivity.
  - intros c' Hc'. apply (sort_In byTime) in Hc'. split.
    + assert (Hb : Js.before byScoreDesc c c').
      { eapply sort_head_least; eauto.
        - apply byScoreDesc_total.
        - apply byScoreDesc_trans.
        - intros y. unfold Js.before, byScoreDesc. lra. }
      unfold Js.before, byScoreDesc in Hb. lra.
    + intros Heq.
      set (p := fun y : ActivityCategoryCompletion =>
                  Qeq_bool (com_score y) (com_score c)).
      assert (Hst : filter p (Js.sort byScoreDesc (Js.sort byTime candidates))
                    = filter p (Js.sort byTime candidates)).
      { apply sort_stable. intros x y Hx Hy. unfold p in Hx, Hy.
        apply Qeq_bool_iff in Hx, Hy. unfold Js.before, byScoreDesc. lra. }
      rewrite Hsort in Hst. simpl in Hst.
      assert (Hpc : p c = true) by (apply Qeq_bool_iff; reflexivity).
      rewrite Hpc in Hst.
      assert (Hss : StronglySorted (Js.before byTime)
                      (filter p (Js.sort byTime candidates))).
      { apply StronglySorted_filter_keeps.
        apply sort_strongly_sorted; [apply byTime_total | apply byTime_trans]. }
      rewrite <- Hst in Hss. inversion Hss as [|? ? _ Hall]; subst.
      assert (Hin : In c' (filter p (Js.sort byTime candidates))).
      { apply filter_In. split; [exact Hc'|]. apply Qeq_bool_iff. exact Heq. }
      rewrite <- Hst in Hin. destruct Hin as [->|Hin]; [lra|].
      rewrite Forall_forall in Hall. specialize (Hall _ Hin).
      unfold Js.before, byTime in Hall. lra.
Qed.

Lemma reduce_pushBestPoint
  (targetCompletions : list ActivityCategoryCompletion)
  (cats : list ActivityCategory) (acc : list ActivityCategoryCompletion) :
  Js.reduce (pushBestPoint targetCompletions) acc cats
  = acc ++ Aggregation.selected (pickPoint targetCompletions) cats.
Proof.
  unfold Js.reduce. revert acc. induction cats as [|cat cats IH]; intros acc.
  - simpl. rewrite app_nil_r. reflexivity.
  - simpl. rewrite IH. unfold pushBestPoint, pickPoint.
    destruct (Js.sort byScoreDesc _); simpl.
    + reflexivity.
    + rewrite <- app_assoc. reflexivity.
Qed.

Lemma sumScore_from (coms : list ActivityCategoryCompletion) (acc : Q) :
  (fold_left (fun total com => total + com_score com) coms acc
   == acc + fold_right (fun com total => com_score com + total) 0 coms)%Q.
Proof.
  revert acc. induction coms as [|c coms IH]; intros acc; simpl.
  - lra.
  - rewrite IH. lra.
Qed.

Lemma selected_total
  (pick : ActivityCategory -> option ActivityCategoryCompletion)
  (cats : list ActivityCategory) :
  (fold_right (fun com total => com_score com + total) 0
     (Aggregation.selected pick cats)
   == Aggregation.total (Aggregation.contribution pick) cats)%Q.
Proof.
  induction cats as [|cat cats IH]; simpl.
  - reflexivity.
  - unfold Aggregation.contribution at 1. destruct (pick cat); simpl.
    + rewrite IH. reflexivity.
    + rewrite IH. lra.
Qed.

Lemma selected_nil
  (pick : ActivityCategory -> option ActivityCategoryCompletion)
  (cats : list ActivityCategory) :
  Aggregation.selected pick cats = [] <->
  forall cat, In cat cats -> pick cat = None.
Proof.
  induction cats as [|cat cats IH]; simpl.
  - split; [intros _ ? [] | reflexivity].
  - destruct (pick cat) eqn:E; simpl.
    + split; [discriminate|]. intros H.
      specialize (H cat (or_introl eq_refl)). congruence.
    + rewrite IH. split.
      * intros H c [<-|Hc]; [exact E | apply H; exact Hc].
      * intros H c Hc. apply H. right. exact Hc.
Qed.

Lemma pickPoint_none (targetCompletions : list ActivityCategoryCompletion)
  (cat : ActivityCategory) :
  pickPoint targetCompletions cat = None <->
  ofCategory cat targetCompletions = [].
Proof.
  unfold pickPoint. split.
  - intros H. destruct (Js.sort byScoreDesc _) eqn:E; [|discriminate].
    apply sort_nil_inv in E. apply sort_nil_inv in E. exact E.
  - intros ->. reflexivity.
Qed.

Lemma point_row_scored (cats : list ActivityCategory) (sid : Z)
  (targetCompletions : list ActivityCategoryCompletion) (d : StudentData) :
  studentDataOf Point cats sid targetCompletions = Js.Ok d ->
  Aggregation.pointScored cats targetCompletions d.
Proof.
  simpl. intros H. injection H as <-. simpl.
  rewrite (reduce_pushBestPoint targetCompletions cats []). simpl.
  exists (pickPoint targetCompletions). split; [|split; [|split]].
  - intros cat _. destruct (pickPoint targetCompletions cat) as [c|] eqn:E.
    + unfold pickPoint in E.
      destruct (Js.sort byScoreDesc _) as [|c0 rest] eqn:Es; [discriminate|].
      injection E as ->. eapply two_sorts_best. exact Es.
    + apply pickPoint_none. exact E.
  - reflexivity.
  - destruct (Aggregation.selected (pickPoint targetCompletions) cats) eqn:E;
      simpl.
    + split; [|reflexivity]. intros _ cat Hc. apply pickPoint_none.
      revert cat Hc. apply selected_nil. exact E.
    + split; [discriminate|]. intros Hnone. exfalso.
      assert (Hs : Aggregation.selected (pickPoint targetCompletions) cats
                   = []).
      { apply selected_nil. intros cat Hc. apply pickPoint_none.
        apply Hnone. exact Hc. }
      congruence.
  - intros q Hq.
    destruct (Js.hasLength _); [|discriminate]. injection Hq as <-.
    unfold sumScore, Js.reduce. rewrite sumScore_from, selected_total. lra.
Qed.

End PointFacts.

(** C4. In a point-based activity the canonical completion of a category
    is the one of maximal score and, among those, of minimal
    [timeCompletedSeconds]; the score of a student is the sum of the
    scores of the canonical completions, a category without completion
    adding nothing, and it is null exactly when no category has a
    completion. Dan, whose best scores are 80 at level 1 and 60 at level 3,
    without completion at level 2, scores 140. *)
Theorem C4_point_score
  (getStudentsByTeacherId : Z -> list StudentUserAccount)
  (completionRows : list ActivityCategoryCompletion)
  (activity : Activity) (teacherId : Z) :
  act_gameType activity = Point ->
  (exists studentData ranked rest,
     snd (ActivityService.generateActivityRankings getStudentsByTeacherId
            completionRows activity teacherId)
     = Js.Ok (ranked ++ rest)
     /\ Permutation (map ActivityService.data (ranked ++ rest)) studentData
     /\ Forall2
          (fun st d =>
             ActivityService.studentId d = stu_id st
             /\ Aggregation.pointScored
                  (ActivityService.filteredCategories activity)
                  (ActivityService.findCompletions completionRows
                     (map cat_id (ActivityService.filteredCategories activity))
                     (stu_id st))
                  d)
          (getStudentsByTeacherId teacherId) studentData)
  /\ option_map
       (map (fun r =>
               (Sequential.entry r,
                map com_id
                  (ActivityService.completions (ActivityService.data r)))))
       (Js.returned
          (snd (ActivityService.generateActivityRankings Sample.rosterDan
                  Sample.danRows Sample.pointActivity 7)))
     = Some [ ((4, Some (140 # 1), Some 1%nat), [23; 24]) ].
Proof.
  intros Hpoint. split; [|reflexivity].
  destruct (generateActivityRankings_ok getStudentsByTeacherId completionRows
              activity teacherId) as (sd & Hrows & Hres).
  destruct (rankStudentData_leaderboard (act_gameType activity) sd)
    as (ranked & rest & Heq & Hboard).
  exists sd, ranked, rest. rewrite Hres, Heq. split; [reflexivity|].
  split.
  - destruct Hboard as (Hperm & _ & _ & _ & Hrest & _).
    rewrite map_app, Hrest.
    eapply Permutation_trans; [|apply filter_partition].
    apply Permutation_app_tail. exact Hperm.
  - unfold Sequential.rowsOf in Hrows. rewrite Hpoint in Hrows.
    eapply Forall2_impl; [|exact Hrows].
    intros st d [Hid Hd]. split; [exact Hid|].
    eapply point_row_scored. exact Hd.
Qed.

Lemma C4_point_score_witness :
  act_gameType Sample.pointActivity = Point
  /\ exists studentData ranked rest,
       snd (ActivityService.generateActivityRankings Sample.rosterDan
              Sample.danRows Sample.pointActivity 7)
       = Js.Ok (ranked ++ rest)
       /\ Permutation (map ActivityService.data (ranked ++ rest)) studentData
       /\ Forall2
            (fun st d =>
               ActivityService.studentId d = stu_id st
               /\ Aggregation.pointScored
                    (ActivityService.filteredCategories Sample.pointActivity)
                    (ActivityService.findCompletions Sample.danRows
                       (map cat_id
                          (ActivityService.filteredCategories
                             Sample.pointActivity))
                       (stu_id st))
                    d)
            (Sample.rosterDan 7) studentData.
Proof.
  split; [reflexivity|].
  exact (proj1 (C4_point_score Sample.rosterDan Sample.danRows
                  Sample.pointActivity 7 eq_refl)).
Defined.

(* ================================================================== *)
(** * An activity without categories *)
(* ================================================================== *)

Section NoCategoryFacts.

Import ActivityService.

Local Abbreviation unscoredRow := Sequential.unscoredRow.

Lemma mapM_pure {A B} (f : A -> Js.result B) (g : A -> B) (l : list A) :
  (forall x, f x = Js.Ok (g x)) -> Js.mapM f l = Js.Ok (map g l).
Proof.
  intros H. induction l as [|x l IH]; simpl.
  - reflexivity.
  - rewrite H, IH. reflexivity.
Qed.

Lemma studentDataOf_no_category (gameType : ActivityCategoryType) (sid : Z) :
  studentDataOf gameType [] sid []
  = Js.Ok {| studentId := sid; score := None; completions := [] |}.
Proof. destruct gameType; reflexivity. Qed.

Lemma rankStudentData_unscored (gameType : ActivityCategoryType)
  (students : list StudentUserAccount) :
  rankStudentData gameType (map unscoredRow students)
  = map (fun st => withoutRank (unscoredRow st)) students.
Proof.
  rewrite rankStudentData_eq.
  assert (Hno : filter (Sequential.eligible gameType)
                  (map unscoredRow students) = []).
  { destruct gameType; induction students as [|st l IH]; simpl;
      try reflexivity; exact IH. }
  assert (Hall : filter (fun d => negb (Sequential.eligible gameType d))
                   (map unscoredRow students) = map unscoredRow students).
  { clear Hno.
    destruct gameType; induction students as [|st l IH]; simpl;
      try reflexivity; f_equal; exact IH. }
  rewrite Hno, Hall. simpl. apply map_map.
Qed.

End NoCategoryFacts.

(** C8. For an activity whose de-duplicated category set is empty, of any
    game type, [generateActivityRankings] returns a leaderboard, without
    an error, in which every student of the roster has a null score (and
    a null rank), and [generateActivityWithCompletions] returns, without
    an error, a null score. *)
Theorem C8_no_category_null_score
  (getStudentsByTeacherId : Z -> list StudentUserAccount)
  (completionRows : list ActivityCategoryCompletion)
  (activity : Activity) (teacherId studentId : Z) :
  ActivityService.filteredCategories activity = [] ->
  snd (ActivityService.generateActivityRankings getStudentsByTeacherId
         completionRows activity teacherId)
  = Js.Ok
      (map (fun st =>
              {| ActivityService.data :=
                   {| ActivityService.studentId := stu_id st;
                      ActivityService.score := None;
                      ActivityService.completions := [] |};
                 ActivityService.rank := None |})
         (getStudentsByTeacherId teacherId))
  /\ exists summary,
       snd (ActivityService.generateActivityWithCompletions completionRows
              activity studentId)
       = Js.Ok summary
       /\ ActivityService.awc_score summary = None
       /\ ActivityService.awc_categories summary = [].
Proof.
  intros Hempty. split.
  - unfold ActivityService.generateActivityRankings. simpl.
    rewrite Hempty. simpl.
    rewrite (mapM_pure _ Sequential.unscoredRow).
    + simpl. rewrite rankStudentData_unscored. reflexivity.
    + intros st. rewrite findCompletions_none.
      apply studentDataOf_no_category.
  - unfold ActivityService.generateActivityWithCompletions. simpl.
    rewrite Hempty. simpl. rewrite findCompletions_none.
    destruct (act_gameType activity); simpl; eexists;
      (split; [reflexivity | split; reflexivity]).
Qed.

Lemma C8_no_category_null_score_witness :
  ActivityService.filteredCategories Sample.emptyStageActivity = []
  /\ snd (ActivityService.generateActivityRankings Sample.roster
            Sample.pointRows Sample.emptyStageActivity 7)
     = Js.Ok
         (map (fun st =>
                 {| ActivityService.data :=
                      {| ActivityService.studentId := stu_id st;
                         ActivityService.score := None;
                         ActivityService.completions := [] |};
                    ActivityService.rank := None |})
            (Sample.roster 7))
  /\ exists summary,
       snd (ActivityService.generateActivityWithCompletions Sample.pointRows
              Sample.emptyStageActivity 2)
       = Js.Ok summary
       /\ ActivityService.awc_score summary = None
       /\ ActivityService.awc_categories summary = [].
Proof.
  split; [reflexivity|].
  exact (C8_no_category_null_score Sample.roster Sample.pointRows
           Sample.emptyStageActivity 7 2 eq_refl).
Defined.

(* ================================================================== *)
(** * In-place sorts of the arguments *)
(* ================================================================== *)

Section FrameFacts.

Lemma insert_head {A} (cmp : A -> A -> Q) (x : A) (l : list A) :
  HdRel (Js.before cmp) x l -> Js.insert cmp x l = x :: l.
Proof.
  intros H. destruct l as [|y l]; simpl; [reflexivity|].
  inversion H as [|? ? Hb]; subst. apply Qle_bool_iff in Hb.
  rewrite Hb. reflexivity.
Qed.

(** Sorting an array that is in order leaves it as it is. *)
Lemma sort_sorted_id {A} (cmp : A -> A -> Q) (l : list A) :
  Sorted (Js.before cmp) l -> Js.sort cmp l = l.
Proof.
  induction 1 as [|x l Hs IH Hhd]; simpl; [reflexivity|].
  rewrite IH. apply insert_head. exact Hhd.
Qed.

Lemma key_desc_total {A} (key : A -> Z) (a b : A) :
  ~ Js.before (fun x y => inject_Z (key y - key x)) a b ->
  Js.before (fun x y => inject_Z (key y - key x)) b a.
Proof.
  unfold Js.before. intros H.
  assert (E : (0 < key b - key a)%Z).
  { apply Z.nle_gt. intros Hle. apply H.
    change 0%Q with (inject_Z 0). rewrite <- Zle_Qle. exact Hle. }
  change 0%Q with (inject_Z 0). rewrite <- Zle_Qle. lia.
Qed.

Lemma key_desc_trans {A} (key : A -> Z) (a b c : A) :
  Js.before (fun x y => inject_Z (key y - key x)) a b ->
  Js.before (fun x y => inject_Z (key y - key x)) b c ->
  Js.before (fun x y => inject_Z (key y - key x)) a c.
Proof.
  unfold Js.before. change 0%Q with (inject_Z 0).
  rewrite <- !Zle_Qle. lia.
Qed.

Lemma key_desc_before {A} (key : A -> Z) (a b : A) :
  Js.before (fun x y => inject_Z (key y - key x)) a b <-> key b <= key a.
Proof.
  unfold Js.before. change 0%Q with (inject_Z 0).
  rewrite <- Zle_Qle. lia.
Qed.

Lemma sort_in_place {A} (key : A -> Z) (l : list A) :
  Frame.sortedInPlace (fun x y => inject_Z (key y - key x)) l
    (Js.sort (fun x y => inject_Z (key y - key x)) l).
Proof.
  split; [apply sort_perm | apply sort_sorted, key_desc_total].
Qed.

Lemma sortCategories_after (activity : Activity) :
  Frame.activityAfter activity
    (ActivityService.sortCategoriesInPlace activity).
Proof.
  repeat split; try reflexivity.
  - apply (sort_perm (fun x y => inject_Z (cat_updatedAt y - cat_updatedAt x))).
  - apply (sort_sorted (fun x y => inject_Z (cat_updatedAt y - cat_updatedAt x))).
    apply key_desc_total.
Qed.

Lemma sortExamCompletions_after (s : StudentUserAccount) :
  Frame.examTrackAfter s (PerformanceService.sortExamCompletions s).
Proof.
  repeat split; try reflexivity.
  - apply (sort_perm (fun x y => inject_Z (ec_submittedAt y - ec_submittedAt x))).
  - apply (sort_sorted (fun x y => inject_Z (ec_submittedAt y - ec_submittedAt x))).
    apply key_desc_total.
Qed.

Lemma sortActivityCompletions_after (s : StudentUserAccount) :
  Frame.activityTrackAfter s (PerformanceService.sortActivityCompletions s).
Proof.
  repeat split; try reflexivity.
  - apply (sort_perm (fun x y => inject_Z (com_submittedAt y - com_submittedAt x))).
  - apply (sort_sorted (fun x y => inject_Z (com_submittedAt y - com_submittedAt x))).
    apply key_desc_total.
Qed.

Lemma sortActivityCompletions_twice (s : StudentUserAccount) :
  PerformanceService.sortActivityCompletions
    (PerformanceService.sortActivityCompletions s)
  = PerformanceService.sortActivityCompletions s.
Proof.
  unfold PerformanceService.sortActivityCompletions at 1. simpl.
  unfold PerformanceService.sortActivityCompletions. f_equal.
  apply sort_sorted_id.
  apply (sort_sorted (fun x y => inject_Z (com_submittedAt y - com_submittedAt x))).
  apply key_desc_total.
Qed.

Lemma Forall2_map_right {A B} (R : A -> B -> Prop) (f : A -> B)
  (l : list A) :
  (forall x, R x (f x)) -> Forall2 R l (map f l).
Proof.
  intros H. induction l as [|x l IH]; simpl; constructor; auto.
Qed.

End FrameFacts.

(** C10, as stated, fails: [generateActivityRankings] leaves the
    categories of its activity in another order (most recently updated
    first), and [generateOverallExamRankings] leaves the exam completions
    of a student in another order (latest first). *)
Lemma C10_arguments_reordered :
  act_categories
    (fst (ActivityService.generateActivityRankings Sample.roster
            Sample.pointRows Sample.oldestFirstActivity 7))
  = [ Sample.categoryOf 402 2 2000 Sample.pointGame;
      Sample.categoryOf 401 1 1000 Sample.pointGame ]
  /\ fst (ActivityService.generateActivityRankings Sample.roster
            Sample.pointRows Sample.oldestFirstActivity 7)
     <> Sample.oldestFirstActivity
  /\ map stu_examCompletions
       (fst (PerformanceService.generateOverallExamRankings Sample.fullName
               Sample.codeUnitCompare [Sample.eve]))
     = [[Sample.at1100; Sample.at1000]]
  /\ fst (PerformanceService.generateOverallExamRankings Sample.fullName
            Sample.codeUnitCompare [Sample.eve])
     <> [Sample.eve].
Proof.
  split; [reflexivity|]. split; [discriminate|].
  split; [reflexivity | discriminate].
Qed.

(** C10, amended. A call changes nothing of its arguments but the order
    of the arrays it sorts in place: [generateActivityRankings] and
    [generateActivityWithCompletions] leave the categories of the
    activity sorted by [updatedAt], latest first; the exam-track
    functions leave the exam completions of every student sorted by
    [submittedAt], latest first, and the activity-track functions the
    activity completions. Each array holds the same elements after the
    call as before, and an activity that a call has left is left
    unchanged by the next. *)
Theorem C10_arguments_sorted_in_place
  (generateFullName : string -> string -> option string -> string)
  (localeCompare : string -> string -> Q)
  (getStudentsByTeacherId : Z -> list StudentUserAccount)
  (completionRows : list ActivityCategoryCompletion)
  (getAllExamsByStudentId : Z -> list Exam)
  (getAllActivitiesByStudentId : Z -> list Activity)
  (currentDateTime : Z)
  (activity : Activity) (teacherId studentId : Z)
  (student : StudentUserAccount) (otherStudents : list StudentUserAccount) :
  let students := student :: otherStudents in
  let activity' :=
    fst (ActivityService.generateActivityRankings getStudentsByTeacherId
           completionRows activity teacherId) in
  Frame.activityAfter activity activity'
  /\ fst (ActivityService.generateActivityRankings getStudentsByTeacherId
            completionRows activity' teacherId) = activity'
  /\ Frame.activityAfter activity
       (fst (ActivityService.generateActivityWithCompletions completionRows
               activity studentId))
  /\ Forall2 Frame.examTrackAfter students
       (fst (PerformanceService.generateOverallExamRankings
               generateFullName localeCompare students))
  /\ Forall2 Frame.activityTrackAfter students
       (fst (PerformanceService.generateOverallActivityRankings
               generateFullName localeCompare students))
  /\ Forall2 Frame.examTrackAfter students
       (fst (PerformanceService.generateOverallExamDetailedPerformance
               generateFullName localeCompare getAllExamsByStudentId
               currentDateTime student otherStudents))
  /\ Forall2 Frame.activityTrackAfter students
       (fst (PerformanceService.generateOverallActivityDetailedPerformance
               generateFullName localeCompare getAllActivitiesByStudentId
               student otherStudents)).
Proof.
  cbv zeta. repeat split.
  - apply (sort_perm (fun x y => inject_Z (cat_updatedAt y - cat_updatedAt x))).
  - apply (sort_sorted (fun x y => inject_Z (cat_updatedAt y - cat_updatedAt x))).
    apply key_desc_total.
  - unfold ActivityService.generateActivityRankings,
      ActivityService.sortCategoriesInPlace,
      ActivityService.sortedCategories. simpl. f_equal.
    apply sort_sorted_id.
    apply (sort_sorted (fun x y => inject_Z (cat_updatedAt y - cat_updatedAt x))).
    apply key_desc_total.
  - apply (sort_perm (fun x y => inject_Z (cat_updatedAt y - cat_updatedAt x))).
  - apply (sort_sorted (fun x y => inject_Z (cat_updatedAt y - cat_updatedAt x))).
    apply key_desc_total.
  - apply (Forall2_map_right Frame.examTrackAfter).
    apply sortExamCompletions_after.
  - apply (Forall2_map_right Frame.activityTrackAfter).
    apply sortActivityCompletions_after.
  - apply (Forall2_map_right Frame.examTrackAfter).
    apply sortExamCompletions_after.
  - unfold PerformanceService.generateOverallActivityDetailedPerformance.
    simpl. rewrite sortActivityCompletions_twice. constructor.
    + apply sortActivityCompletions_after.
    + apply (Forall2_map_right Frame.activityTrackAfter).
      apply sortActivityCompletions_after.
Qed.

(* ================================================================== *)
(** * De-duplication of exam completions *)
(* ================================================================== *)

Section ExamDedupFacts.

Import PerformanceService.

(** The de-duplication of the rankings keeps, for every exam, one
    completion, and no other completion of that exam is later. *)
Lemma filteredExamCompletions_latest (s : StudentUserAccount) :
  let kept := filteredExamCompletions s in
  NoDup (map examIdOf kept)
  /\ (forall k, In k kept -> In k (stu_examCompletions s))
  /\ (forall c, In c (stu_examCompletions s) ->
        exists k, In k kept /\ examIdOf k = examIdOf c
                  /\ ec_submittedAt c <= ec_submittedAt k).
Proof.
  cbv zeta. unfold filteredExamCompletions. simpl.
  rewrite firstPerKey_keepFirst. split; [|split].
  - apply keepFirst_nodup.
  - intros k Hk. apply keepFirst_In in Hk as [Hk _].
    apply sort_In in Hk. exact Hk.
  - intros c Hc. apply (sort_In submittedDescExam) in Hc.
    destruct (keepFirst_covers examIdOf [] _ c Hc eq_refl) as (k & Hk & He).
    exists k. split; [exact Hk|]. split; [exact He|].
    assert (Hss : StronglySorted (Js.before submittedDescExam)
                    (Js.sort submittedDescExam (stu_examCompletions s))).
    { apply sort_strongly_sorted.
      - apply (key_desc_total ec_submittedAt).
      - apply (key_desc_trans ec_submittedAt). }
    destruct (keepFirst_first examIdOf _ [] _ k c Hss Hk Hc (eq_sym He))
      as [->|Hb]; [lia|].
    apply (key_desc_before ec_submittedAt) in Hb. exact Hb.
Qed.

(** The de-duplication of the detailed performance keeps the first
    completion of every exam in the order of the array. *)
Lemma detailedExamCompletions_first (s : StudentUserAccount) :
  detailedExamCompletions s = Js.keepFirst examIdOf [] (stu_examCompletions s).
Proof. apply firstPerKey_keepFirst. Qed.

End ExamDedupFacts.

(** C7. The de-duplication of the overall exam ranking keeps one
    completion per exam id, the one with the latest [submittedAt]: of
    Eve's attempts at 10:00 (70 points) and 11:00 (90 points) it keeps the
    one of 11:00, and her overall score is 90. The detailed exam
    performance filters the array before anything sorts it and keeps, for
    every exam, the first completion in the order of the array: of Eve's
    attempts the one of 10:00, so that it counts one exam completed, none
    passed and one failed, next to the overall score of 90. *)
Theorem C7_exam_completion_dedup
  (generateFullName : string -> string -> option string -> string)
  (localeCompare : string -> string -> Q)
  (getAllExamsByStudentId : Z -> list Exam) (currentDateTime : Z)
  (s : StudentUserAccount) :
  (let kept := PerformanceService.filteredExamCompletions s in
   NoDup (map PerformanceService.examIdOf kept)
   /\ (forall k, In k kept -> In k (stu_examCompletions s))
   /\ (forall c, In c (stu_examCompletions s) ->
         exists k, In k kept
                   /\ PerformanceService.examIdOf k
                      = PerformanceService.examIdOf c
                   /\ ec_submittedAt c <= ec_submittedAt k))
  /\ PerformanceService.detailedExamCompletions s
     = Js.keepFirst PerformanceService.examIdOf [] (stu_examCompletions s)
  /\ PerformanceService.filteredExamCompletions Sample.eve = [Sample.at1100]
  /\ PerformanceService.detailedExamCompletions Sample.eve = [Sample.at1000]
  /\ option_map Sample.examCounts
       (Js.returned
          (snd (PerformanceService.generateOverallExamDetailedPerformance
                  generateFullName localeCompare getAllExamsByStudentId
                  currentDateTime Sample.eve [])))
     = Some (1%nat, 0%nat, 1%nat, Some (90 # 1)).
Proof.
  split; [apply filteredExamCompletions_latest|].
  split; [apply detailedExamCompletions_first|].
  split; [reflexivity|]. split; reflexivity.
Qed.

(* ================================================================== *)
(** * Time-based activities in the overall activity score *)
(* ================================================================== *)

Section OverallActivityFacts.

Import PerformanceService.

Lemma insert_map {A B} (g : A -> B) (cmp : A -> A -> Q) (cmp' : B -> B -> Q)
  (x : A) (l : list A) :
  (forall a b, cmp' (g a) (g b) = cmp a b) ->
  Js.insert cmp' (g x) (map g l) = map g (Js.insert cmp x l).
Proof.
  intros H. induction l as [|y l IH]; simpl; [reflexivity|].
  rewrite H. destruct (Qle_bool (cmp x y) 0); simpl;
    [|rewrite IH]; reflexivity.
Qed.

Lemma sort_map {A B} (g : A -> B) (cmp : A -> A -> Q) (cmp' : B -> B -> Q)
  (l : list A) :
  (forall a b, cmp' (g a) (g b) = cmp a b) ->
  Js.sort cmp' (map g l) = map g (Js.sort cmp l).
Proof.
  intros H. induction l as [|x l IH]; simpl; [reflexivity|].
  rewrite IH. apply insert_map. exact H.
Qed.

Lemma filter_map_comm {A B} (g : A -> B) (p : A -> bool) (p' : B -> bool)
  (l : list A) :
  (forall a, p' (g a) = p a) ->
  filter p' (map g l) = map g (filter p l).
Proof.
  intros H. induction l as [|x l IH]; simpl; [reflexivity|].
  rewrite H, IH. destruct (p x); reflexivity.
Qed.

Lemma existsb_map_comm {A B} (g : A -> B) (p : A -> bool) (p' : B -> bool)
  (l : list A) :
  (forall a, p' (g a) = p a) -> existsb p' (map g l) = existsb p l.
Proof.
  intros H. induction l as [|x l IH]; simpl; [reflexivity|].
  rewrite H, IH. reflexivity.
Qed.

Lemma keepFirst_map {A B} (g : A -> B) (key : A -> Z) (key' : B -> Z)
  (seen l : list A) :
  (forall a, key' (g a) = key a) ->
  Js.keepFirst key' (map g seen) (map g l) = map g (Js.keepFirst key seen l).
Proof.
  intros H. revert seen. induction l as [|x l IH]; intros seen; simpl;
    [reflexivity|].
  rewrite (existsb_map_comm g (Js.sameKey key x) (Js.sameKey key' (g x)))
    by (intros a; unfold Js.sameKey; rewrite !H; reflexivity).
  replace (map g seen ++ [g x]) with (map g (seen ++ [x]))
    by (rewrite map_app; reflexivity).
  rewrite IH. destruct (existsb (Js.sameKey key x) seen); reflexivity.
Qed.

Lemma firstPerKey_map {A B} (g : A -> B) (key : A -> Z) (key' : B -> Z)
  (l : list A) :
  (forall a, key' (g a) = key a) ->
  Js.firstPerKey key' (map g l) = map g (Js.firstPerKey key l).
Proof.
  intros H. rewrite !firstPerKey_keepFirst.
  apply (keepFirst_map g key key' [] l H).
Qed.

Variable f : ActivityCategoryCompletion -> Q.

Local Abbreviation retime := (Aggregation.retime f).

Lemma sumOrZero_retime (coms : list ActivityCategoryCompletion) :
  sumOrZero (map retime coms) = sumOrZero coms.
Proof.
  unfold sumOrZero, Js.reduce. generalize 0%Q as acc.
  induction coms as [|c coms IH]; intros acc; simpl;
    [|rewrite IH]; reflexivity.
Qed.

Lemma avgTimeOf_retime (coms : list ActivityCategoryCompletion)
  (activityId : Z) :
  avgTimeOf (map retime coms) activityId = avgTimeOf coms activityId.
Proof.
  unfold avgTimeOf.
  rewrite (filter_map_comm retime (fun com => activityIdOf com =? activityId))
    by reflexivity.
  rewrite (firstPerKey_map retime levelOf levelOf) by reflexivity.
  rewrite length_map, sumOrZero_retime. reflexivity.
Qed.

Lemma totalTimeScoreOf_retime (coms : list ActivityCategoryCompletion) :
  totalTimeScoreOf (map retime coms) = totalTimeScoreOf coms.
Proof.
  unfold totalTimeScoreOf. rewrite map_map.
  f_equal. f_equal. apply map_ext. intros id. apply avgTimeOf_retime.
Qed.

Lemma filteredActivityCompletions_retime (s : StudentUserAccount) :
  filteredActivityCompletions (Aggregation.retimeStudent f s)
  = map retime (filteredActivityCompletions s).
Proof.
  unfold filteredActivityCompletions. simpl.
  rewrite (sort_map retime submittedDesc submittedDesc) by reflexivity.
  apply firstPerKey_map. reflexivity.
Qed.

(** The overall activity score does not depend on any
    [timeCompletedSeconds]. *)
Lemma transformActivity_retime (s : StudentUserAccount) :
  overallScore (transformActivity (Aggregation.retimeStudent f s))
  = overallScore (transformActivity s).
Proof.
  unfold transformActivity. rewrite filteredActivityCompletions_retime.
  assert (Hlen : Js.hasLength (map retime (filteredActivityCompletions s))
                 = Js.hasLength (filteredActivityCompletions s))
    by (destruct (filteredActivityCompletions s); reflexivity).
  rewrite Hlen.
  destruct (negb (Js.hasLength (filteredActivityCompletions s)));
    cbn [overallScore]; [reflexivity|].
  rewrite (filter_map_comm retime (fun com => negb (isTimeBased com)))
    by reflexivity.
  rewrite (filter_map_comm retime isTimeBased) by reflexivity.
  rewrite sumOrZero_retime, totalTimeScoreOf_retime. reflexivity.
Qed.

End OverallActivityFacts.

(** C5. In the overall activity score a time-based activity with
    completions at exactly three levels contributes the reciprocal of the
    average of the [score] fields of the three completions, not of their
    times, and the overall score is the same whatever the
    [timeCompletedSeconds] of the completions are. For times 10, 20, 30 and
    scores 3, 6, 9 the activity contributes 1/6, not 1/20; it contributes
    1/20 when the scores equal the times, and nothing when the scores are
    0. With two levels completed it contributes 0. *)
Theorem C5_time_contribution
  (f : ActivityCategoryCompletion -> Q) (s : StudentUserAccount) :
  PerformanceService.overallScore
    (PerformanceService.transformActivity (Aggregation.retimeStudent f s))
  = PerformanceService.overallScore (PerformanceService.transformActivity s)
  /\ (exists q,
        PerformanceService.overallScore
          (PerformanceService.transformActivity Sample.finn) = Some q
        /\ (q == 1 # 6)%Q /\ ~ (q == 1 # 20)%Q)
  /\ (exists q,
        PerformanceService.overallScore
          (PerformanceService.transformActivity Sample.gina) = Some q
        /\ (q == 1 # 20)%Q)
  /\ (exists q,
        PerformanceService.overallScore
          (PerformanceService.transformActivity Sample.hana) = Some q
        /\ (q == 0)%Q)
  /\ (exists q,
        PerformanceService.overallScore
          (PerformanceService.transformActivity
             (Sample.studentOf 1 "Ana" "Cruz" []
                (filter (fun com => com_studentId com =? 1) Sample.timeRows)))
        = Some q
        /\ (q == 0)%Q).
Proof.
  split; [apply transformActivity_retime|].
  split; [|split; [|split]]; eexists; (split; [reflexivity|]).
  - split; [reflexivity | discriminate].
  - reflexivity.
  - reflexivity.
  - reflexivity.
Qed.

(* ================================================================== *)
(** * Students without rank *)
(* ================================================================== *)

Section UnrankedFacts.

Lemma Sorted_map {A B} (f : A -> B) (R : B -> B -> Prop) (l : list A) :
  Sorted (fun a b => R (f a) (f b)) l -> Sorted R (map f l).
Proof.
  induction 1 as [|a l Hs IH Hhd]; simpl; constructor.
  - exact IH.
  - destruct Hhd; simpl; constructor. assumption.
Qed.

Lemma codeUnitCompare_total (a b : string) :
  ~ (Sample.codeUnitCompare a b <= 0)%Q ->
  (Sample.codeUnitCompare b a <= 0)%Q.
Proof.
  unfold Sample.codeUnitCompare. rewrite (String.compare_antisym a b).
  destruct (String.compare b a); simpl; intros H; try lra;
    exfalso; apply H; lra.
Qed.

Import PerformanceService.

Variable generateFullName : string -> string -> option string -> string.
Variable localeCompare : string -> string -> Q.

Hypothesis localeCompare_total :
  forall a b, ~ (localeCompare a b <= 0)%Q -> (localeCompare b a <= 0)%Q.

Lemma rankTransformed_unranked (transformed : list Scored) :
  Policy.unrankedByName generateFullName localeCompare transformed
    (rankTransformed generateFullName localeCompare transformed).
Proof.
  unfold Policy.unrankedByName. simpl. split; [|split; [|split]].
  - rewrite map_map. simpl. rewrite map_id. apply sort_perm.
  - apply Forall_forall. intros x Hx.
    apply in_map_iff in Hx as (s & <- & Hs).
    apply sort_In, filter_In in Hs as [_ Hs].
    unfold Policy.scoreOf. simpl. split; [|reflexivity].
    unfold Js.isNull in Hs. destruct (overallScore s); [discriminate|].
    reflexivity.
  - destruct (rankTransformed_ranked generateFullName localeCompare
                transformed) as [[Hperm _] Hcomp].
    apply competitionRanked_some in Hcomp. simpl in Hperm, Hcomp.
    rewrite Forall_forall in *. intros x Hx. split; [|apply Hcomp; exact Hx].
    assert (Hin : In (scored x)
                    (filter (fun s => Js.notNull (overallScore s))
                       transformed)).
    { eapply Permutation_in; [exact Hperm|]. apply in_map. exact Hx. }
    apply filter_In in Hin as [_ Hin]. unfold Policy.scoreOf.
    destruct (overallScore (scored x)); [discriminate | discriminate].
  - apply Sorted_map.
    apply (sort_sorted (byFullName generateFullName localeCompare)).
    intros a b. apply localeCompare_total.
Qed.

End UnrankedFacts.

Section SequentialUnrankedFacts.

Import ActivityService.

Lemma leaderboard_unranked (gameType : ActivityCategoryType)
  (studentData : list StudentData) (ranked rest : list RankedData) :
  Sequential.leaderboard gameType studentData ranked rest ->
  Sequential.unrankedInRosterOrder gameType studentData ranked rest.
Proof.
  intros (Hperm & _ & _ & Hpos & Hrest & Hnone).
  split; [exact Hrest|]. split; [exact Hnone|]. split.
  - apply Forall_forall. intros r Hr. split.
    + apply In_nth_error in Hr as (i & Hi). rewrite (Hpos _ _ Hi).
      discriminate.
    + assert (Hin : In (data r)
                      (filter (Sequential.eligible gameType) studentData)).
      { eapply Permutation_in; [exact Hperm|]. apply in_map. exact Hr. }
      apply filter_In in Hin as [_ Hin].
      destruct (score (data r)) eqn:E; [discriminate|].
      destruct gameType; simpl in Hin; rewrite E in Hin; discriminate.
  - intros d Hd Hs.
    assert (Hin : In d (map data rest)).
    { rewrite Hrest. apply filter_In. split; [exact Hd|].
      destruct gameType; simpl; rewrite Hs; reflexivity. }
    apply in_map_iff in Hin as (r & <- & Hr).
    rewrite Forall_forall in Hnone. specialize (Hnone r Hr).
    unfold withoutRank. rewrite <- Hnone, <- rankedData_eta. exact Hr.
Qed.

End SequentialUnrankedFacts.

(** C3, as stated, fails for the leaderboard of one activity. In a
    time-based activity Carl, who has no score, stands before Ben, who has
    a score and too few completions; and when nobody has a score the
    roster Carl, Ben, Ana is returned in that order, not in the order of
    the names. *)
Lemma C3_sequential_unscored_order :
  (exists board,
     snd (ActivityService.generateActivityRankings Sample.rosterCarlFirst
            Sample.timeRows Sample.timeActivity 7) = Js.Ok board
     /\ map Sequential.entry board
        = [ (1, Some (60 # 3), Some 1%nat); (3, None, None);
            (2, Some (10 # 2), None) ]
     /\ ~ Sequential.unscoredLast board)
  /\ (exists board,
        snd (ActivityService.generateActivityRankings Sample.rosterCarlFirst
               [] Sample.pointActivity 7) = Js.Ok board
        /\ map Sequential.entry board
           = [ (3, None, None); (2, None, None); (1, None, None) ]
        /\ ~ Sequential.unscoredByName Sample.fullName Sample.codeUnitCompare
               (Sample.rosterCarlFirst 7) board).
Proof.
  split; eexists; (split; [reflexivity|]); (split; [reflexivity|]).
  - intros H.
    specialize (H 1%nat 2%nat _ _ eq_refl eq_refl eq_refl).
    simpl in H. assert (E : (2 < 1)%nat) by (apply H; discriminate). lia.
  - intros H. inversion H as [|? ? _ Hhd]; subst.
    inversion Hhd as [|? ? Hle]; subst.
    vm_compute in Hle. apply Hle. reflexivity.
Qed.

(** C3, amended. In the overall rankings (competition policy) the
    students without score form the unranked list, with rank null, in
    ascending order of full name, and every ranked student has a score
    and a rank. In the leaderboard of one activity (sequential policy) the
    students without rank, among them every student without score, come
    after the ranked students, with rank null, in the order of the
    roster. Ana Cruz stands before Ben Cruz. *)
Theorem C3_unranked_students
  (generateFullName : string -> string -> option string -> string)
  (localeCompare : string -> string -> Q)
  (getStudentsByTeacherId : Z -> list StudentUserAccount)
  (completionRows : list ActivityCategoryCompletion)
  (activity : Activity) (teacherId : Z)
  (students : list StudentUserAccount) :
  (forall a b, ~ (localeCompare a b <= 0)%Q -> (localeCompare b a <= 0)%Q) ->
  Policy.unrankedByName generateFullName localeCompare
    (map PerformanceService.transformExam students)
    (snd (PerformanceService.generateOverallExamRankings
            generateFullName localeCompare students))
  /\ Policy.unrankedByName generateFullName localeCompare
       (map PerformanceService.transformActivity students)
       (snd (PerformanceService.generateOverallActivityRankings
               generateFullName localeCompare students))
  /\ (exists studentData ranked rest,
        Sequential.rowsOf completionRows activity
          (getStudentsByTeacherId teacherId) studentData
        /\ snd (ActivityService.generateActivityRankings
                  getStudentsByTeacherId completionRows activity teacherId)
           = Js.Ok (ranked ++ rest)
        /\ Sequential.unrankedInRosterOrder (act_gameType activity)
             studentData ranked rest)
  /\ map Totality.rankedId
       (PerformanceService.unrankedStudents
          (snd (PerformanceService.generateOverallExamRankings
                  Sample.fullName Sample.codeUnitCompare
                  (Sample.rosterCarlFirst 7))))
     = [1; 2; 3].
Proof.
  intros Htotal. split; [|split; [|split]].
  - apply rankTransformed_unranked. exact Htotal.
  - apply rankTransformed_unranked. exact Htotal.
  - destruct (generateActivityRankings_ok getStudentsByTeacherId
                completionRows activity teacherId) as (sd & Hrows & Hres).
    destruct (rankStudentData_leaderboard (act_gameType activity) sd)
      as (ranked & rest & Heq & Hboard).
    exists sd, ranked, rest. rewrite Hres, Heq.
    split; [exact Hrows|]. split; [reflexivity|].
    apply leaderboard_unranked. exact Hboard.
  - reflexivity.
Qed.

Lemma C3_unranked_students_witness :
  (forall a b, ~ (Sample.codeUnitCompare a b <= 0)%Q ->
               (Sample.codeUnitCompare b a <= 0)%Q)
  /\ Policy.unrankedByName Sample.fullName Sample.codeUnitCompare
       (map PerformanceService.transformExam (Sample.rosterCarlFirst 7))
       (snd (PerformanceService.generateOverallExamRankings
               Sample.fullName Sample.codeUnitCompare
               (Sample.rosterCarlFirst 7))).
Proof.
  split; [exact codeUnitCompare_total|].
  exact (proj1 (C3_unranked_students Sample.fullName Sample.codeUnitCompare
                  Sample.roster Sample.timeRows Sample.timeActivity 7
                  (Sample.rosterCarlFirst 7) codeUnitCompare_total)).
Defined.

(* ================================================================== *)
(** * The score of [generateActivityWithCompletions] *)
(* ================================================================== *)

Section ActivityWithCompletionsFacts.

Import ActivityService.

Lemma firstOrEmpty_no_length (cat : ActivityCategory)
  (coms : list ActivityCategoryCompletion) :
  hasCompletions {| category := cat; cwc_completions := firstOrEmpty coms |}
  = false.
Proof. destruct coms; reflexivity. Qed.

Lemma no_category_with_completions
  (best : ActivityCategory -> list ActivityCategoryCompletion)
  (cats : list ActivityCategory) :
  filter hasCompletions
    (map (fun cat =>
            {| category := cat; cwc_completions := firstOrEmpty (best cat) |})
       cats)
  = [].
Proof.
  induction cats as [|cat cats IH]; simpl; [reflexivity|].
  rewrite firstOrEmpty_no_length. exact IH.
Qed.

(** [completions] of a spread category is the best completion itself, an
    object without [length], so that no category ever counts as one with
    completions: the function returns, and its score is null, for every
    activity and student. *)
Remark generateActivityWithCompletions_score_null
  (completionRows : list ActivityCategoryCompletion)
  (activity : Activity) (sid : Z) :
  exists summary,
    snd (generateActivityWithCompletions completionRows activity sid)
    = Js.Ok summary
    /\ awc_score summary = None.
Proof.
  unfold generateActivityWithCompletions. simpl.
  destruct (act_gameType activity).
  - rewrite no_category_with_completions. simpl.
    eexists. split; reflexivity.
  - rewrite no_category_with_completions. simpl.
    eexists. split; reflexivity.
  - destruct (filteredCategories activity) as [|cat cats] eqn:E; simpl.
    + rewrite findCompletions_none. simpl. eexists. split; reflexivity.
    + rewrite firstOrEmpty_no_length. simpl. eexists. split; reflexivity.
Qed.

End ActivityWithCompletionsFacts.

(* ================================================================== *)
(** * The categories that count for an activity *)
(* ================================================================== *)

Section CategoryFacts.

Import ActivityService.

Lemma keepFirst_all {A} (key : A -> Z) (seen l : list A) :
  NoDup (map key l) ->
  (forall x, In x l -> existsb (Js.sameKey key x) seen = false) ->
  Js.keepFirst key seen l = l.
Proof.
  revert seen. induction l as [|a l IH]; intros seen Hnd Hseen; simpl.
  - reflexivity.
  - rewrite (Hseen a (or_introl eq_refl)). f_equal.
    inversion Hnd as [|? ? Hnotin Hnd']; subst.
    apply IH; [exact Hnd'|]. intros x Hx.
    rewrite existsb_app, (Hseen x (or_intror Hx)). simpl.
    unfold Js.sameKey. destruct (key a =? key x) eqn:E; [|reflexivity].
    apply Z.eqb_eq in E. exfalso. apply Hnotin. rewrite E.
    apply in_map. exact Hx.
Qed.

Lemma updatedAt_sorted (activity : Activity) :
  StronglySorted (fun a b => cat_updatedAt b <= cat_updatedAt a)
    (sortedCategories activity).
Proof.
  eapply StronglySorted_weaken;
    [| apply (sort_strongly_sorted
                (fun x y => inject_Z (cat_updatedAt y - cat_updatedAt x)));
       [apply (key_desc_total cat_updatedAt)
       | apply (key_desc_trans cat_updatedAt)]].
  intros a b. apply (key_desc_before cat_updatedAt).
Qed.

End CategoryFacts.

(** X1. The categories that [generateActivityRankings] and
    [generateActivityWithCompletions] score are categories of the
    activity, one for every level that the activity has, and no category
    of the same level was updated later than the one kept. *)
Theorem X1_one_category_per_level (activity : Activity) :
  let kept := ActivityService.filteredCategories activity in
  NoDup (map cat_level kept)
  /\ (forall k, In k kept -> In k (act_categories activity))
  /\ (forall c, In c (act_categories activity) ->
        exists k, In k kept /\ cat_level k = cat_level c
                  /\ cat_updatedAt c <= cat_updatedAt k)
  /\ (List.length kept <= List.length (act_categories activity))%nat.
Proof.
  cbv zeta. unfold ActivityService.filteredCategories.
  rewrite firstPerKey_keepFirst. split; [|split; [|split]].
  - apply keepFirst_nodup.
  - intros k Hk. apply keepFirst_In in Hk as [Hk _].
    unfold ActivityService.sortedCategories in Hk.
    apply sort_In in Hk. exact Hk.
  - intros c Hc.
    assert (Hc' : In c (ActivityService.sortedCategories activity))
      by (apply sort_In; exact Hc).
    destruct (keepFirst_covers cat_level [] _ c Hc' eq_refl) as (k & Hk & He).
    exists k. split; [exact Hk|]. split; [exact He|].
    destruct (keepFirst_first cat_level _ [] _ k c (updatedAt_sorted activity)
                Hk Hc' (eq_sym He)) as [->|Hb]; [lia | exact Hb].
  - rewrite <- (sort_length
                  (fun x y => inject_Z (cat_updatedAt y - cat_updatedAt x))
                  (act_categories activity)).
    apply NoDup_incl_length.
    + eapply NoDup_map_inv. apply keepFirst_nodup.
    + intros k Hk. apply keepFirst_In in Hk as [Hk _]. exact Hk.
Qed.

(** X2. When no two categories of an activity have the same level, the
    de-duplication drops none: the categories that are scored are all the
    categories of the activity, most recently updated first. *)
Theorem X2_distinct_levels_all_kept (activity : Activity) :
  NoDup (map cat_level (act_categories activity)) ->
  ActivityService.filteredCategories activity
  = ActivityService.sortedCategories activity
  /\ Permutation (ActivityService.filteredCategories activity)
       (act_categories activity).
Proof.
  intros Hnd.
  assert (E : ActivityService.filteredCategories activity
              = ActivityService.sortedCategories activity).
  { unfold ActivityService.filteredCategories.
    rewrite firstPerKey_keepFirst. apply keepFirst_all.
    - eapply Permutation_NoDup; [|exact Hnd].
      apply Permutation_map, Permutation_sym.
      apply (sort_perm
               (fun x y => inject_Z (cat_updatedAt y - cat_updatedAt x))).
    - reflexivity. }
  split; [exact E|]. rewrite E.
  apply (sort_perm (fun x y => inject_Z (cat_updatedAt y - cat_updatedAt x))).
Qed.

Lemma X2_distinct_levels_all_kept_witness :
  NoDup (map cat_level (act_categories Sample.pointActivity))
  /\ ActivityService.filteredCategories Sample.pointActivity
     = ActivityService.sortedCategories Sample.pointActivity
  /\ Permutation (ActivityService.filteredCategories Sample.pointActivity)
       (act_categories Sample.pointActivity).
Proof.
  assert (Hnd : NoDup (map cat_level (act_categories Sample.pointActivity))).
  { simpl. repeat constructor; simpl; intuition discriminate. }
  split; [exact Hnd|].
  exact (X2_distinct_levels_all_kept Sample.pointActivity Hnd).
Defined.

(* ================================================================== *)
(** * Rows of time-based and stage-based activities *)
(* ================================================================== *)

Section UnitScoreFacts.

Import ActivityService.

Lemma sort_head_best_time (candidates rest : list ActivityCategoryCompletion)
  (c : ActivityCategoryCompletion) :
  Js.sort byTime candidates = c :: rest -> UnitScore.bestTime candidates c.
Proof.
  intros Hsort. split.
  - apply (sort_In byTime). rewrite Hsort. left. reflexivity.
  - intros c' Hc'.
    assert (Hb : Js.before byTime c c').
    { eapply sort_head_least; eauto.
      - apply byTime_total.
      - apply byTime_trans.
      - intros y. unfold Js.before, byTime. lra. }
    unfold Js.before, byTime in Hb. lra.
Qed.

Lemma reduce_pushBestTime
  (targetCompletions : list ActivityCategoryCompletion)
  (cats : list ActivityCategory) (acc : list ActivityCategoryCompletion) :
  Js.reduce (pushBestTime targetCompletions) acc cats
  = acc ++ Aggregation.selected (UnitScore.pickTime targetCompletions) cats.
Proof.
  unfold Js.reduce. revert acc. induction cats as [|cat cats IH]; intros acc.
  - simpl. rewrite app_nil_r. reflexivity.
  - simpl. rewrite IH. unfold pushBestTime, UnitScore.pickTime.
    destruct (Js.sort byTime _); simpl.
    + reflexivity.
    + rewrite <- app_assoc. reflexivity.
Qed.

Lemma sumTime_from (coms : list ActivityCategoryCompletion) (acc : Q) :
  (fold_left (fun total com => total + com_timeCompletedSeconds com) coms acc
   == acc + fold_right (fun com total => com_timeCompletedSeconds com + total)
              0 coms)%Q.
Proof.
  revert acc. induction coms as [|c coms IH]; intros acc; simpl.
  - lra.
  - rewrite IH. lra.
Qed.

Lemma selected_total_time
  (pick : ActivityCategory -> option ActivityCategoryCompletion)
  (cats : list ActivityCategory) :
  (fold_right (fun com total => com_timeCompletedSeconds com + total) 0
     (Aggregation.selected pick cats)
   == Aggregation.total (UnitScore.timeOf pick) cats)%Q.
Proof.
  induction cats as [|cat cats IH]; simpl.
  - reflexivity.
  - unfold UnitScore.timeOf at 1. destruct (pick cat); simpl.
    + rewrite IH. reflexivity.
    + rewrite IH. lra.
Qed.

Lemma selected_length
  (pick : ActivityCategory -> option ActivityCategoryCompletion)
  (cats : list ActivityCategory) :
  (List.length (Aggregation.selected pick cats) <= List.length cats)%nat.
Proof.
  induction cats as [|cat cats IH]; simpl; [lia|].
  destruct (pick cat); simpl; lia.
Qed.

Lemma pickTime_none (targetCompletions : list ActivityCategoryCompletion)
  (cat : ActivityCategory) :
  UnitScore.pickTime targetCompletions cat = None <->
  ofCategory cat targetCompletions = [].
Proof.
  unfold UnitScore.pickTime. split.
  - intros H. destruct (Js.sort byTime _) eqn:E; [|discriminate].
    apply sort_nil_inv in E. exact E.
  - intros ->. reflexivity.
Qed.

Lemma time_row_timeScored (cats : list ActivityCategory) (sid : Z)
  (targetCompletions : list ActivityCategoryCompletion) (d : StudentData) :
  studentDataOf Time cats sid targetCompletions = Js.Ok d ->
  UnitScore.timeScored cats targetCompletions d.
Proof.
  simpl. intros H. injection H as <-. simpl.
  rewrite (reduce_pushBestTime targetCompletions cats []). simpl.
  exists (UnitScore.pickTime targetCompletions).
  split; [|split; [|split; [|split]]].
  - intros cat _.
    destruct (UnitScore.pickTime targetCompletions cat) as [c|] eqn:E.
    + unfold UnitScore.pickTime in E.
      destruct (Js.sort byTime _) as [|c0 rest] eqn:Es; [discriminate|].
      injection E as ->. eapply sort_head_best_time. exact Es.
    + apply pickTime_none. exact E.
  - reflexivity.
  - apply selected_length.
  - destruct (Aggregation.selected (UnitScore.pickTime targetCompletions)
                cats) eqn:E; simpl.
    + split; [|reflexivity]. intros _ cat Hc. apply pickTime_none.
      revert cat Hc. apply selected_nil. exact E.
    + split; [discriminate|]. intros Hnone. exfalso.
      assert (Hs : Aggregation.selected
                     (UnitScore.pickTime targetCompletions) cats = []).
      { apply selected_nil. intros cat Hc. apply pickTime_none.
        apply Hnone. exact Hc. }
      congruence.
  - intros q Hq.
    destruct (Js.hasLength _); [|discriminate]. injection Hq as <-.
    unfold Qdiv. apply Qmult_comp; [|reflexivity].
    unfold sumTime, Js.reduce.
    rewrite sumTime_from, selected_total_time.
    apply Qplus_0_l.
Qed.

Lemma head_of_filtered (activity : Activity) (tc : ActivityCategory)
  (rest : list ActivityCategory) :
  filteredCategories activity = tc :: rest ->
  In tc (act_categories activity)
  /\ forall c, In c (act_categories activity) ->
       cat_updatedAt c <= cat_updatedAt tc.
Proof.
  unfold filteredCategories. rewrite firstPerKey_keepFirst.
  pose proof (updatedAt_sorted activity) as Hs.
  assert (Hin : forall c, In c (sortedCategories activity) <->
                          In c (act_categories activity)).
  { intros c. unfold sortedCategories. apply sort_In. }
  destruct (sortedCategories activity) as [|c0 l]; simpl; [discriminate|].
  intros H. injection H as <- _.
  inversion Hs as [|? ? _ Hall]; subst. rewrite Forall_forall in Hall.
  split; [apply Hin; left; reflexivity|].
  intros c Hc. apply Hin in Hc as [<-|Hc]; [lia | apply Hall; exact Hc].
Qed.

Lemma stage_row_stageScored (activity : Activity) (sid : Z)
  (targetCompletions : list ActivityCategoryCompletion) (d : StudentData) :
  studentDataOf Stage (filteredCategories activity) sid targetCompletions
  = Js.Ok d ->
  UnitScore.stageScored activity targetCompletions d.
Proof.
  unfold UnitScore.stageScored.
  destruct (filteredCategories activity) as [|tc rest] eqn:E; simpl.
  - destruct targetCompletions; simpl; [|discriminate].
    intros H. injection H as <-. split; reflexivity.
  - intros H. injection H as <-. simpl.
    destruct (head_of_filtered activity tc rest E) as [Hin Hlatest].
    split; [exact Hin|]. split; [exact Hlatest|]. split; [|split].
    + eapply Permutation_trans; apply sort_perm.
    + eapply StronglySorted_weaken;
        [| apply (sort_strongly_sorted byScoreDesc);
           [apply byScoreDesc_total | apply byScoreDesc_trans]].
      intros a b. unfold Js.before, byScoreDesc. lra.
    + destruct (Js.sort byScoreDesc _) as [|first l] eqn:Es;
        [reflexivity|].
      split; [reflexivity|]. eapply two_sorts_best. exact Es.
Qed.

End UnitScoreFacts.

(** X3. In the leaderboard of a time-based activity the row of a student
    holds, for every category with a completion, a completion that no
    other of the category is faster than; its score is the mean
    [timeCompletedSeconds] of these completions, and null exactly when no
    category has a completion. There are at most as many completions as
    categories. *)
Theorem X3_time_score
  (getStudentsByTeacherId : Z -> list StudentUserAccount)
  (completionRows : list ActivityCategoryCompletion)
  (activity : Activity) (teacherId : Z) :
  act_gameType activity = Time ->
  exists studentData ranked rest,
    snd (ActivityService.generateActivityRankings getStudentsByTeacherId
           completionRows activity teacherId)
    = Js.Ok (ranked ++ rest)
    /\ Permutation (map ActivityService.data (ranked ++ rest)) studentData
    /\ Forall2
         (fun st d =>
            ActivityService.studentId d = stu_id st
            /\ UnitScore.timeScored
                 (ActivityService.filteredCategories activity)
                 (ActivityService.findCompletions completionRows
                    (map cat_id (ActivityService.filteredCategories activity))
                    (stu_id st))
                 d)
         (getStudentsByTeacherId teacherId) studentData.
Proof.
  intros Htime.
  destruct (generateActivityRankings_ok getStudentsByTeacherId completionRows
              activity teacherId) as (sd & Hrows & Hres).
  destruct (rankStudentData_leaderboard (act_gameType activity) sd)
    as (ranked & rest & Heq & Hboard).
  exists sd, ranked, rest. rewrite Hres, Heq. split; [reflexivity|].
  split.
  - destruct Hboard as (Hperm & _ & _ & _ & Hrest & _).
    rewrite map_app, Hrest.
    eapply Permutation_trans; [|apply filter_partition].
    apply Permutation_app_tail. exact Hperm.
  - unfold Sequential.rowsOf in Hrows. rewrite Htime in Hrows.
    eapply Forall2_impl; [|exact Hrows].
    intros st d [Hid Hd]. split; [exact Hid|].
    eapply time_row_timeScored. exact Hd.
Qed.

Lemma X3_time_score_witness :
  act_gameType Sample.timeActivity = Time
  /\ exists studentData ranked rest,
       snd (ActivityService.generateActivityRankings Sample.roster
              Sample.timeRows Sample.timeActivity 7)
       = Js.Ok (ranked ++ rest)
       /\ Permutation (map ActivityService.data (ranked ++ rest)) studentData
       /\ Forall2
            (fun st d =>
               ActivityService.studentId d = stu_id st
               /\ UnitScore.timeScored
                    (ActivityService.filteredCategories Sample.timeActivity)
                    (ActivityService.findCompletions Sample.timeRows
                       (map cat_id
                          (ActivityService.filteredCategories
                             Sample.timeActivity))
                       (stu_id st))
                    d)
            (Sample.roster 7) studentData.
Proof.
  split; [reflexivity|].
  exact (X3_time_score Sample.roster Sample.timeRows Sample.timeActivity 7
           eq_refl).
Defined.

(** X4. In the leaderboard of a stage-based activity only the most
    recently updated category counts: the row of a student holds all the
    completions of that category, highest score first, and its score is
    the score of a completion of maximal score and, among those, minimal
    time; it is null when the student has no completion in that
    category. *)
Theorem X4_stage_score
  (getStudentsByTeacherId : Z -> list StudentUserAccount)
  (completionRows : list ActivityCategoryCompletion)
  (activity : Activity) (teacherId : Z) :
  act_gameType activity = Stage ->
  exists studentData ranked rest,
    snd (ActivityService.generateActivityRankings getStudentsByTeacherId
           completionRows activity teacherId)
    = Js.Ok (ranked ++ rest)
    /\ Permutation (map ActivityService.data (ranked ++ rest)) studentData
    /\ Forall2
         (fun st d =>
            ActivityService.studentId d = stu_id st
            /\ UnitScore.stageScored activity
                 (ActivityService.findCompletions completionRows
                    (map cat_id (ActivityService.filteredCategories activity))
                    (stu_id st))
                 d)
         (getStudentsByTeacherId teacherId) studentData.
Proof.
  intros Hstage.
  destruct (generateActivityRankings_ok getStudentsByTeacherId completionRows
              activity teacherId) as (sd & Hrows & Hres).
  destruct (rankStudentData_leaderboard (act_gameType activity) sd)
    as (ranked & rest & Heq & Hboard).
  exists sd, ranked, rest. rewrite Hres, Heq. split; [reflexivity|].
  split.
  - destruct Hboard as (Hperm & _ & _ & _ & Hrest & _).
    rewrite map_app, Hrest.
    eapply Permutation_trans; [|apply filter_partition].
    apply Permutation_app_tail. exact Hperm.
  - unfold Sequential.rowsOf in Hrows. rewrite Hstage in Hrows.
    eapply Forall2_impl; [|exact Hrows].
    intros st d [Hid Hd]. split; [exact Hid|].
    eapply stage_row_stageScored. exact Hd.
Qed.

Lemma X4_stage_score_witness :
  act_gameType SampleMore.stageActivity = Stage
  /\ exists studentData ranked rest,
       snd (ActivityService.generateActivityRankings Sample.roster
              SampleMore.stageRows SampleMore.stageActivity 7)
       = Js.Ok (ranked ++ rest)
       /\ Permutation (map ActivityService.data (ranked ++ rest)) studentData
       /\ Forall2
            (fun st d =>
               ActivityService.studentId d = stu_id st
               /\ UnitScore.stageScored SampleMore.stageActivity
                    (ActivityService.findCompletions SampleMore.stageRows
                       (map cat_id
                          (ActivityService.filteredCategories
                             SampleMore.stageActivity))
                       (stu_id st))
                    d)
            (Sample.roster 7) studentData.
Proof.
  split; [reflexivity|].
  exact (X4_stage_score Sample.roster SampleMore.stageRows
           SampleMore.stageActivity 7 eq_refl).
Defined.

(* ================================================================== *)
(** * One activity for one student *)
(* ================================================================== *)

Section StudentActivityFacts.

Import ActivityService.

Lemma firstOrEmpty_point (gameType : ActivityCategoryType)
  (cat : ActivityCategory)
  (targetCompletions : list ActivityCategoryCompletion) :
  gameType <> Time ->
  StudentActivity.carriesBest gameType targetCompletions
    {| category := cat;
       cwc_completions :=
         firstOrEmpty
           (Js.sort byScoreDesc
              (Js.sort byTime (ofCategory cat targetCompletions))) |}.
Proof.
  intros Hgt. unfold StudentActivity.carriesBest. simpl.
  destruct (Js.sort byScoreDesc _) as [|first l] eqn:E; simpl.
  - split; [reflexivity|].
    apply sort_nil_inv in E. apply sort_nil_inv in E. exact E.
  - apply two_sorts_best in E.
    destruct gameType; simpl; [exact E | congruence | exact E].
Qed.

Lemma firstOrEmpty_time (cat : ActivityCategory)
  (targetCompletions : list ActivityCategoryCompletion) :
  StudentActivity.carriesBest Time targetCompletions
    {| category := cat;
       cwc_completions :=
         firstOrEmpty (Js.sort byTime (ofCategory cat targetCompletions)) |}.
Proof.
  unfold StudentActivity.carriesBest. simpl.
  destruct (Js.sort byTime _) as [|first l] eqn:E; simpl.
  - split; [reflexivity|]. apply sort_nil_inv in E. exact E.
  - apply sort_head_best_time in E. exact E.
Qed.

Lemma sortedCategories_twice (activity : Activity) :
  sortedCategories (sortCategoriesInPlace activity) = sortedCategories activity.
Proof.
  unfold sortedCategories at 1. simpl. unfold sortedCategories.
  apply sort_sorted_id.
  apply (sort_sorted (fun x y => inject_Z (cat_updatedAt y - cat_updatedAt x))).
  apply key_desc_total.
Qed.

(** A leaderboard does not depend on whether the categories of the
    activity were sorted by an earlier call. *)
Lemma generateActivityRankings_sorted
  (getStudentsByTeacherId : Z -> list StudentUserAccount)
  (completionRows : list ActivityCategoryCompletion)
  (activity : Activity) (teacherId : Z) :
  snd (generateActivityRankings getStudentsByTeacherId completionRows
         (sortCategoriesInPlace activity) teacherId)
  = snd (generateActivityRankings getStudentsByTeacherId completionRows
           activity teacherId).
Proof.
  unfold generateActivityRankings, filteredCategories. simpl.
  rewrite sortedCategories_twice. reflexivity.
Qed.

Lemma find_by_id_some {A} (idOf : A -> Z) (l : list A) (id : Z) :
  In id (map idOf l) ->
  exists x, find (fun r => idOf r =? id) l = Some x /\ In x l /\ idOf x = id.
Proof.
  intros Hin. destruct (find (fun r => idOf r =? id) l) as [x|] eqn:E.
  - apply find_some in E as [Hx Hid]. apply Z.eqb_eq in Hid. eauto.
  - exfalso. apply in_map_iff in Hin as (y & Hy & Hin).
    pose proof (find_none _ _ E y Hin) as Hn. simpl in Hn.
    rewrite Hy, Z.eqb_refl in Hn. discriminate.
Qed.

Lemma find_by_id_none {A} (idOf : A -> Z) (l : list A) (id : Z) :
  ~ In id (map idOf l) -> find (fun r => idOf r =? id) l = None.
Proof.
  intros Hnot. destruct (find (fun r => idOf r =? id) l) as [x|] eqn:E;
    [|reflexivity].
  exfalso. apply find_some in E as [Hx Hid]. apply Z.eqb_eq in Hid.
  apply Hnot. rewrite <- Hid. apply in_map. exact Hx.
Qed.

(** The student ids of a leaderboard are those of the roster. *)
Lemma leaderboard_ids
  (getStudentsByTeacherId : Z -> list StudentUserAccount)
  (completionRows : list ActivityCategoryCompletion)
  (activity : Activity) (teacherId : Z) :
  exists board,
    snd (generateActivityRankings getStudentsByTeacherId completionRows
           activity teacherId) = Js.Ok board
    /\ Permutation (map Totality.rowId board)
         (map stu_id (getStudentsByTeacherId teacherId)).
Proof.
  destruct (generateActivityRankings_ok getStudentsByTeacherId completionRows
              activity teacherId) as (sd & Hrows & Hres).
  destruct (rankStudentData_leaderboard (act_gameType activity) sd)
    as (ranked & rest & Heq & Hboard).
  exists (ranked ++ rest). rewrite Hres, Heq. split; [reflexivity|].
  rewrite <- (rowsOf_ids _ _ _ _ Hrows).
  apply (leaderboard_partitions _ _ _ _ Hboard).
Qed.

End StudentActivityFacts.

(** X5. [generateActivityWithCompletions] returns for every activity and
    student: its score is null, it lists the de-duplicated categories of
    the activity (only the first of them for a stage-based activity), and
    each listed category carries the best completion of the student in it
    (the fastest for a time-based activity, otherwise the highest score
    and then the fastest), or the empty array when there is none. *)
Theorem X5_activity_summary
  (completionRows : list ActivityCategoryCompletion)
  (activity : Activity) (studentId : Z) :
  exists summary,
    snd (ActivityService.generateActivityWithCompletions completionRows
           activity studentId) = Js.Ok summary
    /\ ActivityService.awc_score summary = None
    /\ map ActivityService.category (ActivityService.awc_categories summary)
       = match act_gameType activity with
         | Stage => firstn 1 (ActivityService.filteredCategories activity)
         | _ => ActivityService.filteredCategories activity
         end
    /\ Forall
         (StudentActivity.carriesBest (act_gameType activity)
            (ActivityService.findCompletions completionRows
               (map cat_id (ActivityService.filteredCategories activity))
               studentId))
         (ActivityService.awc_categories summary).
Proof.
  unfold ActivityService.generateActivityWithCompletions. simpl.
  destruct (act_gameType activity) eqn:Hgt.
  - rewrite no_category_with_completions. simpl. eexists.
    split; [reflexivity|]. split; [reflexivity|]. simpl. split.
    + rewrite map_map. simpl. apply map_id.
    + apply Forall_forall. intros c Hc.
      apply in_map_iff in Hc as (cat & <- & _).
      apply firstOrEmpty_point. discriminate.
  - rewrite no_category_with_completions. simpl. eexists.
    split; [reflexivity|]. split; [reflexivity|]. simpl. split.
    + rewrite map_map. simpl. apply map_id.
    + apply Forall_forall. intros c Hc.
      apply in_map_iff in Hc as (cat & <- & _).
      apply firstOrEmpty_time.
  - destruct (ActivityService.filteredCategories activity) as [|cat cats]
      eqn:E; simpl.
    + rewrite findCompletions_none. simpl. eexists.
      split; [reflexivity|]. split; [reflexivity|]. simpl.
      split; [reflexivity | constructor].
    + rewrite firstOrEmpty_no_length. simpl. eexists.
      split; [reflexivity|]. split; [reflexivity|]. simpl.
      split; [reflexivity|]. constructor; [|constructor].
      apply firstOrEmpty_point. discriminate.
Qed.

(** X6. [getOneBySlugAndStudentId], for a student with a teacher and an
    activity that is found, returns exactly when the student is in the
    roster that [getStudentsByTeacherId] gives for the teacher: the rank it
    returns is that of a row of the leaderboard for the student, and the
    score is null. For a student who is not in the roster it fails with a
    [TypeError]. *)
Theorem X6_rank_of_rostered_student
  (getStudentsByTeacherId : Z -> list StudentUserAccount)
  (completionRows : list ActivityCategoryCompletion)
  (getTeacherByStudentId : Z -> option Z)
  (findOneBySlug : string -> Z -> option Activity)
  (slug : string) (studentId teacherId : Z) (activity : Activity) :
  getTeacherByStudentId studentId = Some teacherId ->
  findOneBySlug slug teacherId = Some activity ->
  let call :=
    StudentActivity.getOneBySlugAndStudentId getStudentsByTeacherId
      completionRows getTeacherByStudentId findOneBySlug slug studentId in
  (In studentId (map stu_id (getStudentsByTeacherId teacherId)) ->
   exists r board row,
     call = StudentActivity.Return r
     /\ ActivityService.awc_score (StudentActivity.summary r) = None
     /\ snd (ActivityService.generateActivityRankings getStudentsByTeacherId
               completionRows activity teacherId) = Js.Ok board
     /\ In row board
     /\ ActivityService.studentId (ActivityService.data row) = studentId
     /\ StudentActivity.summaryRank r = ActivityService.rank row)
  /\ (~ In studentId (map stu_id (getStudentsByTeacherId teacherId)) ->
      call = StudentActivity.Raise (StudentActivity.Uncaught Js.TypeError)).
Proof.
  intros Hteacher Hactivity. cbv zeta.
  unfold StudentActivity.getOneBySlugAndStudentId.
  rewrite Hteacher, Hactivity.
  destruct (ActivityService.generateActivityWithCompletions completionRows
              activity studentId) as [activity1 transformed] eqn:Ewc.
  assert (E1 : activity1 = ActivityService.sortCategoriesInPlace activity).
  { unfold ActivityService.generateActivityWithCompletions in Ewc.
    injection Ewc as <- _. reflexivity. }
  destruct (generateActivityWithCompletions_score_null completionRows
              activity studentId) as (summary & Hsum & Hnull).
  rewrite Ewc in Hsum. simpl in Hsum. subst transformed.
  destruct (ActivityService.generateActivityRankings getStudentsByTeacherId
              completionRows activity1 teacherId) as [activity2 rankings]
    eqn:Erk.
  assert (E2 : rankings
               = snd (ActivityService.generateActivityRankings
                        getStudentsByTeacherId completionRows activity
                        teacherId)).
  { rewrite <- generateActivityRankings_sorted, <- E1, Erk. reflexivity. }
  destruct (leaderboard_ids getStudentsByTeacherId completionRows activity
              teacherId) as (board & Hboard & Hperm).
  rewrite Hboard in E2. subst rankings. simpl.
  unfold StudentActivity.findRow. split.
  - intros Hin.
    assert (Hin' : In studentId (map Totality.rowId board)).
    { eapply Permutation_in; [apply Permutation_sym; exact Hperm | exact Hin]. }
    destruct (find_by_id_some Totality.rowId board studentId Hin')
      as (row & Hfind & Hrow & Hid).
    unfold Totality.rowId in Hfind. rewrite Hfind. simpl.
    eexists. exists board, row. split; [reflexivity|]. simpl.
    repeat split; try assumption; reflexivity.
  - intros Hnot.
    assert (Hnot' : ~ In studentId (map Totality.rowId board)).
    { intros Hin. apply Hnot. eapply Permutation_in; [exact Hperm | exact Hin]. }
    pose proof (find_by_id_none Totality.rowId board studentId Hnot') as Hf.
    unfold Totality.rowId in Hf. rewrite Hf. reflexivity.
Qed.

Lemma X6_rank_of_rostered_student_witness :
  (fun _ : Z => Some 7) 2 = Some 7
  /\ (fun (_ : string) (_ : Z) => Some Sample.pointActivity) EmptyString 7
     = Some Sample.pointActivity
  /\ (In 2 (map stu_id (Sample.roster 7)) ->
      exists r board row,
        StudentActivity.getOneBySlugAndStudentId Sample.roster
          Sample.pointRows (fun _ => Some 7)
          (fun _ _ => Some Sample.pointActivity) EmptyString 2
        = StudentActivity.Return r
        /\ ActivityService.awc_score (StudentActivity.summary r) = None
        /\ snd (ActivityService.generateActivityRankings Sample.roster
                  Sample.pointRows Sample.pointActivity 7) = Js.Ok board
        /\ In row board
        /\ ActivityService.studentId (ActivityService.data row) = 2
        /\ StudentActivity.summaryRank r = ActivityService.rank row).
Proof.
  split; [reflexivity|]. split; [reflexivity|].
  exact (proj1 (X6_rank_of_rostered_student Sample.roster Sample.pointRows
                  (fun _ => Some 7) (fun _ _ => Some Sample.pointActivity)
                  EmptyString 2 7 Sample.pointActivity eq_refl eq_refl)).
Defined.

(* ================================================================== *)
(** * Competition ranks as counts *)
(* ================================================================== *)

Section CompetitionCountFacts.

Import PerformanceService.

Local Abbreviation descending :=
  (fun a b : Ranked =>
     (Js.num (Policy.scoreOf b) <= Js.num (Policy.scoreOf a))%Q).

Lemma StronglySorted_around {A} (R : A -> A -> Prop) (l1 l2 : list A)
  (a : A) :
  StronglySorted R (l1 ++ a :: l2) ->
  Forall (fun x => R x a) l1 /\ Forall (R a) l2.
Proof.
  induction l1 as [|x l1 IH]; simpl; intros H.
  - inversion H; subst. split; [constructor | assumption].
  - inversion H as [|? ? Hs Hall]; subst.
    destruct (IH Hs) as [H1 H2]. split; [|exact H2].
    constructor; [|exact H1].
    rewrite Forall_forall in Hall. apply Hall.
    apply in_or_app. right. left. reflexivity.
Qed.

Lemma filter_none {A} (p : A -> bool) (l : list A) :
  Forall (fun x => p x = false) l -> filter p l = [].
Proof.
  induction 1 as [|x l Hx _ IH]; simpl; [reflexivity|].
  rewrite Hx. exact IH.
Qed.

Lemma filter_every {A} (p : A -> bool) (l : list A) :
  Forall (fun x => p x = true) l -> filter p l = l.
Proof.
  induction 1 as [|x l Hx _ IH]; simpl; [reflexivity|].
  rewrite Hx, IH. reflexivity.
Qed.

Lemma higher_iff (r x : Ranked) :
  Competition.higher r x = true <->
  (Js.num (Policy.scoreOf r) < Js.num (Policy.scoreOf x))%Q.
Proof.
  unfold Competition.higher. rewrite negb_true_iff. split.
  - intros H. apply Qnot_le_lt. intros Hle.
    apply Qle_bool_iff in Hle. congruence.
  - intros H. apply not_true_is_false. intros Hle.
    apply Qle_bool_iff in Hle. lra.
Qed.

Lemma higher_false_iff (r x : Ranked) :
  Competition.higher r x = false <->
  (Js.num (Policy.scoreOf x) <= Js.num (Policy.scoreOf r))%Q.
Proof.
  unfold Competition.higher. rewrite negb_false_iff. apply Qle_bool_iff.
Qed.

Lemma higher_same_score (r p x : Ranked) :
  (Js.num (Policy.scoreOf r) == Js.num (Policy.scoreOf p))%Q ->
  Competition.higher r x = Competition.higher p x.
Proof.
  intros E. destruct (Competition.higher p x) eqn:Hp.
  - apply higher_iff. apply higher_iff in Hp. lra.
  - apply higher_false_iff. apply higher_false_iff in Hp. lra.
Qed.

(** Behind an entry of a descending array nothing scores higher. *)
Lemma higherCount_before (l1 l2 : list Ranked) (r : Ranked) :
  StronglySorted descending (l1 ++ r :: l2) ->
  Competition.higherCount r (l1 ++ r :: l2) = Competition.higherCount r l1.
Proof.
  intros Hs. apply StronglySorted_around in Hs as [_ Hafter].
  unfold Competition.higherCount. rewrite filter_app, length_app.
  assert (E : filter (Competition.higher r) (r :: l2) = []).
  { apply filter_none. constructor.
    - apply higher_false_iff. lra.
    - eapply Forall_impl; [|exact Hafter]. intros x Hx.
      apply higher_false_iff. exact Hx. }
  rewrite E. simpl. lia.
Qed.

Lemma competition_rank_count (l : list Ranked) :
  StronglySorted descending l ->
  Policy.competitionRanked l ->
  forall i r, nth_error l i = Some r ->
    overallRank r = Some (S (Competition.higherCount r l)).
Proof.
  intros Hs Hc i. induction i as [|j IH]; intros r Hi.
  - destruct (Hc _ _ Hi) as (q & _ & Hrank). rewrite Hrank.
    destruct l as [|r0 l]; [discriminate|]. injection Hi as ->.
    pose proof (higherCount_before [] l r Hs) as E. simpl in E.
    rewrite E. reflexivity.
  - destruct (Hc _ _ Hi) as (q & Hq & p & qp & Hp & Hqp & Hsame & Hdiff).
    destruct (Qeq_dec q qp) as [E|E].
    + rewrite (Hsame E), (IH _ Hp). do 2 f_equal.
      unfold Competition.higherCount. f_equal. apply filter_ext.
      intros x. symmetry. apply higher_same_score.
      rewrite Hq, Hqp. simpl. exact E.
    + rewrite (Hdiff E).
      destruct (nth_error_split l (S j) Hi) as (l1 & l2 & -> & Hlen).
      rewrite (higherCount_before l1 l2 r Hs).
      rewrite nth_error_app1 in Hp by lia.
      destruct (nth_error_split l1 j Hp) as (l1' & tl & -> & Hlen').
      assert (tl = []) as ->.
      { rewrite length_app in Hlen. simpl in Hlen.
        destruct tl; [reflexivity | simpl in Hlen; lia]. }
      pose proof Hs as Hs'.
      rewrite <- app_assoc in Hs'. simpl in Hs'.
      apply StronglySorted_around in Hs' as [Hbefore Hafter].
      assert (Hpr : (Js.num (Policy.scoreOf r) < Js.num (Policy.scoreOf p))%Q).
      { inversion Hafter as [|? ? Hle _]; subst.
        rewrite Hq, Hqp in *. simpl in *.
        apply Qle_lteq in Hle as [Hlt|Heq]; [exact Hlt|].
        exfalso. apply E. exact Heq. }
      unfold Competition.higherCount.
      rewrite filter_every.
      * rewrite Hlen. f_equal. lia.
      * apply Forall_app. split.
        -- eapply Forall_impl; [|exact Hbefore]. intros x Hx.
           apply higher_iff. simpl in Hx. lra.
        -- constructor; [|constructor]. apply higher_iff. exact Hpr.
Qed.

Lemma ranked_count
  (generateFullName : string -> string -> option string -> string)
  (localeCompare : string -> string -> Q) (transformed : list Scored) :
  let ranked :=
    rankedStudents (rankTransformed generateFullName localeCompare transformed)
  in
  forall r, In r ranked ->
    overallRank r = Some (S (Competition.higherCount r ranked)).
Proof.
  intros ranked r Hr.
  destruct (rankTransformed_ranked generateFullName localeCompare transformed)
    as [[_ Hs] Hc].
  apply In_nth_error in Hr as (i & Hi).
  exact (competition_rank_count _ Hs Hc i r Hi).
Qed.

End CompetitionCountFacts.

(** X7. In both overall rankings the rank of a ranked student is one more
    than the number of ranked students with a strictly higher score. *)
Theorem X7_rank_counts_higher_scores
  (generateFullName : string -> string -> option string -> string)
  (localeCompare : string -> string -> Q)
  (students : list StudentUserAccount) :
  let exam :=
    PerformanceService.rankedStudents
      (snd (PerformanceService.generateOverallExamRankings
              generateFullName localeCompare students)) in
  let activity :=
    PerformanceService.rankedStudents
      (snd (PerformanceService.generateOverallActivityRankings
              generateFullName localeCompare students)) in
  (forall r, In r exam ->
     PerformanceService.overallRank r
     = Some (S (Competition.higherCount r exam)))
  /\ (forall r, In r activity ->
        PerformanceService.overallRank r
        = Some (S (Competition.higherCount r activity))).
Proof.
  cbv zeta. split.
  - exact (ranked_count generateFullName localeCompare _).
  - exact (ranked_count generateFullName localeCompare _).
Qed.

(* ================================================================== *)
(** * Overall scores and the order of the completions *)
(* ================================================================== *)

Section OrderFacts.

Import PerformanceService.

(** A sorted array is determined by its elements when no two of them
    compare equal. *)
Lemma sorted_unique {A} (R : A -> A -> Prop) (l l' : list A) :
  (forall a b, In a l -> In b l -> R a b -> R b a -> a = b) ->
  StronglySorted R l -> StronglySorted R l' -> Permutation l l' -> l = l'.
Proof.
  revert l'. induction l as [|a l IH]; intros l' Hanti Hs Hs' Hperm.
  - apply Permutation_nil in Hperm. subst. reflexivity.
  - destruct l' as [|b l'].
    + apply Permutation_sym, Permutation_nil in Hperm. discriminate.
    + inversion Hs as [|? ? Hs1 Hall]; subst.
      inversion Hs' as [|? ? Hs1' Hall']; subst.
      rewrite Forall_forall in Hall, Hall'.
      assert (Ha : In a (b :: l'))
        by (eapply Permutation_in; [exact Hperm | left; reflexivity]).
      assert (Hb : In b (a :: l)).
      { eapply Permutation_in; [apply Permutation_sym; exact Hperm|].
        left. reflexivity. }
      assert (E : a = b).
      { destruct Ha as [Ha|Ha]; [congruence|].
        destruct Hb as [Hb|Hb]; [congruence|].
        apply Hanti.
        - left. reflexivity.
        - right. exact Hb.
        - apply Hall. exact Hb.
        - apply Hall'. exact Ha. }
      subst b. f_equal. apply IH.
      * intros x y Hx Hy. apply Hanti; right; assumption.
      * exact Hs1.
      * exact Hs1'.
      * eapply Permutation_cons_inv. exact Hperm.
Qed.

Lemma NoDup_map_inj_on {A} (key : A -> Z) (l : list A) (a b : A) :
  NoDup (map key l) -> In a l -> In b l -> key a = key b -> a = b.
Proof.
  induction l as [|x l IH]; simpl; intros Hnd Ha Hb E; [contradiction|].
  inversion Hnd as [|? ? Hnotin Hnd']; subst.
  destruct Ha as [->|Ha], Hb as [->|Hb].
  - reflexivity.
  - exfalso. apply Hnotin. rewrite E. apply in_map. exact Hb.
  - exfalso. apply Hnotin. rewrite <- E. apply in_map. exact Ha.
  - apply IH; assumption.
Qed.

(** Sorting by distinct keys gives the same array for every order of
    the elements. *)
Lemma sort_perm_eq {A} (key : A -> Z) (l l' : list A) :
  NoDup (map key l) -> Permutation l l' ->
  Js.sort (fun x y => inject_Z (key y - key x)) l
  = Js.sort (fun x y => inject_Z (key y - key x)) l'.
Proof.
  intros Hnd Hperm.
  apply (sorted_unique (Js.before (fun x y => inject_Z (key y - key x)))).
  - intros a b Ha Hb Hab Hba.
    apply (key_desc_before key) in Hab, Hba.
    apply sort_In in Ha, Hb.
    apply (NoDup_map_inj_on key l); try assumption. lia.
  - apply sort_strongly_sorted;
      [apply key_desc_total | apply key_desc_trans].
  - apply sort_strongly_sorted;
      [apply key_desc_total | apply key_desc_trans].
  - eapply Permutation_trans; [apply sort_perm|].
    eapply Permutation_trans; [exact Hperm|].
    apply Permutation_sym, sort_perm.
Qed.

Lemma transformExam_score (s : StudentUserAccount) :
  overallScore (transformExam s)
  = if negb (Js.hasLength (filteredExamCompletions s)) then None
    else Some (Js.reduce (fun total currentValue =>
                            (ec_score currentValue + total)%Q) 0%Q
                 (filteredExamCompletions s)).
Proof.
  unfold transformExam. destruct (negb _); reflexivity.
Qed.

Lemma transformActivity_score (s : StudentUserAccount) :
  overallScore (transformActivity s)
  = if negb (Js.hasLength (filteredActivityCompletions s)) then None
    else Some (sumOrZero
                 (filter (fun com => negb (isTimeBased com))
                    (filteredActivityCompletions s))
               + totalTimeScoreOf
                   (filter isTimeBased (filteredActivityCompletions s)))%Q.
Proof.
  unfold transformActivity. destruct (negb _); reflexivity.
Qed.

Lemma hasLength_keepFirst {A} (key : A -> Z) (l : list A) :
  Js.hasLength (Js.firstPerKey key l) = Js.hasLength l.
Proof.
  rewrite firstPerKey_keepFirst. destruct l; reflexivity.
Qed.

Lemma hasLength_sort {A} (cmp : A -> A -> Q) (l : list A) :
  Js.hasLength (Js.sort cmp l) = Js.hasLength l.
Proof.
  destruct l as [|x l]; [reflexivity|].
  destruct (Js.sort cmp (x :: l)) eqn:E; [|reflexivity].
  apply sort_nil_inv in E. discriminate.
Qed.

Lemma exam_score_null (s : StudentUserAccount) :
  overallScore (transformExam s) = None <-> stu_examCompletions s = [].
Proof.
  rewrite transformExam_score. unfold filteredExamCompletions. simpl.
  rewrite hasLength_keepFirst, hasLength_sort.
  destruct (stu_examCompletions s); simpl; split; congruence.
Qed.

Lemma activity_score_null (s : StudentUserAccount) :
  overallScore (transformActivity s) = None <->
  stu_activityCompletions s = [].
Proof.
  rewrite transformActivity_score. unfold filteredActivityCompletions. simpl.
  rewrite hasLength_keepFirst, hasLength_sort.
  destruct (stu_activityCompletions s); simpl; split; congruence.
Qed.

End OrderFacts.

(** X8. When the completions of a student have pairwise distinct
    [submittedAt], the overall exam score and the overall activity score
    do not depend on the order in which the arrays hold the completions. *)
Theorem X8_overall_scores_order_independent (s s' : StudentUserAccount) :
  NoDup (map ec_submittedAt (stu_examCompletions s)) ->
  NoDup (map com_submittedAt (stu_activityCompletions s)) ->
  Permutation (stu_examCompletions s) (stu_examCompletions s') ->
  Permutation (stu_activityCompletions s) (stu_activityCompletions s') ->
  PerformanceService.overallScore (PerformanceService.transformExam s)
  = PerformanceService.overallScore (PerformanceService.transformExam s')
  /\ PerformanceService.overallScore (PerformanceService.transformActivity s)
     = PerformanceService.overallScore
         (PerformanceService.transformActivity s').
Proof.
  intros Hnd1 Hnd2 Hp1 Hp2. split.
  - rewrite !transformExam_score.
    unfold PerformanceService.filteredExamCompletions. simpl.
    unfold PerformanceService.submittedDescExam.
    rewrite (sort_perm_eq ec_submittedAt _ _ Hnd1 Hp1). reflexivity.
  - rewrite !transformActivity_score.
    unfold PerformanceService.filteredActivityCompletions. simpl.
    unfold PerformanceService.submittedDesc.
    rewrite (sort_perm_eq com_submittedAt _ _ Hnd2 Hp2). reflexivity.
Qed.

Lemma X8_overall_scores_order_independent_witness :
  NoDup (map ec_submittedAt (stu_examCompletions Sample.eve))
  /\ NoDup (map com_submittedAt (stu_activityCompletions Sample.eve))
  /\ PerformanceService.overallScore
       (PerformanceService.transformExam Sample.eve)
     = PerformanceService.overallScore
         (PerformanceService.transformExam SampleOrder.eveLatestFirst).
Proof.
  assert (H1 : NoDup (map ec_submittedAt (stu_examCompletions Sample.eve))).
  { simpl. repeat constructor; simpl; intuition discriminate. }
  assert (H2 : NoDup (map com_submittedAt
                        (stu_activityCompletions Sample.eve)))
    by constructor.
  split; [exact H1|]. split; [exact H2|].
  exact (proj1 (X8_overall_scores_order_independent Sample.eve
                  SampleOrder.eveLatestFirst H1 H2
                  (perm_swap _ _ _) (perm_nil _))).
Defined.

(* ================================================================== *)
(** * Who is ranked, and the detailed performances *)
(* ================================================================== *)

Section PerformanceFacts.

Import PerformanceService.

Variable generateFullName : string -> string -> option string -> string.
Variable localeCompare : string -> string -> Q.

Lemma rankTransformed_unscored (transformed : list Scored) (x : Scored) :
  In x transformed -> overallScore x = None ->
  In (unranked x)
    (unrankedStudents
       (rankTransformed generateFullName localeCompare transformed)).
Proof.
  intros Hin Hnone. simpl. apply in_map. apply sort_In. apply filter_In.
  split; [exact Hin|]. unfold Js.isNull. rewrite Hnone. reflexivity.
Qed.

Lemma rankTransformed_scored (transformed : list Scored) (x : Scored) :
  In x transformed -> overallScore x <> None ->
  exists r,
    In r (rankedStudents
            (rankTransformed generateFullName localeCompare transformed))
    /\ scored r = x /\ overallRank r <> None.
Proof.
  intros Hin Hsome.
  destruct (rankTransformed_ranked generateFullName localeCompare transformed)
    as [[Hperm _] Hc].
  assert (Hx : In x (map scored
                       (rankedStudents
                          (rankTransformed generateFullName localeCompare
                             transformed)))).
  { eapply Permutation_in; [apply Permutation_sym; exact Hperm|].
    apply filter_In. split; [exact Hin|].
    destruct (overallScore x); [reflexivity | congruence]. }
  apply in_map_iff in Hx as (r & Hr & Hin').
  exists r. split; [exact Hin'|]. split; [exact Hr|].
  apply competitionRanked_some in Hc. rewrite Forall_forall in Hc.
  apply Hc. exact Hin'.
Qed.

(** The entry that [find] returns for a student whose id no other
    student of the list has. *)
Lemma findStudent_own (transform : StudentUserAccount -> Scored)
  (s : StudentUserAccount) (others : list StudentUserAccount) :
  (forall x, stu_id (student (transform x)) = stu_id x) ->
  Forall (fun o => stu_id o <> stu_id s) others ->
  exists found,
    findStudent
      (rankTransformed generateFullName localeCompare
         (map transform (s :: others))) (stu_id s) = Js.Ok found
    /\ scored found = transform s.
Proof.
  intros Hid Hothers.
  set (r := rankTransformed generateFullName localeCompare
              (map transform (s :: others))).
  destruct (rankTransformed_partitions generateFullName localeCompare
              (map transform (s :: others))) as (Hperm & _ & _).
  fold r in Hperm.
  assert (Hin : In (stu_id s)
                  (map Totality.rankedId
                     (rankedStudents r ++ unrankedStudents r))).
  { unfold Totality.rankedId.
    rewrite <- (map_map scored (fun x => stu_id (student x))).
    eapply Permutation_in;
      [apply Permutation_map, Permutation_sym; exact Hperm|].
    rewrite map_map. simpl. left. apply Hid. }
  destruct (find_by_id_some Totality.rankedId _ _ Hin)
    as (found & Hfind & Hfound & Hfid).
  exists found. unfold findStudent.
  unfold Totality.rankedId in Hfind. rewrite Hfind.
  split; [reflexivity|].
  assert (Hsc : In (scored found) (map transform (s :: others))).
  { eapply Permutation_in; [exact Hperm|]. apply in_map. exact Hfound. }
  apply in_map_iff in Hsc as (x & Hx & [<-|Hxin]); [symmetry; exact Hx|].
  exfalso. rewrite Forall_forall in Hothers. apply (Hothers x Hxin).
  rewrite <- Hfid. unfold Totality.rankedId. rewrite <- Hx. symmetry.
  apply Hid.
Qed.

Lemma findStudent_ok (transform : StudentUserAccount -> Scored)
  (s : StudentUserAccount) (others : list StudentUserAccount) :
  (forall x, stu_id (student (transform x)) = stu_id x) ->
  exists found,
    findStudent
      (rankTransformed generateFullName localeCompare
         (map transform (s :: others))) (stu_id s) = Js.Ok found.
Proof.
  intros Hid.
  set (r := rankTransformed generateFullName localeCompare
              (map transform (s :: others))).
  destruct (rankTransformed_partitions generateFullName localeCompare
              (map transform (s :: others))) as (Hperm & _ & _).
  fold r in Hperm.
  assert (Hin : In (stu_id s)
                  (map Totality.rankedId
                     (rankedStudents r ++ unrankedStudents r))).
  { unfold Totality.rankedId.
    rewrite <- (map_map scored (fun x => stu_id (student x))).
    eapply Permutation_in;
      [apply Permutation_map, Permutation_sym; exact Hperm|].
    rewrite map_map. simpl. left. apply Hid. }
  destruct (find_by_id_some Totality.rankedId _ _ Hin)
    as (found & Hfind & _).
  exists found. unfold findStudent.
  unfold Totality.rankedId in Hfind. rewrite Hfind. reflexivity.
Qed.




Lemma transformActivity_sorted (s : StudentUserAccount) :
  overallScore (transformActivity (sortActivityCompletions s))
  = overallScore (transformActivity s).
Proof.
  rewrite !transformActivity_score.
  unfold filteredActivityCompletions.
  rewrite sortActivityCompletions_twice. reflexivity.
Qed.


End PerformanceFacts.

(** X9. In both overall rankings a student of the roster is unranked
    exactly when the student has no completion on the track: a student
    without exam completion is in [unrankedStudents] with a null score and
    rank, and a student with one is in [rankedStudents] with a score and a
    rank; likewise for activity completions. *)
Theorem X9_unranked_iff_no_completion
  (generateFullName : string -> string -> option string -> string)
  (localeCompare : string -> string -> Q)
  (students : list StudentUserAccount) (s : StudentUserAccount) :
  In s students ->
  let exam :=
    snd (PerformanceService.generateOverallExamRankings
           generateFullName localeCompare students) in
  let activity :=
    snd (PerformanceService.generateOverallActivityRankings
           generateFullName localeCompare students) in
  (stu_examCompletions s = [] ->
   In (PerformanceService.unranked
         {| PerformanceService.student :=
              PerformanceService.sortExamCompletions s;
            PerformanceService.overallScore := None |})
     (PerformanceService.unrankedStudents exam))
  /\ (stu_examCompletions s <> [] ->
      exists r, In r (PerformanceService.rankedStudents exam)
                /\ PerformanceService.student (PerformanceService.scored r)
                   = PerformanceService.sortExamCompletions s
                /\ Policy.scoreOf r <> None
                /\ PerformanceService.overallRank r <> None)
  /\ (stu_activityCompletions s = [] ->
      In (PerformanceService.unranked
            {| PerformanceService.student :=
                 PerformanceService.sortActivityCompletions s;
               PerformanceService.overallScore := None |})
        (PerformanceService.unrankedStudents activity))
  /\ (stu_activityCompletions s <> [] ->
      exists r, In r (PerformanceService.rankedStudents activity)
                /\ PerformanceService.student (PerformanceService.scored r)
                   = PerformanceService.sortActivityCompletions s
                /\ Policy.scoreOf r <> None
                /\ PerformanceService.overallRank r <> None).
Proof.
  intros Hin. cbv zeta. simpl. split; [|split; [|split]].
  - intros Hnone.
    assert (E : PerformanceService.transformExam s
                = {| PerformanceService.student :=
                       PerformanceService.sortExamCompletions s;
                     PerformanceService.overallScore := None |}).
    { apply exam_score_null in Hnone.
      destruct (PerformanceService.transformExam s) as [st sc] eqn:Et.
      simpl in Hnone. subst sc. f_equal.
      rewrite <- (transformExam_student s), Et. reflexivity. }
    rewrite <- E. apply rankTransformed_unscored.
    + apply in_map. exact Hin.
    + rewrite E. reflexivity.
  - intros Hsome.
    destruct (rankTransformed_scored generateFullName localeCompare
                (map PerformanceService.transformExam students)
                (PerformanceService.transformExam s))
      as (r & Hr & Hsc & Hrank).
    + apply in_map. exact Hin.
    + intros Hnone. apply Hsome. apply exam_score_null. exact Hnone.
    + exists r. split; [exact Hr|]. unfold Policy.scoreOf. rewrite Hsc.
      split; [apply transformExam_student|]. split; [|exact Hrank].
      intros Hnone. apply Hsome. apply exam_score_null. exact Hnone.
  - intros Hnone.
    assert (E : PerformanceService.transformActivity s
                = {| PerformanceService.student :=
                       PerformanceService.sortActivityCompletions s;
                     PerformanceService.overallScore := None |}).
    { apply activity_score_null in Hnone.
      destruct (PerformanceService.transformActivity s) as [st sc] eqn:Et.
      simpl in Hnone. subst sc. f_equal.
      rewrite <- (transformActivity_student s), Et. reflexivity. }
    rewrite <- E. apply rankTransformed_unscored.
    + apply in_map. exact Hin.
    + rewrite E. reflexivity.
  - intros Hsome.
    destruct (rankTransformed_scored generateFullName localeCompare
                (map PerformanceService.transformActivity students)
                (PerformanceService.transformActivity s))
      as (r & Hr & Hsc & Hrank).
    + apply in_map. exact Hin.
    + intros Hnone. apply Hsome. apply activity_score_null. exact Hnone.
    + exists r. split; [exact Hr|]. unfold Policy.scoreOf. rewrite Hsc.
      split; [apply transformActivity_student|]. split; [|exact Hrank].
      intros Hnone. apply Hsome. apply activity_score_null. exact Hnone.
Qed.

Lemma X9_unranked_iff_no_completion_witness :
  In Sample.eve [Sample.eve]
  /\ (stu_activityCompletions Sample.eve = [] ->
      In (PerformanceService.unranked
            {| PerformanceService.student :=
                 PerformanceService.sortActivityCompletions Sample.eve;
               PerformanceService.overallScore := None |})
        (PerformanceService.unrankedStudents
           (snd (PerformanceService.generateOverallActivityRankings
                   Sample.fullName Sample.codeUnitCompare [Sample.eve])))).
Proof.
  split; [left; reflexivity|].
  exact (proj1 (proj2 (proj2
           (X9_unranked_iff_no_completion Sample.fullName
              Sample.codeUnitCompare [Sample.eve] Sample.eve
              (or_introl eq_refl))))).
Defined.

Section DetailedFacts.

Import PerformanceService.

Lemma transformActivity_sorted_eq (s : StudentUserAccount) :
  transformActivity (sortActivityCompletions s) = transformActivity s.
Proof.
  pose proof (transformActivity_sorted s) as Hscore.
  pose proof (transformActivity_student (sortActivityCompletions s)) as H1.
  pose proof (transformActivity_student s) as H2.
  rewrite sortActivityCompletions_twice in H1.
  destruct (transformActivity (sortActivityCompletions s)) as [a b].
  destruct (transformActivity s) as [c d].
  simpl in *. congruence.
Qed.

End DetailedFacts.


(** X11. When no other student has the id of the student, the score and
    the rank of both detailed performances are the student's own: the
    overall score of the student, and the rank of the student's entry in
    the overall ranking of the student together with the others. *)
Theorem X11_performance_is_own
  (generateFullName : string -> string -> option string -> string)
  (localeCompare : string -> string -> Q)
  (getAllExamsByStudentId : Z -> list Exam)
  (getAllActivitiesByStudentId : Z -> list Activity)
  (currentDateTime : Z)
  (s : StudentUserAccount) (otherStudents : list StudentUserAccount) :
  Forall (fun o => stu_id o <> stu_id s) otherStudents ->
  (exists p found,
     snd (PerformanceService.generateOverallExamDetailedPerformance
            generateFullName localeCompare getAllExamsByStudentId
            currentDateTime s otherStudents) = Js.Ok p
     /\ PerformanceService.overallExamScore p
        = PerformanceService.overallScore (PerformanceService.transformExam s)
     /\ PerformanceService.scored found = PerformanceService.transformExam s
     /\ PerformanceService.findStudent
          (snd (PerformanceService.generateOverallExamRankings
                  generateFullName localeCompare (s :: otherStudents)))
          (stu_id s) = Js.Ok found
     /\ PerformanceService.overallExamRank p
        = PerformanceService.overallRank found)
  /\ (exists p found,
        snd (PerformanceService.generateOverallActivityDetailedPerformance
               generateFullName localeCompare getAllActivitiesByStudentId
               s otherStudents) = Js.Ok p
        /\ PerformanceService.overallActivityScore p
           = PerformanceService.overallScore
               (PerformanceService.transformActivity s)
        /\ PerformanceService.scored found
           = PerformanceService.transformActivity s
        /\ PerformanceService.findStudent
             (snd (PerformanceService.generateOverallActivityRankings
                     generateFullName localeCompare (s :: otherStudents)))
             (stu_id s) = Js.Ok found
        /\ PerformanceService.overallActivityRank p
           = PerformanceService.overallRank found).
Proof.
  intros Hothers. split.
  - unfold PerformanceService.generateOverallExamDetailedPerformance.
    unfold PerformanceService.generateOverallExamRankings. simpl snd.
    destruct (findStudent_own generateFullName localeCompare
                PerformanceService.transformExam s otherStudents)
      as (found & Hfound & Hsc).
    { intros x. rewrite transformExam_student. reflexivity. }
    { exact Hothers. }
    simpl map in Hfound. rewrite Hfound. simpl. eexists. exists found.
    split; [reflexivity|]. simpl. rewrite Hsc.
    repeat split; reflexivity.
  - unfold PerformanceService.generateOverallActivityDetailedPerformance.
    unfold PerformanceService.generateOverallActivityRankings. simpl snd.
    simpl map. rewrite transformActivity_sorted_eq.
    destruct (findStudent_own generateFullName localeCompare
                PerformanceService.transformActivity s otherStudents)
      as (found & Hfound & Hsc).
    { intros x. rewrite transformActivity_student. reflexivity. }
    { exact Hothers. }
    simpl map in Hfound. rewrite Hfound. simpl. eexists. exists found.
    split; [reflexivity|]. simpl. rewrite Hsc.
    repeat split; reflexivity.
Qed.

Lemma X11_performance_is_own_witness :
  Forall (fun o => stu_id o <> stu_id Sample.eve) Sample.examRoster
  /\ exists p found,
       snd (PerformanceService.generateOverallExamDetailedPerformance
              Sample.fullName Sample.codeUnitCompare
              SampleOrder.examsOfTeacher 40000 Sample.eve Sample.examRoster)
       = Js.Ok p
       /\ PerformanceService.overallExamScore p
          = PerformanceService.overallScore
              (PerformanceService.transformExam Sample.eve)
       /\ PerformanceService.scored found
          = PerformanceService.transformExam Sample.eve
       /\ PerformanceService.findStudent
            (snd (PerformanceService.generateOverallExamRankings
                    Sample.fullName Sample.codeUnitCompare
                    (Sample.eve :: Sample.examRoster)))
            (stu_id Sample.eve) = Js.Ok found
       /\ PerformanceService.overallExamRank p
          = PerformanceService.overallRank found.
Proof.
  assert (H : Forall (fun o => stu_id o <> stu_id Sample.eve)
                Sample.examRoster).
  { repeat constructor; simpl; discriminate. }
  split; [exact H|].
  exact (proj1 (X11_performance_is_own Sample.fullName Sample.codeUnitCompare
                  SampleOrder.examsOfTeacher SampleOrder.activitiesOfTeacher
                  40000 Sample.eve Sample.examRoster H)).
Defined.


(* ================================================================== *)
(** * Pages of student performances *)
(* ================================================================== *)

Section PaginationFacts.

Import PerformanceService.

Lemma firstn_sum {A} (a b : nat) (l : list A) :
  firstn (a + b) l = firstn a l ++ firstn b (skipn a l).
Proof.
  revert l. induction a as [|a IH]; intros l; simpl; [reflexivity|].
  destruct l as [|x l]; simpl.
  - rewrite firstn_nil. reflexivity.
  - rewrite IH. reflexivity.
Qed.

Lemma skipn_sum {A} (a b : nat) (l : list A) :
  skipn (a + b) l = skipn b (skipn a l).
Proof.
  revert l. induction a as [|a IH]; intros l; simpl; [reflexivity|].
  destruct l as [|x l]; simpl; [rewrite skipn_nil; reflexivity | apply IH].
Qed.

(** For arguments that are not negative, [slice] takes [end - start]
    elements behind the first [start]. *)
Lemma slice_nat {A} (l : list A) (start count : Z) :
  0 <= start -> 0 <= count ->
  Pagination.slice l start (start + count)
  = firstn (Z.to_nat count) (skipn (Z.to_nat start) l).
Proof.
  intros Hs Hc. unfold Pagination.slice, Pagination.relativeIndex.
  destruct (start <? 0) eqn:E1; [apply Z.ltb_lt in E1; lia|].
  destruct (start + count <? 0) eqn:E2; [apply Z.ltb_lt in E2; lia|].
  set (len := Z.of_nat (List.length l)).
  destruct (Z.le_gt_cases len start) as [Hge|Hlt].
  - rewrite (Z.min_r start len) by lia.
    rewrite (Z.min_r (start + count) len) by lia.
    rewrite Z.sub_diag. simpl.
    rewrite (skipn_all2 l) by (unfold len in Hge; lia).
    rewrite firstn_nil. reflexivity.
  - rewrite (Z.min_l start len) by lia.
    destruct (Z.le_gt_cases (start + count) len) as [Hle|Hgt].
    + rewrite (Z.min_l (start + count) len) by lia.
      f_equal. lia.
    + rewrite (Z.min_r (start + count) len) by lia.
      rewrite !firstn_all2; [reflexivity | |];
        rewrite length_skipn; unfold len; lia.
Qed.

Lemma slice_tiles {A} (l : list A) (skip a b : Z) :
  0 <= skip -> 0 <= a -> 0 <= b ->
  Pagination.slice l skip (skip + a)
  ++ Pagination.slice l (skip + a) (skip + a + b)
  = Pagination.slice l skip (skip + (a + b)).
Proof.
  intros Hs Ha Hb.
  rewrite !slice_nat by lia.
  rewrite (Z2Nat.inj_add skip a), (Z2Nat.inj_add a b) by lia.
  rewrite skipn_sum, firstn_sum. reflexivity.
Qed.

Lemma slice_whole {A} (l : list A) :
  Pagination.slice l 0 (0 + Z.of_nat (List.length l)) = l.
Proof.
  rewrite slice_nat by lia. simpl. rewrite Nat2Z.id. apply firstn_all.
Qed.

Lemma slice_length {A} (l : list A) (skip take : Z) :
  0 <= skip -> 0 <= take ->
  (List.length (Pagination.slice l skip (skip + take)) <= Z.to_nat take)%nat.
Proof.
  intros Hs Ht. rewrite slice_nat by lia. apply firstn_le_length.
Qed.

Variable generateFullName : string -> string -> option string -> string.
Variable localeCompare : string -> string -> Q.

(** The array that is cut into pages: the students of the rankings, in
    the order that [sort] asks for. *)
Lemma page_source (students : list StudentUserAccount) (sort : option string)
  (performance : Pagination.StudentPerformanceType) :
  exists targetStudents,
    (forall take skip,
       fst (Pagination.getPaginationStudentPerformancesByTeacherId
              generateFullName localeCompare students sort take skip
              performance)
       = Pagination.slice targetStudents skip (skip + take))
    /\ Permutation (map Totality.rankedId targetStudents)
         (map stu_id students).
Proof.
  unfold Pagination.getPaginationStudentPerformancesByTeacherId.
  set (rankings :=
         match performance with
         | Pagination.ExamPerformances =>
             snd (generateOverallExamRankings generateFullName localeCompare
                    students)
         | Pagination.ActivityPerformances =>
             snd (generateOverallActivityRankings generateFullName
                    localeCompare students)
         end).
  assert (Hperm : Permutation
                    (map Totality.rankedId
                       (rankedStudents rankings ++ unrankedStudents rankings))
                    (map stu_id students)).
  { unfold rankings. destruct performance.
    - apply (rankTransformed_total generateFullName localeCompare
               transformExam students).
      intros s. rewrite transformExam_student. reflexivity.
    - apply (rankTransformed_total generateFullName localeCompare
               transformActivity students).
      intros s. rewrite transformActivity_student. reflexivity. }
  eexists. split; [intros take skip; reflexivity|].
  destruct (Pagination.equals _ "name").
  - eapply Permutation_trans; [|exact Hperm].
    apply Permutation_map, sort_perm.
  - destruct (Pagination.equals _ "rank"); [|exact Hperm].
    destruct (Pagination.equals _ "desc"); [|exact Hperm].
    eapply Permutation_trans; [|exact Hperm].
    apply Permutation_map.
    eapply Permutation_trans; [apply Permutation_app_comm|].
    apply Permutation_app_tail. apply Permutation_sym, Permutation_rev.
Qed.

End PaginationFacts.

(** X13. The pages of [getPaginationStudentPerformancesByTeacherId] tile
    the roster: for a fixed sort, when [skip] and [take] are not negative,
    a page has at most [take] students, a page of [a] students followed by
    the next page of [b] students is the page of [a + b] students, and the
    page that starts at 0 and takes as many students as the count that is
    returned holds every student of the roster exactly once. *)
Theorem X13_pages_tile_roster
  (generateFullName : string -> string -> option string -> string)
  (localeCompare : string -> string -> Q)
  (students : list StudentUserAccount) (sort : option string)
  (performance : Pagination.StudentPerformanceType) (skip a b : Z) :
  0 <= skip -> 0 <= a -> 0 <= b ->
  let page := fun sk tk =>
    fst (Pagination.getPaginationStudentPerformancesByTeacherId
           generateFullName localeCompare students sort tk sk performance) in
  let count :=
    snd (Pagination.getPaginationStudentPerformancesByTeacherId
           generateFullName localeCompare students sort a skip performance) in
  page skip a ++ page (skip + a) b = page skip (a + b)
  /\ (List.length (page skip a) <= Z.to_nat a)%nat
  /\ count = List.length students
  /\ Permutation (map Totality.rankedId (page 0 (Z.of_nat count)))
       (map stu_id students).
Proof.
  intros Hs Ha Hb. cbv zeta.
  destruct (page_source generateFullName localeCompare students sort
              performance) as (target & Hpage & Hperm).
  rewrite !Hpage. split; [|split; [|split]].
  - rewrite <- slice_tiles by assumption. reflexivity.
  - apply slice_length; assumption.
  - reflexivity.
  - simpl snd.
    assert (Hlen : List.length students = List.length target).
    { apply Permutation_length in Hperm. rewrite !length_map in Hperm.
      symmetry. exact Hperm. }
    rewrite Hlen, slice_whole. exact Hperm.
Qed.

Lemma X13_pages_tile_roster_witness :
  0 <= 1 /\ 0 <= 1 /\ 0 <= 2
  /\ fst (Pagination.getPaginationStudentPerformancesByTeacherId
            Sample.fullName Sample.codeUnitCompare Sample.examRoster
            (Some "name,asc"%string) 1 1 Pagination.ExamPerformances)
     ++ fst (Pagination.getPaginationStudentPerformancesByTeacherId
               Sample.fullName Sample.codeUnitCompare Sample.examRoster
               (Some "name,asc"%string) 2 (1 + 1)
               Pagination.ExamPerformances)
     = fst (Pagination.getPaginationStudentPerformancesByTeacherId
              Sample.fullName Sample.codeUnitCompare Sample.examRoster
              (Some "name,asc"%string) (1 + 2) 1
              Pagination.ExamPerformances).
Proof.
  split; [lia|]. split; [lia|]. split; [lia|].
  exact (proj1 (X13_pages_tile_roster Sample.fullName Sample.codeUnitCompare
                  Sample.examRoster (Some "name,asc"%string)
                  Pagination.ExamPerformances 1 1 2
                  ltac:(lia) ltac:(lia) ltac:(lia))).
Defined.

Section PageOrderFacts.

Lemma Sorted_skipn {A} (R : A -> A -> Prop) (n : nat) (l : list A) :
  Sorted R l -> Sorted R (skipn n l).
Proof.
  revert l. induction n as [|n IH]; intros l Hs; simpl; [exact Hs|].
  destruct l as [|x l]; [constructor|].
  apply IH. inversion Hs; assumption.
Qed.

Lemma Sorted_firstn {A} (R : A -> A -> Prop) (n : nat) (l : list A) :
  Sorted R l -> Sorted R (firstn n l).
Proof.
  revert l. induction n as [|n IH]; intros l Hs; simpl; [constructor|].
  destruct l as [|x l]; [constructor|].
  inversion Hs as [|? ? Hs' Hhd]; subst. constructor; [apply IH; exact Hs'|].
  destruct n; simpl; [constructor|].
  destruct Hhd; constructor. assumption.
Qed.

Lemma Sorted_slice {A} (R : A -> A -> Prop) (l : list A) (start end_ : Z) :
  Sorted R l -> Sorted R (Pagination.slice l start end_).
Proof.
  intros Hs. unfold Pagination.slice. apply Sorted_firstn, Sorted_skipn.
  exact Hs.
Qed.

End PageOrderFacts.

(** X14. With the sort [name,asc] every page of
    [getPaginationStudentPerformancesByTeacherId] lists its students in
    ascending order of full name, ranked and unranked students mixed; with
    [name,desc], and with [name] alone, in descending order. *)
Theorem X14_pages_sorted_by_name
  (generateFullName : string -> string -> option string -> string)
  (localeCompare : string -> string -> Q)
  (students : list StudentUserAccount)
  (performance : Pagination.StudentPerformanceType) (take skip : Z) :
  (forall a b, ~ (localeCompare a b <= 0)%Q -> (localeCompare b a <= 0)%Q) ->
  let page := fun sort =>
    fst (Pagination.getPaginationStudentPerformancesByTeacherId
           generateFullName localeCompare students (Some sort) take skip
           performance) in
  Sorted (Policy.byName generateFullName localeCompare)
    (page "name,asc"%string)
  /\ Sorted (fun a b => Policy.byName generateFullName localeCompare b a)
       (page "name,desc"%string)
  /\ Sorted (fun a b => Policy.byName generateFullName localeCompare b a)
       (page "name"%string).
Proof.
  intros Htotal. cbv zeta.
  unfold Pagination.getPaginationStudentPerformancesByTeacherId.
  simpl fst. split; [|split]; apply Sorted_slice.
  - apply (sort_sorted
             (Pagination.byNameIn generateFullName localeCompare
                (Some "asc"%string))).
    intros a b. apply Htotal.
  - apply (sort_sorted
             (Pagination.byNameIn generateFullName localeCompare
                (Some "desc"%string))).
    intros a b. apply Htotal.
  - apply (sort_sorted
             (Pagination.byNameIn generateFullName localeCompare None)).
    intros a b. apply Htotal.
Qed.

Lemma X14_pages_sorted_by_name_witness :
  (forall a b, ~ (Sample.codeUnitCompare a b <= 0)%Q ->
               (Sample.codeUnitCompare b a <= 0)%Q)
  /\ Sorted (Policy.byName Sample.fullName Sample.codeUnitCompare)
       (fst (Pagination.getPaginationStudentPerformancesByTeacherId
               Sample.fullName Sample.codeUnitCompare Sample.examRoster
               (Some "name,asc"%string) 2 0 Pagination.ExamPerformances)).
Proof.
  split; [exact codeUnitCompare_total|].
  exact (proj1 (X14_pages_sorted_by_name Sample.fullName
                  Sample.codeUnitCompare Sample.examRoster
                  Pagination.ExamPerformances 2 0 codeUnitCompare_total)).
Defined.

(* ================================================================== *)
(** * Creating and updating an activity *)
(* ================================================================== *)

Section WriteFacts.

Import StudentActivity ActivityWrites.

Lemma forEach_ok {A} (f : A -> response unit) (xs : list A) :
  forEach f xs = Return tt <-> forall x, In x xs -> f x = Return tt.
Proof.
  induction xs as [|x xs IH]; simpl.
  - split; [intros _ ? [] | reflexivity].
  - destruct (f x) as [[]|e] eqn:E; simpl.
    + rewrite IH. split.
      * intros H y [<-|Hy]; [exact E | apply H; exact Hy].
      * intros H y Hy. apply H. right. exact Hy.
    + split; [discriminate|]. intros H.
      specialize (H x (or_introl eq_refl)). congruence.
Qed.

Lemma checkLevels_ok (levelValues : list Z) (categories : list CategoryDto) :
  checkLevels levelValues categories = Return tt <->
  forall value, In value levelValues ->
    (List.length (filter (fun c => (level c =? value)%Z) categories) <= 1)%nat.
Proof.
  unfold checkLevels. rewrite forEach_ok. split; intros H value Hv.
  - specialize (H value Hv). simpl in H.
    destruct (1 <? _)%nat eqn:E; [discriminate|].
    apply Nat.ltb_ge in E. exact E.
  - specialize (H value Hv). simpl.
    destruct (1 <? _)%nat eqn:E; [|reflexivity].
    apply Nat.ltb_lt in E. lia.
Qed.

Lemma checkChoices_ok (categories : list CategoryDto) :
  checkChoices categories = Return tt <->
  forall c q, In c categories -> In q (questions c) ->
    exists ch, In ch (choices q) /\ isCorrect ch = true.
Proof.
  unfold checkChoices. rewrite forEach_ok. split.
  - intros H c q Hc Hq. specialize (H c Hc). rewrite forEach_ok in H.
    specialize (H q Hq). simpl in H.
    destruct (find isCorrect (choices q)) as [ch|] eqn:E; [|discriminate].
    apply find_some in E. exists ch. exact E.
  - intros H c Hc. rewrite forEach_ok. intros q Hq.
    destruct (H c q Hc Hq) as (ch & Hch & Hcorrect).
    destruct (find isCorrect (choices q)) as [ch'|] eqn:E; [reflexivity|].
    pose proof (find_none _ _ E ch Hch). congruence.
Qed.



Lemma includes_In (ids : list Z) (id : Z) :
  includes ids id = true <-> In id ids.
Proof.
  unfold includes. rewrite existsb_exists. split.
  - intros (x & Hx & E). apply Z.eqb_eq in E. subst. exact Hx.
  - intros H. exists id. split; [exact H | apply Z.eqb_refl].
Qed.

Lemma idsOf_In {A} (idOf : A -> option Z) (xs : list A) (n : Z) :
  In n (idsOf idOf xs) <->
  exists x, In x xs /\ idOf x = Some n /\ n <> 0.
Proof.
  unfold idsOf. rewrite in_flat_map. split.
  - intros (x & Hx & Hn). apply filter_In in Hx as [Hx Hid].
    exists x. split; [exact Hx|]. unfold hasId in Hid.
    destruct (idOf x) as [m|]; [|contradiction].
    destruct Hn as [<-|[]]. split; [reflexivity|].
    apply negb_true_iff, Z.eqb_neq in Hid. exact Hid.
  - intros (x & Hx & Hid & Hn). exists x. split.
    + apply filter_In. split; [exact Hx|]. rewrite Hid. simpl.
      apply negb_true_iff, Z.eqb_neq. exact Hn.
    + rewrite Hid. left. reflexivity.
Qed.

Lemma choicesToDelete_ok (sourceCategory : SourceCategory)
  (t : QuestionDto) (cs : list Choice) :
  choicesToDelete sourceCategory t = Js.Ok cs ->
  exists q n,
    In q (sourceQuestions sourceCategory)
    /\ questionId t = Some n /\ storedQuestionId q = n
    /\ cs = filter
              (fun c => negb (includes (idsOf choiceId (choices t))
                                (storedChoiceId c)))
              (storedChoices q).
Proof.
  unfold choicesToDelete.
  destruct (find _ (sourceQuestions sourceCategory)) as [q|] eqn:E;
    [|discriminate].
  intros H. injection H as <-. apply find_some in E as [Hq Hid].
  destruct (questionId t) as [n|]; [|discriminate].
  apply Z.eqb_eq in Hid. exists q, n. repeat split; assumption.
Qed.

Lemma choicesToDelete_throws (sourceCategory : SourceCategory)
  (t : QuestionDto) :
  (exists cs, choicesToDelete sourceCategory t = Js.Ok cs) <->
  exists q, In q (sourceQuestions sourceCategory)
            /\ questionId t = Some (storedQuestionId q).
Proof.
  split.
  - intros (cs & H). apply choicesToDelete_ok in H
      as (q & n & Hq & Hid & Hn & _).
    exists q. split; [exact Hq|]. rewrite Hid, Hn. reflexivity.
  - intros (q & Hq & Hid). unfold choicesToDelete.
    destruct (find _ (sourceQuestions sourceCategory)) as [q'|] eqn:E;
      [eexists; reflexivity|].
    exfalso. pose proof (find_none _ _ E q Hq) as Hn. simpl in Hn.
    rewrite Hid, Z.eqb_refl in Hn. discriminate.
Qed.

End WriteFacts.

Lemma validate_ok (orderNumberCount : nat) (levelValues : list Z)
  (categories : list ActivityWrites.CategoryDto) :
  ActivityWrites.validate orderNumberCount levelValues categories
  = StudentActivity.Return tt
  <->
  orderNumberCount = 0%nat
  /\ (forall value, In value levelValues ->
        (List.length
           (filter (fun c => (ActivityWrites.level c =? value)%Z) categories)
         <= 1)%nat)
  /\ (forall c q, In c categories -> In q (ActivityWrites.questions c) ->
        exists ch, In ch (ActivityWrites.choices q)
                   /\ ActivityWrites.isCorrect ch = true).
Proof.
  unfold ActivityWrites.validate.
  destruct orderNumberCount as [|n]; simpl.
  - destruct (ActivityWrites.checkLevels levelValues categories)
      as [[]|e] eqn:E; simpl.
    + rewrite checkChoices_ok.
      pose proof (proj1 (checkLevels_ok levelValues categories) E).
      tauto.
    + split; [discriminate|]. intros (_ & Hlv & _).
      pose proof (proj2 (checkLevels_ok levelValues categories) Hlv).
      congruence.
  - split; [discriminate|]. intros (H & _). discriminate.
Qed.

(** X15. The checks of [create] and [update] accept an activity exactly
    when no other activity of the teacher has its order number, no level
    of the enum occurs in more than one of its categories, and every
    question has a correct choice (so that a question without choices is
    refused); a taken order number is reported before anything else. *)
Theorem X15_validate_accepts
  (orderNumberCount : nat) (levelValues : list Z)
  (categories : list ActivityWrites.CategoryDto) :
  (ActivityWrites.validate orderNumberCount levelValues categories
   = StudentActivity.Return tt
   <->
   orderNumberCount = 0%nat
   /\ (forall value, In value levelValues ->
         (List.length
            (filter (fun c => (ActivityWrites.level c =? value)%Z) categories)
          <= 1)%nat)
   /\ (forall c q, In c categories -> In q (ActivityWrites.questions c) ->
         exists ch, In ch (ActivityWrites.choices q)
                    /\ ActivityWrites.isCorrect ch = true))
  /\ ActivityWrites.validate (S orderNumberCount) levelValues categories
     = StudentActivity.Raise
         (StudentActivity.ConflictException
            "Activity number is already present").
Proof.
  split; [apply validate_ok | reflexivity].
Qed.



(** X17. [deleteActivityCategoryQuestions] removes exactly the stored
    questions of the category whose id the update does not name, so that
    no question that the update names is removed; every choice it removes
    is a choice of a stored question that the update names, with an id
    that the update does not list for that question; and it ends without
    error exactly when every question of the update that has an id is a
    stored question of the category. *)
Theorem X17_questions_not_in_update_removed
  (targetQuestions : list ActivityWrites.QuestionDto)
  (sourceCategory : ActivityWrites.SourceCategory) :
  let r :=
    ActivityWrites.deleteActivityCategoryQuestions targetQuestions
      sourceCategory in
  (forall q, In q (ActivityWrites.removedQuestions r) <->
     In q (ActivityWrites.sourceQuestions sourceCategory)
     /\ ~ exists t, In t targetQuestions
                    /\ ActivityWrites.questionId t
                       = Some (ActivityWrites.storedQuestionId q)
                    /\ ActivityWrites.storedQuestionId q <> 0)
  /\ (forall c, In c (ActivityWrites.removedChoices r) ->
        exists t q,
          In t targetQuestions
          /\ In q (ActivityWrites.sourceQuestions sourceCategory)
          /\ ActivityWrites.questionId t
             = Some (ActivityWrites.storedQuestionId q)
          /\ In c (ActivityWrites.storedChoices q)
          /\ ~ exists ch, In ch (ActivityWrites.choices t)
                          /\ ActivityWrites.choiceId ch
                             = Some (ActivityWrites.storedChoiceId c)
                          /\ ActivityWrites.storedChoiceId c <> 0)
  /\ (ActivityWrites.outcome r = Js.Ok tt <->
      forall t, In t targetQuestions ->
        ActivityWrites.hasId (ActivityWrites.questionId t) = true ->
        exists q, In q (ActivityWrites.sourceQuestions sourceCategory)
                  /\ ActivityWrites.questionId t
                     = Some (ActivityWrites.storedQuestionId q)).
Proof.
  cbv zeta. unfold ActivityWrites.deleteActivityCategoryQuestions. simpl.
  split; [|split].
  - intros q. rewrite filter_In, negb_true_iff.
    rewrite <- not_true_iff_false, includes_In, idsOf_In. reflexivity.
  - intros c Hc. apply in_flat_map in Hc as (res & Hres & Hc).
    apply in_map_iff in Hres as (t & Ht & Htin).
    apply filter_In in Htin as [Htin _].
    destruct res as [cs|e]; [|contradiction].
    apply choicesToDelete_ok in Ht as (q & n & Hq & Hid & Hn & ->).
    apply filter_In in Hc as [Hc Hnot].
    exists t, q. split; [exact Htin|]. split; [exact Hq|].
    split; [rewrite Hid, Hn; reflexivity|]. split; [exact Hc|].
    apply negb_true_iff in Hnot. rewrite <- not_true_iff_false in Hnot.
    rewrite includes_In, idsOf_In in Hnot. exact Hnot.
  - match goal with
    | |- (if ?b then _ else _) = _ <-> _ => destruct b eqn:E
    end.
    + split; [|reflexivity]. intros _ t Ht Hid.
      rewrite forallb_forall in E.
      specialize (E (ActivityWrites.choicesToDelete sourceCategory t)).
      apply choicesToDelete_throws.
      destruct (ActivityWrites.choicesToDelete sourceCategory t) as [cs|e]
        eqn:Et; [eexists; reflexivity|].
      assert (false = true); [|discriminate].
      apply E. rewrite <- Et. apply in_map. apply filter_In.
      split; assumption.
    + split; [discriminate|]. intros H. exfalso.
      assert (Hall : forallb
                       (fun r => match r with
                                 | Js.Ok _ => true
                                 | Js.Throw _ => false
                                 end)
                       (map (ActivityWrites.choicesToDelete sourceCategory)
                          (filter
                             (fun q => ActivityWrites.hasId
                                         (ActivityWrites.questionId q))
                             targetQuestions)) = true).
      { apply forallb_forall. intros res Hres.
        apply in_map_iff in Hres as (t & <- & Ht).
        apply filter_In in Ht as [Ht Hid].
        destruct (proj2 (choicesToDelete_throws sourceCategory t)
                    (H t Ht Hid)) as (cs & ->).
        reflexivity. }
      congruence.
Qed.

Section UpdateFacts.

Import ActivityWrites.

Lemma deleteNotIncluded_ok (categories : list CategoryDto)
  (activityCategories : list SourceCategory) :
  outcome (deleteNotIncluded categories activityCategories) = Js.Ok tt ->
  Forall
    (fun cat =>
       exists sourceCategory,
         In sourceCategory activityCategories
         /\ categoryId cat = Some (sourceId sourceCategory)
         /\ outcome (deleteActivityCategoryQuestions (questions cat)
                       sourceCategory) = Js.Ok tt)
    categories.
Proof.
  induction categories as [|cat rest IH]; intros H; [constructor|].
  cbn [deleteNotIncluded] in H.
  destruct (find _ activityCategories) as [src|] eqn:E;
    [|discriminate H].
  remember (deleteActivityCategoryQuestions (questions cat) src) as r
    eqn:Er.
  destruct (outcome r) as [[]|e] eqn:Eo.
  - cbn [outcome] in H. constructor; [|apply IH; exact H].
    apply find_some in E as [Hsrc Hid].
    destruct (categoryId cat) as [n|]; [|discriminate].
    apply Z.eqb_eq in Hid. exists src. split; [exact Hsrc|].
    split; [rewrite Hid; reflexivity|]. rewrite <- Er. exact Eo.
  - rewrite Eo in H. discriminate.
Qed.

End UpdateFacts.

(** X18. The loop of [update] that deletes the questions left out of
    the request ends without error only when every category of the
    request has the id of a category of the stored activity, and every
    question with an id is stored in that category: a request with a
    category that has no id, or an id that the activity does not have,
    fails with a [TypeError]. *)
Theorem X18_update_needs_stored_categories
  (categories : list ActivityWrites.CategoryDto)
  (activityCategories : list ActivityWrites.SourceCategory) :
  ActivityWrites.outcome
    (ActivityWrites.deleteNotIncluded categories activityCategories)
  = Js.Ok tt ->
  Forall
    (fun cat =>
       exists sourceCategory,
         In sourceCategory activityCategories
         /\ ActivityWrites.categoryId cat
            = Some (ActivityWrites.sourceId sourceCategory)
         /\ forall t, In t (ActivityWrites.questions cat) ->
              ActivityWrites.hasId (ActivityWrites.questionId t) = true ->
              exists q,
                In q (ActivityWrites.sourceQuestions sourceCategory)
                /\ ActivityWrites.questionId t
                   = Some (ActivityWrites.storedQuestionId q))
    categories.
Proof.
  intros H. apply deleteNotIncluded_ok in H.
  eapply Forall_impl; [|exact H].
  intros cat (src & Hsrc & Hid & Hok). exists src.
  split; [exact Hsrc|]. split; [exact Hid|].
  unfold ActivityWrites.deleteActivityCategoryQuestions in Hok.
  simpl in Hok.
  match type of Hok with
  | (if ?b then _ else _) = _ => destruct b eqn:E; [|discriminate]
  end.
  intros t Ht Hhas. rewrite forallb_forall in E.
  specialize (E (ActivityWrites.choicesToDelete src t)).
  apply choicesToDelete_throws.
  destruct (ActivityWrites.choicesToDelete src t) as [cs|e] eqn:Et;
    [eexists; reflexivity|].
  assert (false = true); [|discriminate].
  apply E. rewrite <- Et. apply in_map. apply filter_In. split; assumption.
Qed.

Lemma X18_update_needs_stored_categories_witness :
  ActivityWrites.outcome
    (ActivityWrites.deleteNotIncluded ActivityWrites.updateDto
       [ActivityWrites.storedCategory])
  = Js.Ok tt
  /\ Forall
       (fun cat =>
          exists sourceCategory,
            In sourceCategory [ActivityWrites.storedCategory]
            /\ ActivityWrites.categoryId cat
               = Some (ActivityWrites.sourceId sourceCategory)
            /\ forall t, In t (ActivityWrites.questions cat) ->
                 ActivityWrites.hasId (ActivityWrites.questionId t) = true ->
                 exists q,
                   In q (ActivityWrites.sourceQuestions sourceCategory)
                   /\ ActivityWrites.questionId t
                      = Some (ActivityWrites.storedQuestionId q))
       ActivityWrites.updateDto.
Proof.
  split; [reflexivity|].
  exact (X18_update_needs_stored_categories ActivityWrites.updateDto
           [ActivityWrites.storedCategory] eq_refl).
Defined.

(* ================================================================== *)
(** * The activities of a student, with the latest completions *)
(* ================================================================== *)

Section LoadedFacts.

Import LoadedActivities.

Lemma latestOf_holdsLatest (studentId : Z) (cat : LoadedCategory) :
  holdsLatest studentId cat (latestOf studentId cat).
Proof.
  unfold holdsLatest, latestOf. simpl. split; [reflexivity|].
  set (mine := filter (fun completion => com_studentId completion =? studentId)
                 (loadedCompletions cat)).
  destruct (Js.sort PerformanceService.submittedDesc mine) as [|first rest]
    eqn:E.
  - apply sort_nil_inv in E. intros c Hc Hid.
    assert (Hin : In c mine).
    { apply filter_In. split; [exact Hc | apply Z.eqb_eq; exact Hid]. }
    rewrite E in Hin. contradiction.
  - assert (Hfirst : In first mine).
    { apply (sort_In PerformanceService.submittedDesc). rewrite E.
      left. reflexivity. }
    apply filter_In in Hfirst as [Hin Hid]. apply Z.eqb_eq in Hid.
    split; [exact Hin|]. split; [exact Hid|].
    intros c Hc Hcid.
    assert (Hb : Js.before PerformanceService.submittedDesc first c).
    { eapply sort_head_least.
      - apply (key_desc_total com_submittedAt).
      - apply (key_desc_trans com_submittedAt).
      - intros y. apply (key_desc_before com_submittedAt). lia.
      - exact E.
      - apply filter_In. split; [exact Hc | apply Z.eqb_eq; exact Hcid]. }
    apply (key_desc_before com_submittedAt) in Hb. exact Hb.
Qed.

End LoadedFacts.

(** X19. [getActivitiesWithCompletionsByStudentIdAndTeacherId] returns
    the activities it is given, with their categories in the same order;
    each category holds at most one completion, the completion of the
    student in that category that was submitted last, and none when the
    student has no completion in it. *)
Theorem X19_latest_completion_per_category
  (activities : list LoadedActivities.LoadedActivity) (studentId : Z) :
  Forall2
    (fun before after =>
       LoadedActivities.loadedId after = LoadedActivities.loadedId before
       /\ LoadedActivities.loadedGameType after
          = LoadedActivities.loadedGameType before
       /\ Forall2 (LoadedActivities.holdsLatest studentId)
            (LoadedActivities.loadedCategories before)
            (LoadedActivities.loadedCategories after))
    activities
    (LoadedActivities.getActivitiesWithCompletionsByStudentIdAndTeacherId
       activities studentId)
  /\ map LoadedActivities.loadedCompletions
       [LoadedActivities.latestOf 1 LoadedActivities.sampleCategory]
     = [[Sample.completionOf 63 1 Sample.easy (7 # 1) (9 # 1) 200]].
Proof.
  split; [|reflexivity].
  unfold LoadedActivities.getActivitiesWithCompletionsByStudentIdAndTeacherId.
  apply Forall2_map_right. intros activity. simpl.
  split; [reflexivity|]. split; [reflexivity|].
  apply Forall2_map_right. apply latestOf_holdsLatest.
Qed.

(* ================================================================== *)
(** * The completions that the overall activity score counts *)
(* ================================================================== *)

Section OverallKeptFacts.

Import PerformanceService.

Lemma filteredActivityCompletions_latest (s : StudentUserAccount) :
  let kept := filteredActivityCompletions s in
  NoDup (map categoryIdOf kept)
  /\ (forall k, In k kept -> In k (stu_activityCompletions s))
  /\ (forall c, In c (stu_activityCompletions s) ->
        exists k, In k kept /\ categoryIdOf k = categoryIdOf c
                  /\ com_submittedAt c <= com_submittedAt k).
Proof.
  cbv zeta. unfold filteredActivityCompletions. simpl.
  rewrite firstPerKey_keepFirst. split; [|split].
  - apply keepFirst_nodup.
  - intros k Hk. apply keepFirst_In in Hk as [Hk _].
    apply sort_In in Hk. exact Hk.
  - intros c Hc. apply (sort_In submittedDesc) in Hc.
    destruct (keepFirst_covers categoryIdOf [] _ c Hc eq_refl)
      as (k & Hk & He).
    exists k. split; [exact Hk|]. split; [exact He|].
    assert (Hss : StronglySorted (Js.before submittedDesc)
                    (Js.sort submittedDesc (stu_activityCompletions s))).
    { apply sort_strongly_sorted.
      - apply (key_desc_total com_submittedAt).
      - apply (key_desc_trans com_submittedAt). }
    destruct (keepFirst_first categoryIdOf _ [] _ k c Hss Hk Hc (eq_sym He))
      as [->|Hb]; [lia|].
    apply (key_desc_before com_submittedAt) in Hb. exact Hb.
Qed.

Lemma orZero_eq (q : Q) : (orZero q == q)%Q.
Proof.
  unfold orZero. destruct (Qeq_bool q 0) eqn:E; [|reflexivity].
  apply Qeq_bool_iff in E. symmetry. exact E.
Qed.

Lemma sumOrZero_from (coms : list ActivityCategoryCompletion) (acc : Q) :
  (fold_left (fun total com => orZero (com_score com) + total) coms acc
   == acc + fold_right (fun com total => com_score com + total) 0 coms)%Q.
Proof.
  revert acc. induction coms as [|c coms IH]; intros acc; simpl.
  - lra.
  - rewrite IH. pose proof (orZero_eq (com_score c)) as E. lra.
Qed.

Lemma point_only_score (s : StudentUserAccount) :
  Forall (fun c => isTimeBased c = false) (stu_activityCompletions s) ->
  stu_activityCompletions s <> [] ->
  exists q,
    overallScore (transformActivity s) = Some q
    /\ (q == fold_right (fun com total => com_score com + total) 0
               (filteredActivityCompletions s))%Q.
Proof.
  intros Hall Hne.
  destruct (overallScore (transformActivity s)) as [q|] eqn:E;
    [|apply activity_score_null in E; contradiction].
  exists q. split; [reflexivity|].
  rewrite transformActivity_score in E.
  destruct (negb (Js.hasLength (filteredActivityCompletions s)));
    [discriminate|].
  injection E as <-.
  assert (Hkept : Forall (fun c => isTimeBased c = false)
                    (filteredActivityCompletions s)).
  { rewrite Forall_forall in *. intros k Hk. apply Hall.
    apply (proj1 (proj2 (filteredActivityCompletions_latest s))). exact Hk. }
  rewrite (filter_every (fun com => negb (isTimeBased com))).
  - rewrite (filter_none isTimeBased) by exact Hkept.
    unfold sumOrZero, Js.reduce. rewrite sumOrZero_from.
    unfold totalTimeScoreOf, Js.reduce. simpl. lra.
  - eapply Forall_impl; [|exact Hkept]. intros c Hc. simpl.
    rewrite Hc. reflexivity.
Qed.

End OverallKeptFacts.

(** X20. The overall activity score counts one completion per category,
    the one submitted last (not the one with the best score): the
    completions it keeps are completions of the student, with pairwise
    distinct categories, one for every category the student completed,
    and no other completion of the category is later. For a student with
    completions none of which is of a time-based activity, the score is
    the sum of the scores of the completions kept. *)
Theorem X20_overall_activity_counts_latest (s : StudentUserAccount) :
  let kept := PerformanceService.filteredActivityCompletions s in
  NoDup (map PerformanceService.categoryIdOf kept)
  /\ (forall k, In k kept -> In k (stu_activityCompletions s))
  /\ (forall c, In c (stu_activityCompletions s) ->
        exists k, In k kept
                  /\ PerformanceService.categoryIdOf k
                     = PerformanceService.categoryIdOf c
                  /\ com_submittedAt c <= com_submittedAt k)
  /\ (Forall (fun c => PerformanceService.isTimeBased c = false)
        (stu_activityCompletions s) ->
      stu_activityCompletions s <> [] ->
      exists q,
        PerformanceService.overallScore
          (PerformanceService.transformActivity s) = Some q
        /\ (q == fold_right (fun com total => com_score com + total) 0 kept)%Q).
Proof.
  cbv zeta.
  destruct (filteredActivityCompletions_latest s) as (H1 & H2 & H3).
  split; [exact H1|]. split; [exact H2|]. split; [exact H3|].
  apply point_only_score.
Qed.

(* ================================================================== *)
(** * The performance of one student *)
(* ================================================================== *)

Section SummaryFacts.

Import PerformanceService StudentSummary.

Variable generateFullName : string -> string -> option string -> string.
Variable localeCompare : string -> string -> Q.

Lemma assignRanks_examSorted (l : list Scored) (index : nat)
  (previousScore : option Q) (currentRank : option nat) :
  assignRanks index previousScore currentRank (map examSorted l)
  = map examSortedRanked (assignRanks index previousScore currentRank l).
Proof.
  revert index previousScore currentRank.
  induction l as [|x l IH]; intros; simpl; [reflexivity|].
  rewrite IH. reflexivity.
Qed.

Lemma rankTransformed_examSorted (transformed : list Scored) :
  rankedStudents
    (rankTransformed generateFullName localeCompare
       (map examSorted transformed))
  = map examSortedRanked
      (rankedStudents
         (rankTransformed generateFullName localeCompare transformed))
  /\ unrankedStudents
       (rankTransformed generateFullName localeCompare
          (map examSorted transformed))
     = map examSortedRanked
         (unrankedStudents
            (rankTransformed generateFullName localeCompare transformed)).
Proof.
  simpl. split.
  - rewrite (filter_map_comm examSorted
               (fun s => Js.notNull (overallScore s))) by reflexivity.
    rewrite (sort_map examSorted scoreDesc scoreDesc) by reflexivity.
    apply assignRanks_examSorted.
  - rewrite (filter_map_comm examSorted
               (fun s => Js.isNull (overallScore s))) by reflexivity.
    rewrite (sort_map examSorted
               (byFullName generateFullName localeCompare)
               (byFullName generateFullName localeCompare)) by reflexivity.
    rewrite !map_map. reflexivity.
Qed.

Lemma find_map_comm {A B} (g : A -> B) (p : A -> bool) (p' : B -> bool)
  (l : list A) :
  (forall a, p' (g a) = p a) ->
  find p' (map g l) = option_map g (find p l).
Proof.
  intros H. induction l as [|x l IH]; simpl; [reflexivity|].
  rewrite H. destruct (p x); [reflexivity | exact IH].
Qed.

Lemma findStudent_examSorted (transformed : list Scored) (id : Z) :
  findStudent
    (rankTransformed generateFullName localeCompare
       (map examSorted transformed)) id
  = match
      findStudent
        (rankTransformed generateFullName localeCompare transformed) id
    with
    | Js.Ok found => Js.Ok (examSortedRanked found)
    | Js.Throw e => Js.Throw e
    end.
Proof.
  unfold findStudent.
  destruct (rankTransformed_examSorted transformed) as [-> ->].
  rewrite <- map_app.
  rewrite (find_map_comm examSortedRanked
             (fun s => stu_id (student (scored s)) =? id)) by reflexivity.
  destruct (find _ _); reflexivity.
Qed.

Lemma transformActivity_examSorted (s : StudentUserAccount) :
  transformActivity (sortExamCompletions s) = examSorted (transformActivity s).
Proof.
  unfold transformActivity.
  change (filteredActivityCompletions (sortExamCompletions s))
    with (filteredActivityCompletions s).
  destruct (negb (Js.hasLength (filteredActivityCompletions s)));
    reflexivity.
Qed.

(** The in-place sorts of the exam track do not change what the
    activity track returns. *)
Lemma activity_performance_after_exam
  (getAllActivitiesByStudentId : Z -> list Activity)
  (s : StudentUserAccount) (otherStudents : list StudentUserAccount) :
  snd (generateOverallActivityDetailedPerformance generateFullName
         localeCompare getAllActivitiesByStudentId
         (sortExamCompletions s) (map sortExamCompletions otherStudents))
  = snd (generateOverallActivityDetailedPerformance generateFullName
           localeCompare getAllActivitiesByStudentId s otherStudents).
Proof.
  unfold generateOverallActivityDetailedPerformance.
  unfold generateOverallActivityRankings. simpl snd. simpl map.
  rewrite !transformActivity_sorted_eq.
  rewrite transformActivity_examSorted.
  rewrite map_map.
  rewrite (map_ext (fun x => transformActivity (sortExamCompletions x))
             (fun x => examSorted (transformActivity x)))
    by (intros x; apply transformActivity_examSorted).
  rewrite <- (map_map transformActivity examSorted).
  change (examSorted (transformActivity s)
          :: map examSorted (map transformActivity otherStudents))
    with (map examSorted
            (transformActivity s :: map transformActivity otherStudents)).
  rewrite findStudent_examSorted.
  change (stu_id (sortExamCompletions s)) with (stu_id s).
  destruct (findStudent _ (stu_id s)); reflexivity.
Qed.

End SummaryFacts.

Lemma exam_performance_returns
  (generateFullName : string -> string -> option string -> string)
  (localeCompare : string -> string -> Q)
  (getAllExamsByStudentId : Z -> list Exam) (currentDateTime : Z)
  (s : StudentUserAccount) (otherStudents : list StudentUserAccount) :
  exists e,
    snd (PerformanceService.generateOverallExamDetailedPerformance
           generateFullName localeCompare getAllExamsByStudentId
           currentDateTime s otherStudents) = Js.Ok e.
Proof.
  unfold PerformanceService.generateOverallExamDetailedPerformance.
  unfold PerformanceService.generateOverallExamRankings. simpl snd.
  destruct (findStudent_ok generateFullName localeCompare
              PerformanceService.transformExam s otherStudents)
    as (found & Hfound).
  { intros x. rewrite transformExam_student. reflexivity. }
  simpl map in Hfound. rewrite Hfound. simpl. eexists. reflexivity.
Qed.

Lemma activity_performance_returns
  (generateFullName : string -> string -> option string -> string)
  (localeCompare : string -> string -> Q)
  (getAllActivitiesByStudentId : Z -> list Activity)
  (s : StudentUserAccount) (otherStudents : list StudentUserAccount) :
  exists a,
    snd (PerformanceService.generateOverallActivityDetailedPerformance
           generateFullName localeCompare getAllActivitiesByStudentId
           s otherStudents) = Js.Ok a.
Proof.
  unfold PerformanceService.generateOverallActivityDetailedPerformance.
  unfold PerformanceService.generateOverallActivityRankings. simpl snd.
  simpl map. rewrite transformActivity_sorted_eq.
  destruct (findStudent_ok generateFullName localeCompare
              PerformanceService.transformActivity s otherStudents)
    as (found & Hfound).
  { intros x. rewrite transformActivity_student. reflexivity. }
  simpl map in Hfound. rewrite Hfound. simpl. eexists. reflexivity.
Qed.

(** X21. The performance of a student that is found is returned without
    error, and it is made of the exam performance and of the activity
    performance of the student as each function computes it on its own:
    the in-place sorts of the first call do not change the result of the
    second. A student that is not found gives "Student not found". *)
Theorem X21_student_performance
  (generateFullName : string -> string -> option string -> string)
  (localeCompare : string -> string -> Q)
  (getAllExamsByStudentId : Z -> list Exam)
  (getAllActivitiesByStudentId : Z -> list Activity)
  (currentDateTime : Z)
  (s : StudentUserAccount) (otherStudents : list StudentUserAccount) :
  (exists e a,
     StudentSummary.getStudentPerformance generateFullName localeCompare
       getAllExamsByStudentId getAllActivitiesByStudentId currentDateTime
       (Some s) otherStudents
     = StudentActivity.Return
         {| StudentSummary.identity := StudentSummary.identityOf s;
            StudentSummary.examPerformance := e;
            StudentSummary.activityPerformance := a |}
     /\ snd (PerformanceService.generateOverallExamDetailedPerformance
               generateFullName localeCompare getAllExamsByStudentId
               currentDateTime s otherStudents) = Js.Ok e
     /\ snd (PerformanceService.generateOverallActivityDetailedPerformance
               generateFullName localeCompare getAllActivitiesByStudentId
               s otherStudents) = Js.Ok a)
  /\ StudentSummary.getStudentPerformance generateFullName localeCompare
       getAllExamsByStudentId getAllActivitiesByStudentId currentDateTime
       None otherStudents
     = StudentActivity.Raise
         (StudentActivity.NotFoundException "Student not found").
Proof.
  split; [|reflexivity].
  destruct (exam_performance_returns generateFullName localeCompare
              getAllExamsByStudentId currentDateTime s otherStudents)
    as (e & He).
  destruct (activity_performance_returns generateFullName
              localeCompare getAllActivitiesByStudentId s otherStudents)
    as (a & Ha).
  exists e, a. split; [|split; assumption].
  unfold StudentSummary.getStudentPerformance.
  destruct (PerformanceService.generateOverallExamDetailedPerformance
              generateFullName localeCompare getAllExamsByStudentId
              currentDateTime s otherStudents) as [st1 r1] eqn:E1.
  destruct (PerformanceService.generateOverallActivityDetailedPerformance
              generateFullName localeCompare getAllActivitiesByStudentId
              (PerformanceService.sortExamCompletions s)
              (map PerformanceService.sortExamCompletions otherStudents))
    as [st2 r2] eqn:E2.
  simpl in He. subst r1.
  pose proof (activity_performance_after_exam generateFullName localeCompare
                getAllActivitiesByStudentId s otherStudents) as Hsame.
  rewrite E2, Ha in Hsame. simpl in Hsame. subst r2. reflexivity.
Qed.
